(** * The alignment pipeline of [pipes/alignment.py]

    A shallow embedding of class [AlignmentPipeline]: the pair enumeration of
    [align_texts], the adapter [_align_sents], the serializer [_generate_xml]
    with [_prettify_and_refine_xml] and [_rearrange_link_attributes], and the
    export loop of [save_alignment_file].

    Python [str] values are modelled as [string] (the bytes of their UTF-8
    encoding, whose byte order agrees with code point order), Python
    integers as [Z], lists as [list], the files of the output directory as a
    [gmap] from path to content.  Exceptions are values of [result]; the
    external aligner is a parameter that returns index groups or raises.

    What lies outside the model: [load_data] (the table is taken as loaded,
    with [processed_text] computed), the spreadsheet written at the end,
    failures of the file system other than a file name [open] cannot take
    (permissions, space, a directory in the place of a file), and whitespace
    or case mappings of characters beyond ASCII. *)

From Stdlib Require Import String Ascii ZArith List Lia Bool DecimalString.
From stdpp Require Import gmap strings list sorting.

Set Warnings "-register-all".


(** ** Python primitives used by the module *)

Module Py.

(** [sub in s] on [str]. *)
Fixpoint contains (sub s : string) : bool :=
  String.prefix sub s ||
  match s with
  | EmptyString => false
  | String _ s' => contains sub s'
  end.

(** [s.split(sep)] for a separator of one character. *)
Fixpoint split (sep : ascii) (s : string) : list string :=
  match s with
  | EmptyString => [EmptyString]
  | String c s' =>
    if Ascii.eqb c sep then EmptyString :: split sep s'
    else match split sep s' with
         | w :: ws => String c w :: ws
         | [] => [String c EmptyString]
         end
  end.

(** [sep.join(parts)]. *)
Definition join (sep : string) (parts : list string) : string :=
  String.concat sep parts.

(** [f"{n}"] for an integer. *)
Definition str_of_int (n : Z) : string :=
  NilZero.string_of_int (Z.to_int n).

(** [f"{len(l)}"]. *)
Definition str_of_len {A} (l : list A) : string :=
  str_of_int (Z.of_nat (List.length l)).

(** [c.lower()] on the ASCII range; bytes of other code points are preserved. *)
Definition lower_char (c : ascii) : ascii :=
  let n := N_of_ascii c in
  if ((65 <=? n) && (n <=? 90))%N then ascii_of_N (n + 32) else c.

Fixpoint lower (s : string) : string :=
  match s with
  | EmptyString => EmptyString
  | String c s' => String (lower_char c) (lower s')
  end.

(** Truth value of an [Optional[list]]: [None] and [[]] are falsy. *)
Definition truthy {A} (o : option (list A)) : bool :=
  match o with
  | Some (_ :: _) => true
  | _ => false
  end.

(** [not s] for a [str]. *)
Definition falsy_str (s : string) : bool :=
  match s with
  | EmptyString => true
  | _ => false
  end.

(** Comparison [<] of two 3-tuples of [str]: the first position where the
    tuples differ decides. *)
Definition tuple_ltb (a b : string * string * string) : bool :=
  let '(a1, a2, a3) := a in
  let '(b1, b2, b3) := b in
  if negb (String.eqb a1 b1) then String.ltb a1 b1
  else if negb (String.eqb a2 b2) then String.ltb a2 b2
  else if negb (String.eqb a3 b3) then String.ltb a3 b3
  else false.

(** [os.path.join(d, name)] for a relative [name]. *)
Definition path_join (d name : string) : string :=
  match String.rev d with
  | EmptyString => name
  | String "/" _ => d +:+ name
  | _ => d +:+ "/" +:+ name
  end.

(** [c.isspace()] on the ASCII range, which is also what [\s] matches. *)
Definition isspace (c : ascii) : bool :=
  let n := N_of_ascii c in
  (((9 <=? n) && (n <=? 13)) || ((28 <=? n) && (n <=? 32)))%N.

(** [s.replace(old, new)] for a non-empty [old]: the occurrences of [old]
    are found from the left and do not overlap.  [skip] counts the characters
    of the current occurrence that are still to be dropped. *)
Fixpoint replace_from (old new : string) (skip : nat) (s : string) : string :=
  match s with
  | EmptyString => EmptyString
  | String c s' =>
    match skip with
    | S k => replace_from old new k s'
    | O =>
      if String.prefix old s
      then new +:+ replace_from old new (String.length old - 1) s'
      else String c (replace_from old new 0 s')
    end
  end.

Definition replace (old new s : string) : string := replace_from old new 0 s.

(** [s.lstrip()], [s.rstrip()] and [s.strip()]. *)
Fixpoint lstrip (s : string) : string :=
  match s with
  | EmptyString => EmptyString
  | String c s' => if isspace c then lstrip s' else s
  end.

Fixpoint rstrip (s : string) : string :=
  match s with
  | EmptyString => EmptyString
  | String c s' =>
    match rstrip s' with
    | EmptyString => if isspace c then EmptyString else String c EmptyString
    | r => String c r
    end
  end.

Definition strip (s : string) : string := rstrip (lstrip s).

(** [re.sub(r'>\s*<', '>\n<', s)].  [pending] is [Some ws] while a match
    attempt is open: a [>] was read, followed by the whitespace [ws].  The
    attempt succeeds on [<]; on any other character the text read so far is
    copied unchanged (a [>] opens the next attempt). *)
Fixpoint re_sub_from (pending : option string) (s : string) : string :=
  match s with
  | EmptyString =>
    match pending with
    | Some ws => ">" +:+ ws
    | None => EmptyString
    end
  | String c s' =>
    match pending with
    | None =>
      if Ascii.eqb c ">" then re_sub_from (Some EmptyString) s'
      else String c (re_sub_from None s')
    | Some ws =>
      if Ascii.eqb c "<" then ">" +:+ String "010" "<" +:+ re_sub_from None s'
      else if isspace c then re_sub_from (Some (ws +:+ String c EmptyString)) s'
      else if Ascii.eqb c ">" then ">" +:+ ws +:+ re_sub_from (Some EmptyString) s'
      else ">" +:+ ws +:+ String c (re_sub_from None s')
    end
  end.

Definition re_sub_tag_gap (s : string) : string := re_sub_from None s.

(** An insertion-ordered [dict] with [str] keys. *)
Definition dict : Type := list (string * string).

Fixpoint dict_get (k : string) (d : dict) : option string :=
  match d with
  | [] => None
  | (k', v) :: d' => if String.eqb k' k then Some v else dict_get k d'
  end.

(** [k in d]. *)
Definition dict_mem (k : string) (d : dict) : bool :=
  match dict_get k d with
  | Some _ => true
  | None => false
  end.

(** [d.pop(k)]: the dict without [k]. *)
Definition dict_remove (k : string) (d : dict) : dict :=
  List.filter (fun kv => negb (String.eqb (fst kv) k)) d.

(** [d[k] = v]: an existing key keeps its position. *)
Fixpoint dict_set (k v : string) (d : dict) : dict :=
  match d with
  | [] => [(k, v)]
  | (k', v') :: d' => if String.eqb k' k then (k', v) :: d' else (k', v') :: dict_set k v d'
  end.

(** [d.update(other)]. *)
Definition dict_update (d other : dict) : dict :=
  fold_left (fun acc kv => dict_set (fst kv) (snd kv) acc) other d.

End Py.

(** ** Data model *)

(** A row of [texts_data] after [load_data].  The cells are strings: a
    blank cell, which pandas holds as NaN, is outside the table type (a NaN
    id matches no row, itself included, and a NaN key cell takes the row out
    of every group). *)
Record Row := mkRow {
  id : string;
  event_id : string;
  lang : string;
  source_target : string;
  spoken_written : string;
  processed_text : string
}.

Definition GroupKey : Type := string * string * string.

(** The key of [group.groupby(['lang', 'source_target', 'spoken_written'])]. *)
Definition group_key (r : Row) : GroupKey :=
  (lang r, source_target r, spoken_written r).

(** Order in which pandas sorts the group keys. *)
Definition key_le (a b : GroupKey) : Prop := Py.tuple_ltb b a = false.

Global Instance key_le_dec : RelDecision key_le.
Proof. intros a b. unfold key_le. apply _. Defined.

(** [DataFrame.groupby(by)]: one group per distinct key, keys ascending,
    the rows of a group in table order. *)
Definition groupby {K} `{EqDecision K} (le : relation K) `{RelDecision K K le}
    (by_ : Row -> K) (rows : list Row) : list (K * list Row) :=
  (fun k => (k, filter (fun r => by_ r = k) rows))
    <$> merge_sort le (remove_dups (by_ <$> rows)).

(** ** Pair enumerator: the two loops over [combinations] and their guard *)

Definition group_pairs (combinations : list (GroupKey * list Row))
  : list ((GroupKey * list Row) * (GroupKey * list Row)) :=
  c1 ← combinations;
  c2 ← combinations;
  if Py.tuple_ltb c1.1 c2.1 then [(c1, c2)] else [].

(** [pair_name] as built by the f-string of [align_texts]. *)
Definition pair_name_of (k1 k2 : GroupKey) : string :=
  let '(lang1, src_target1, spoken_written1) := k1 in
  let '(lang2, src_target2, spoken_written2) := k2 in
  "EPTIC." +:+ Py.lower lang1 +:+ "_" +:+ Py.lower spoken_written1 +:+ "_"
    +:+ Py.lower src_target1 +:+ "."
    +:+ Py.lower lang2 +:+ "_" +:+ Py.lower spoken_written2 +:+ "_"
    +:+ Py.lower src_target2.

Definition combinations_of (group : list Row) : list (GroupKey * list Row) :=
  groupby key_le group_key group.

(** The pairs [(a, b)] with [a < b] drawn from a key list, in the order of
    two nested loops over it. *)
Definition ordered_pairs {K} (ltb : K -> K -> bool) (l : list K) : list (K * K) :=
  a ← l; b ← l; if ltb a b then [(a, b)] else [].

Definition above {K} (ltb : K -> K -> bool) (l : list K) (a : K) : list (K * K) :=
  b ← l; if ltb a b then [(a, b)] else [].

(** The key pairs visited by the loops of [align_texts] for one event. *)
Definition visited_keys (group : list Row) : list (GroupKey * GroupKey) :=
  (fun p => (p.1.1, p.2.1)) <$> group_pairs (combinations_of group).

(** ** Exceptions *)

Inductive exn :=
| IndexError      (** [.values[0]] on an empty selection *)
| ParseError      (** raised by [fromstring] *)
| AlignerError    (** any fault of the external aligner *)
| OSError         (** [open]: no such directory, or a name too long *)
| ValueError      (** [open]: a null character in the path *)
| Unmodelled.     (** the input leaves the modelled part of XML *)

Inductive result (A : Type) :=
| Ok (a : A)
| Raise (e : exn).

Arguments Ok {A} a.
Arguments Raise {A} e.

Definition bind {A B} (m : result A) (k : A -> result B) : result B :=
  match m with
  | Ok a => k a
  | Raise e => Raise e
  end.

Notation "'let*' x ':=' m 'in' k" := (bind m (fun x => k))
  (at level 10, x pattern, m at level 100, k at level 200).

(** A [for] loop whose body may raise. *)
Fixpoint for_each {A S} (l : list A) (body : A -> S -> result S) (s : S)
  : result S :=
  match l with
  | [] => Ok s
  | x :: l' => let* s' := body x s in for_each l' body s'
  end.

(** ** The part of [xml.etree.ElementTree] the module uses

    Elements carry a tag, an attribute dict and children; text and tail are
    never set by this program and are not modelled.  [tostring] follows
    CPython's serializer from version 3.9 on (attributes in dict order,
    [" />"] for an element without children, carriage return, line feed and
    tab of an attribute escaped as character references).  [fromstring] is a
    push parser for element-only documents: start tags with quoted
    attributes, the five predefined entities and decimal character
    references to ASCII, empty-element tags and end tags.  It raises
    [ParseError] where the document is not well-formed, and answers
    [Unmodelled] where the document uses what the model leaves out:
    character data, comments, processing instructions and declarations,
    names with a colon or beyond ASCII, a raw tab or line break inside an
    attribute, hexadecimal and non-ASCII character references.  Bytes from
    128 on inside attribute values are the UTF-8 encoding of characters
    beyond ASCII: of these XML rules out U+FFFE and U+FFFF, and the parser
    raises [ParseError] when the last byte of one of them arrives. *)

Module ET.

Definition dq : ascii := "034"%char.
Definition sq : ascii := "039"%char.
Definition nl : ascii := "010"%char.

Inductive Element :=
| Elem (tag : string) (attrib : Py.dict) (children : list Element).

Definition tag (e : Element) : string := let 'Elem t _ _ := e in t.
Definition attrib (e : Element) : Py.dict := let 'Elem _ a _ := e in a.
Definition children (e : Element) : list Element := let 'Elem _ _ c := e in c.

(** [SubElement(parent, tag, attrib)]: the parent with the new child last. *)
Definition SubElement (parent : Element) (t : string) (a : Py.dict) : Element :=
  let 'Elem pt pa pc := parent in Elem pt pa (pc ++ [Elem t a []]).

(** [_escape_attrib]. *)
Definition escape_attrib (text : string) : string :=
  let text := Py.replace "&" "&amp;" text in
  let text := Py.replace "<" "&lt;" text in
  let text := Py.replace ">" "&gt;" text in
  let text := Py.replace (String dq "") "&quot;" text in
  let text := Py.replace (String "013" "") "&#13;" text in
  let text := Py.replace (String "010" "") "&#10;" text in
  let text := Py.replace (String "009" "") "&#09;" text in
  text.

Definition attr_to_string (kv : string * string) : string :=
  " " +:+ fst kv +:+ "=" +:+ String dq (escape_attrib (snd kv)) +:+ String dq "".

Definition concat_map {A} (f : A -> string) (l : list A) : string :=
  fold_right (fun x acc => f x +:+ acc) "" l.

(** [tostring(e, encoding='unicode')]. *)
Fixpoint tostring (e : Element) : string :=
  let 'Elem t a cs := e in
  "<" +:+ t +:+ concat_map attr_to_string a +:+
  match cs with
  | [] => " />"
  | _ =>
    ">" +:+ fold_right (fun c acc => tostring c +:+ acc) "" cs
      +:+ "</" +:+ t +:+ ">"
  end.

(** *** The parser *)

Definition in_range (lo hi : N) (c : ascii) : bool :=
  ((lo <=? N_of_ascii c) && (N_of_ascii c <=? hi))%N.

Definition is_ws (c : ascii) : bool :=
  Ascii.eqb c " " || Ascii.eqb c "009" || Ascii.eqb c "010" || Ascii.eqb c "013".

Definition name_start (c : ascii) : bool :=
  in_range 65 90 c || in_range 97 122 c || Ascii.eqb c "_".

Definition name_char (c : ascii) : bool :=
  name_start c || in_range 48 57 c || Ascii.eqb c "-" || Ascii.eqb c ".".

(** Characters of names the model leaves out. *)
Definition name_beyond (c : ascii) : bool :=
  (128 <=? N_of_ascii c)%N || Ascii.eqb c ":".

Fixpoint decimal (acc : N) (s : string) : option N :=
  match s with
  | EmptyString => Some acc
  | String c s' =>
    if in_range 48 57 c then decimal (acc * 10 + (N_of_ascii c - 48)) s'
    else None
  end.

(** The character a reference [&ref;] stands for. *)
Definition decode_ref (ref : string) : result ascii :=
  match ref with
  | "amp" => Ok "&"%char
  | "lt" => Ok "<"%char
  | "gt" => Ok ">"%char
  | "quot" => Ok dq
  | "apos" => Ok sq
  | String "#" (String "x" _) => Raise Unmodelled
  | String "#" (String d ds) =>
    match decimal 0 (String d ds) with
    | Some n =>
      if ((n =? 9) || (n =? 10) || (n =? 13) || ((32 <=? n) && (n <=? 127)))%N
      then Ok (ascii_of_N n)
      else if (128 <=? n)%N then Raise Unmodelled
      else Raise ParseError
    | None => Raise ParseError
    end
  | _ => Raise ParseError
  end.

(** The three bytes of U+FFFE or U+FFFF in UTF-8. *)
Definition nonchar_bytes (a b c : ascii) : bool :=
  (Ascii.eqb c "190" || Ascii.eqb c "191")
  && Ascii.eqb b "191" && Ascii.eqb a "239".

(** The text holds U+FFFE or U+FFFF. *)
Fixpoint has_nonchar (s : string) : bool :=
  match s with
  | EmptyString => false
  | String a s' =>
    match s' with
    | String b (String c _) => nonchar_bytes a b c
    | _ => false
    end || has_nonchar s'
  end.

(** An element whose end tag has not been read: tag, attributes, and the
    children read so far, newest first. *)
Definition Frame : Type := string * Py.dict * list Element.

Inductive Mode :=
| Content
| LtSeen
| StartTagName (name : string)
| InStartTag (name : string) (attrs : Py.dict) (spaced : bool)
| AttName (name : string) (attrs : Py.dict) (k : string)
| AttEq (name : string) (attrs : Py.dict) (k : string)
| AttQuote (name : string) (attrs : Py.dict) (k : string)
| AttValue (name : string) (attrs : Py.dict) (k : string) (q : ascii) (v : string)
| AttRef (name : string) (attrs : Py.dict) (k : string) (q : ascii) (v ref : string)
| EmptySlash (name : string) (attrs : Py.dict)
| EndTagName (name : string)
| EndTagWs (name : string)
| Epilog (root : Element)
| EpilogLt.

Definition Parser : Type := Mode * list Frame.

Definition snoc (s : string) (c : ascii) : string := s +:+ String c "".

(** A character that cannot continue a name: beyond the model, or an error. *)
Definition bad_name_char (c : ascii) : result Parser :=
  if name_beyond c then Raise Unmodelled else Raise ParseError.

(** A finished element goes to its parent, or becomes the root. *)
Definition emit (e : Element) (stack : list Frame) : result Parser :=
  match stack with
  | [] => Ok (Epilog e, [])
  | (t, a, cs) :: st => Ok (Content, (t, a, e :: cs) :: st)
  end.

Definition open_tag (name : string) (attrs : Py.dict) (stack : list Frame)
  : result Parser :=
  Ok (Content, (name, attrs, []) :: stack).

Definition close_tag (name : string) (stack : list Frame) : result Parser :=
  match stack with
  | (t, a, cs) :: st =>
    if String.eqb t name then emit (Elem t a (rev cs)) st else Raise ParseError
  | [] => Raise ParseError
  end.

Definition step (p : Parser) (c : ascii) : result Parser :=
  let '(mode, stack) := p in
  match mode with
  | Content =>
    if Ascii.eqb c "<" then Ok (LtSeen, stack)
    else match stack with
         | [] => if is_ws c then Ok (Content, stack) else Raise ParseError
         | _ => Raise Unmodelled
         end
  | LtSeen =>
    if Ascii.eqb c "/" then
      match stack with
      | [] => Raise ParseError
      | _ => Ok (EndTagName "", stack)
      end
    else if name_start c then Ok (StartTagName (String c ""), stack)
    else if Ascii.eqb c "!" || Ascii.eqb c "?" then Raise Unmodelled
    else bad_name_char c
  | StartTagName n =>
    if name_char c then Ok (StartTagName (snoc n c), stack)
    else if is_ws c then Ok (InStartTag n [] true, stack)
    else if Ascii.eqb c "/" then Ok (EmptySlash n [], stack)
    else if Ascii.eqb c ">" then open_tag n [] stack
    else bad_name_char c
  | InStartTag n attrs spaced =>
    if is_ws c then Ok (InStartTag n attrs true, stack)
    else if Ascii.eqb c "/" then Ok (EmptySlash n attrs, stack)
    else if Ascii.eqb c ">" then open_tag n attrs stack
    else if name_start c then
      if spaced then Ok (AttName n attrs (String c ""), stack)
      else Raise ParseError
    else bad_name_char c
  | AttName n attrs k =>
    if name_char c then Ok (AttName n attrs (snoc k c), stack)
    else if Ascii.eqb c "=" then Ok (AttQuote n attrs k, stack)
    else if is_ws c then Ok (AttEq n attrs k, stack)
    else bad_name_char c
  | AttEq n attrs k =>
    if is_ws c then Ok (AttEq n attrs k, stack)
    else if Ascii.eqb c "=" then Ok (AttQuote n attrs k, stack)
    else Raise ParseError
  | AttQuote n attrs k =>
    if is_ws c then Ok (AttQuote n attrs k, stack)
    else if Ascii.eqb c dq || Ascii.eqb c sq then Ok (AttValue n attrs k c "", stack)
    else Raise ParseError
  | AttValue n attrs k q v =>
    if Ascii.eqb c q then
      if Py.dict_mem k attrs then Raise ParseError
      else Ok (InStartTag n (attrs ++ [(k, v)]) false, stack)
    else if Ascii.eqb c "&" then Ok (AttRef n attrs k q v "", stack)
    else if Ascii.eqb c "<" then Raise ParseError
    else if Ascii.eqb c "009" || Ascii.eqb c "010" || Ascii.eqb c "013"
    then Raise Unmodelled
    else if (32 <=? N_of_ascii c)%N then
      if has_nonchar (snoc v c) then Raise ParseError
      else Ok (AttValue n attrs k q (snoc v c), stack)
    else Raise ParseError
  | AttRef n attrs k q v ref =>
    if Ascii.eqb c ";" then
      let* ch := decode_ref ref in
      Ok (AttValue n attrs k q (snoc v ch), stack)
    else Ok (AttRef n attrs k q v (snoc ref c), stack)
  | EmptySlash n attrs =>
    if Ascii.eqb c ">" then emit (Elem n attrs []) stack else Raise ParseError
  | EndTagName n =>
    if name_char c then Ok (EndTagName (snoc n c), stack)
    else if is_ws c then Ok (EndTagWs n, stack)
    else if Ascii.eqb c ">" then close_tag n stack
    else bad_name_char c
  | EndTagWs n =>
    if is_ws c then Ok (EndTagWs n, stack)
    else if Ascii.eqb c ">" then close_tag n stack
    else Raise ParseError
  | Epilog e =>
    if is_ws c then Ok (Epilog e, stack)
    else if Ascii.eqb c "<" then Ok (EpilogLt, stack)
    else Raise ParseError
  | EpilogLt =>
    if Ascii.eqb c "!" || Ascii.eqb c "?" then Raise Unmodelled
    else Raise ParseError
  end.

Fixpoint feed (p : Parser) (s : string) : result Parser :=
  match s with
  | EmptyString => Ok p
  | String c s' => let* p' := step p c in feed p' s'
  end.

(** [fromstring(text)]: the root once the whole text is read. *)
Definition fromstring (text : string) : result Element :=
  let* p := feed (Content, []) text in
  match p with
  | (Epilog e, _) => Ok e
  | _ => Raise ParseError
  end.

End ET.

(** ** The pipeline *)

(** One alignment result: the dict built by [_align_sents]. *)
Record Link := mkLink {
  xtargets : string;
  type : string;
  status : string
}.

(** The state the methods act on: the fields of [self], and the files of
    [xml_output_dir] by path.  The directory exists, [__init__] made it, and
    holds regular files only. *)
Record Pipeline := mkPipeline {
  texts_data : list Row;
  xml_output_dir : string;
  aligned_texts : list (string * string * string);
  failed_pairs : list (string * string * string);
  disk : gmap string string
}.

Definition append_aligned (rec : string * string * string) (self : Pipeline)
  : Pipeline :=
  mkPipeline (texts_data self) (xml_output_dir self)
    (aligned_texts self ++ [rec]) (failed_pairs self) (disk self).

Definition append_failed (rec : string * string * string) (self : Pipeline)
  : Pipeline :=
  mkPipeline (texts_data self) (xml_output_dir self)
    (aligned_texts self) (failed_pairs self ++ [rec]) (disk self).

(** The file [path] once [content] is written to it. *)
Definition write_file (path content : string) (self : Pipeline) : Pipeline :=
  mkPipeline (texts_data self) (xml_output_dir self)
    (aligned_texts self) (failed_pairs self) (<[path := content]> (disk self)).

(** [texts_data.loc[texts_data['id'] == doc_id, 'processed_text'].values[0]]. *)
Definition loc_processed_text (self : Pipeline) (doc_id : string)
  : result string :=
  match filter (fun r => id r = doc_id) (texts_data self) with
  | r :: _ => Ok (processed_text r)
  | [] => Raise IndexError
  end.

(** The link built from one pair [(left_side, right_side)] of index groups. *)
Definition link_of (src_id tgt_id : string) (sides : list Z * list Z) : Link :=
  let '(left_side, right_side) := sides in
  let src_targets :=
    Py.join " " (map (fun idx => src_id +:+ ":" +:+ Py.str_of_int idx) left_side) in
  let tgt_targets :=
    Py.join " " (map (fun idx => tgt_id +:+ ":" +:+ Py.str_of_int idx) right_side) in
  {| xtargets := src_targets +:+ ";" +:+ tgt_targets;
     type := Py.str_of_len left_side +:+ "-" +:+ Py.str_of_len right_side;
     status := "auto" |}.

(** The retention test of [_generate_xml]. *)
Definition retain (result : Link) : bool :=
  Py.contains "643:0" (xtargets result) || Py.contains "641:" (xtargets result).

(** The attribute dict [_rearrange_link_attributes] leaves in a link: the
    comprehension pops 'type', 'xtargets' and 'status' where present, the
    dict is cleared and updated with what was popped. *)
Definition reorder_attributes (attributes : Py.dict) : Py.dict :=
  let '(ordered_attributes, attributes) :=
    fold_left
      (fun (acc : Py.dict * Py.dict) k =>
         let '(ordered, attributes) := acc in
         match Py.dict_get k attributes with
         | Some v => (ordered ++ [(k, v)], Py.dict_remove k attributes)
         | None => acc
         end)
      ["type"; "xtargets"; "status"] ([], attributes) in
  Py.dict_update [] ordered_attributes.

(** The loop over [root.findall('.//link')]: every descendant of the root
    whose tag is 'link' gets its attributes reordered. *)
Fixpoint rearrange_descendant (e : ET.Element) : ET.Element :=
  let 'ET.Elem t a cs := e in
  ET.Elem t (if String.eqb t "link" then reorder_attributes a else a)
    (map rearrange_descendant cs).

Definition rearrange_root (root : ET.Element) : ET.Element :=
  let 'ET.Elem t a cs := root in ET.Elem t a (map rearrange_descendant cs).

Definition _rearrange_link_attributes (xml_string : string) : result string :=
  let* root := ET.fromstring xml_string in
  let root := rearrange_root root in
  Ok (Py.replace " />" "/>" (ET.tostring root)).

Definition xml_declaration : string := "<?xml version='1.0' encoding='utf-8'?>".

(** The steps of [_prettify_and_refine_xml] after the attributes are
    rearranged. *)
Definition refine (xml_string : string) : string :=
  let xml_string := Py.strip (Py.re_sub_tag_gap xml_string) in
  let xml_string := Py.replace (String ET.dq "") "'" xml_string in
  xml_declaration +:+ String ET.nl xml_string.

Definition _prettify_and_refine_xml (xml_string : string) : result string :=
  let* xml_string := _rearrange_link_attributes xml_string in
  Ok (refine xml_string).

Definition link_attrib (result : Link) : Py.dict :=
  [("type", type result); ("xtargets", xtargets result); ("status", status result)].

(** The element tree [_generate_xml] builds from the retained results. *)
Definition build_root (alignment_results : list Link) : ET.Element :=
  let root :=
    ET.Elem "linkGrp"
      [("toDoc", "placeholder_toDoc.xml"); ("fromDoc", "placeholder_fromDoc.xml")]
      [] in
  fold_left (fun root result => ET.SubElement root "link" (link_attrib result))
    alignment_results root.

Definition output_path_of (self : Pipeline) (pair_name : string) : string :=
  Py.path_join (xml_output_dir self) (pair_name +:+ ".xml").

(** What [open(os.path.join(d, name), 'w')] raises in an existing directory
    [d] without subdirectories: [ValueError] for a null character,
    [FileNotFoundError] or [NotADirectoryError] when [name] has a slash (its
    first part is no directory of [d]), and the error of the file system for
    a name beyond its limit, 255 bytes on Linux.  All but the first are
    [OSError]s. *)
Definition open_fault (name : string) : option exn :=
  if Py.contains (String "000" "") name then Some ValueError
  else if Py.contains "/" name then Some OSError
  else if (255 <? String.length name)%nat then Some OSError
  else None.

(** [with open(output_path, 'w') as f: f.write(content)]. *)
Definition open_write (output_dir name content : string) (self : Pipeline)
  : result Pipeline :=
  match open_fault name with
  | Some e => Raise e
  | None => Ok (write_file (Py.path_join output_dir name) content self)
  end.

Definition _generate_xml (pair_name : string) (alignment_results : list Link)
    (self : Pipeline) : result Pipeline :=
  let alignment_results := List.filter retain alignment_results in
  let root := build_root alignment_results in
  let* xml_content := _prettify_and_refine_xml (ET.tostring root) in
  open_write (xml_output_dir self) (pair_name +:+ ".xml") xml_content self.

Section Aligner.

(** The external aligner: [Bertalign(src, tgt, src_lang, tgt_lang)],
    [align_sents()] and the first component of [get_result()]. *)
Variable bertalign :
  string -> string -> string -> string -> result (list (list Z * list Z)).

Definition _align_sents (self : Pipeline) (src_id tgt_id src_lang tgt_lang : string)
  : result (option (list Link)) :=
  let* src_text := loc_processed_text self src_id in
  let* tgt_text := loc_processed_text self tgt_id in
  if Py.falsy_str src_text || Py.falsy_str tgt_text then Ok None
  else
    let* alignments := bertalign src_text tgt_text src_lang tgt_lang in
    Ok (Some (map (link_of src_id tgt_id) alignments)).

(** The body of the two loops over [group1] and [group2]. *)
Definition align_rows (pair_name lang1 lang2 : string) (row1 row2 : Row)
    (acc : list Link * Pipeline) : result (list Link * Pipeline) :=
  let '(alignment_results, self) := acc in
  let* alignment_result := _align_sents self (id row1) (id row2) lang1 lang2 in
  if Py.truthy alignment_result then
    Ok (alignment_results ++ default [] alignment_result,
        append_aligned (id row1, id row2, pair_name) self)
  else
    Ok (alignment_results, append_failed (id row1, id row2, pair_name) self).

(** The loops over [group1.itertuples()] and [group2.itertuples()]. *)
Definition align_cross_product (pair_name lang1 lang2 : string)
    (group1 group2 : list Row) (acc : list Link * Pipeline)
  : result (list Link * Pipeline) :=
  for_each group1
    (fun row1 => for_each group2 (align_rows pair_name lang1 lang2 row1))
    acc.

(** What [align_texts] does for one pair of groups once the guard holds. *)
Definition align_group_pair (c1 c2 : GroupKey * list Row) (self : Pipeline)
  : result Pipeline :=
  let '((lang1, src_target1, spoken_written1), group1) := c1 in
  let '((lang2, src_target2, spoken_written2), group2) := c2 in
  let pair_name :=
    pair_name_of (lang1, src_target1, spoken_written1)
                 (lang2, src_target2, spoken_written2) in
  let* (alignment_results, self) :=
    align_cross_product pair_name lang1 lang2 group1 group2 ([], self) in
  match alignment_results with
  | _ :: _ => _generate_xml pair_name alignment_results self
  | [] => Ok self
  end.

(** The loops over [combinations] for one event. *)
Definition align_event (group : list Row) (self : Pipeline) : result Pipeline :=
  let combinations := combinations_of group in
  for_each combinations
    (fun c1 =>
       for_each combinations
         (fun c2 self =>
            if Py.tuple_ltb c1.1 c2.1 then align_group_pair c1 c2 self
            else Ok self))
    self.

Definition align_texts (self : Pipeline) : result Pipeline :=
  let grouped := groupby String.le event_id (texts_data self) in
  for_each grouped (fun g => align_event g.2) self.

(** The rows [save_alignment_file] collects for the report. *)
Definition save_alignment_file (self : Pipeline)
  : list (string * string * string) :=
  fold_left
    (fun rows rec =>
       let '(src_id, tgt_id, pair_name) := rec in
       let file_path := output_path_of self pair_name in
       match disk self !! file_path with
       | Some content => rows ++ [(src_id, tgt_id, content)]
       | None => rows
       end)
    (aligned_texts self) [].

(** [run] after [load_data]: the final state and the rows of the report. *)
Definition run (self : Pipeline)
  : result (Pipeline * list (string * string * string)) :=
  let* self := align_texts self in
  Ok (self, save_alignment_file self).

End Aligner.

(** The document pairs of a group pair, in the order the loops reach them. *)
Definition attempts (group1 group2 : list Row) : list (Row * Row) :=
  row1 ← group1; row2 ← group2; [(row1, row2)].

(** The record a document pair leaves in [aligned_texts] or [failed_pairs]. *)
Definition record_of (pair_name : string) (rows : Row * Row)
  : string * string * string :=
  (id rows.1, id rows.2, pair_name).


(** ** The sentinel pattern in the spec's words

    A link built for the index groups [sides] between documents [src_id] and
    [tgt_id] references sentence [idx] of document [doc] when [doc] is one
    of the two documents and [idx] is in the group of its side. *)
Definition references (doc : string) (idx : Z) (src_id tgt_id : string)
    (sides : list Z * list Z) : Prop :=
  (src_id = doc /\ idx ∈ sides.1) \/ (tgt_id = doc /\ idx ∈ sides.2).

(** Document 643 at sentence 0, or any sentence of document 641. *)
Definition references_sentinel (src_id tgt_id : string)
    (sides : list Z * list Z) : Prop :=
  references "643" 0 src_id tgt_id sides
  \/ exists idx, references "641" idx src_id tgt_id sides.

(** The [link] element [_generate_xml] appends for a result. *)
Definition link_element (result : Link) : ET.Element :=
  ET.Elem "link" (link_attrib result) [].

(** ** Well-formed attribute text and the canonical document *)

Fixpoint chars_all (P : ascii -> bool) (s : string) : bool :=
  match s with
  | EmptyString => true
  | String c s' => P c && chars_all P s'
  end.

(** The bytes XML admits: tab, line feed, carriage return, and everything
    from the space on. *)
Definition xml_char (c : ascii) : bool :=
  (32 <=? N_of_ascii c)%N
  || Ascii.eqb c "009" || Ascii.eqb c "010" || Ascii.eqb c "013".

(** Text of characters XML admits: no control character but the three, and
    neither U+FFFE nor U+FFFF. *)
Definition xml_text (s : string) : bool :=
  chars_all xml_char s && negb (ET.has_nonchar s).

Definition xml_link (l : Link) : bool :=
  xml_text (type l) && xml_text (xtargets l) && xml_text (status l).

(** What [_escape_attrib] makes of one character. *)
Definition escape_char (c : ascii) : string :=
  if Ascii.eqb c "&" then "&amp;"
  else if Ascii.eqb c "<" then "&lt;"
  else if Ascii.eqb c ">" then "&gt;"
  else if Ascii.eqb c ET.dq then "&quot;"
  else if Ascii.eqb c "013" then "&#13;"
  else if Ascii.eqb c "010" then "&#10;"
  else if Ascii.eqb c "009" then "&#09;"
  else String c "".

(** A [link] element as the finished file shows it. *)
Definition render_link (l : Link) : string :=
  "<link type='" +:+ ET.escape_attrib (type l)
  +:+ "' xtargets='" +:+ ET.escape_attrib (xtargets l)
  +:+ "' status='" +:+ ET.escape_attrib (status l) +:+ "'/>".

(** The finished file for a list of retained links. *)
Definition canonical_xml (links : list Link) : string :=
  xml_declaration +:+ String ET.nl
  match links with
  | [] => "<linkGrp toDoc='placeholder_toDoc.xml' fromDoc='placeholder_fromDoc.xml'/>"
  | _ =>
    "<linkGrp toDoc='placeholder_toDoc.xml' fromDoc='placeholder_fromDoc.xml'>"
    +:+ String ET.nl
          (ET.concat_map (fun l => render_link l +:+ String ET.nl "") links
           +:+ "</linkGrp>")
  end.

(** Characters other than [<], [>] and the double quote: escaped text has
    no others. *)
Definition plain (c : ascii) : bool :=
  negb (Ascii.eqb c "<") && negb (Ascii.eqb c ">") && negb (Ascii.eqb c ET.dq).

(** Feeding a parser that may already have failed. *)
Definition feed_opt (p : result ET.Parser) (s : string) : result ET.Parser :=
  let* p := p in ET.feed p s.

(** The attributes of a [link] element as they are written between the
    quote characters [q], followed by [tail]. *)
Definition link_attrs_text (q : ascii) (l : Link) (tail : string) : string :=
  " type=" +:+ String q (ET.escape_attrib (type l) +:+ String q
  (" xtargets=" +:+ String q (ET.escape_attrib (xtargets l) +:+ String q
  (" status=" +:+ String q (ET.escape_attrib (status l) +:+ String q tail))))).

(** The attributes of the root element between the quote characters [q]. *)
Definition root_attrs_text (q : ascii) (tail : string) : string :=
  " toDoc=" +:+ String q ("placeholder_toDoc.xml" +:+ String q
  (" fromDoc=" +:+ String q ("placeholder_fromDoc.xml" +:+ String q tail))).

Definition root_attrib : Py.dict :=
  [("toDoc", "placeholder_toDoc.xml"); ("fromDoc", "placeholder_fromDoc.xml")].

Definition not_gt (c : ascii) : bool := negb (Ascii.eqb c ">").

(** A [link] element after [' />'] became ['/>']. *)
Definition short_link (l : Link) : string :=
  "<link" +:+ link_attrs_text ET.dq l "/>".

(** The document after [_rearrange_link_attributes]. *)
Definition rearranged_xml (links : list Link) : string :=
  "<linkGrp" +:+ root_attrs_text ET.dq
    match links with
    | [] => "/>"
    | _ => ">" +:+ ET.concat_map short_link links +:+ "</linkGrp>"
    end.

Definition not_dq (c : ascii) : bool := negb (Ascii.eqb c ET.dq).

Definition not_nl (c : ascii) : bool := negb (Ascii.eqb c ET.nl).

Definition swap_quote (c : ascii) : ascii :=
  if Ascii.eqb c ET.dq then ET.sq else c.

Fixpoint map_chars (f : ascii -> ascii) (s : string) : string :=
  match s with
  | EmptyString => EmptyString
  | String c s' => String (f c) (map_chars f s')
  end.

(** The attributes a link keeps, read off its dict in the fixed order. *)
Definition ordered_view (attributes : Py.dict) : Py.dict :=
  omap (fun k => pair k <$> Py.dict_get k attributes)
    ["type"; "xtargets"; "status"].

(** The row [save_alignment_file] emits for a record, if its file exists. *)
Definition report_row (self : Pipeline) (rec : string * string * string)
  : option (string * string * string) :=
  let '(src_id, tgt_id, pair_name) := rec in
  match disk self !! output_path_of self pair_name with
  | Some content => Some (src_id, tgt_id, content)
  | None => None
  end.

(** What the loops over the documents leave untouched, and the status of
    the links they collect. *)
Definition preserved (acc0 acc : list Link * Pipeline) : Prop :=
  texts_data acc.2 = texts_data acc0.2
  /\ xml_output_dir acc.2 = xml_output_dir acc0.2
  /\ disk acc.2 = disk acc0.2
  /\ (Forall (fun l => status l = "auto") acc0.1 ->
      Forall (fun l => status l = "auto") acc.1).

(** ** Concrete runs *)

(** An aligner that pairs the first sentences of the two texts. *)
Definition first_sentences (src tgt src_lang tgt_lang : string)
  : result (list (list Z * list Z)) :=
  Ok [([0%Z], [0%Z])].

(** An aligner that always fails. *)
Definition broken_aligner (src tgt src_lang tgt_lang : string)
  : result (list (list Z * list Z)) :=
  Raise AlignerError.

Definition fresh (rows : list Row) : Pipeline := mkPipeline rows "out" [] [] ∅.

(** One event, two documents whose ids are not sentinel ids. *)
Definition plain_event : list Row :=
  [ mkRow "1" "E1" "en" "source" "written" "Hello.";
    mkRow "2" "E1" "es" "target" "written" "Hola." ].

(** Two events whose group pairs derive the same pair name. *)
Definition two_events : list Row :=
  [ mkRow "641" "E1" "en" "source" "written" "Hello.";
    mkRow "700" "E1" "es" "target" "written" "Hola.";
    mkRow "643" "E2" "en" "source" "written" "Bye.";
    mkRow "800" "E2" "es" "target" "written" "Adios." ].

Definition en_es : string := "EPTIC.en_written_source.es_written_target".

Definition en_es_path : string := "out/EPTIC.en_written_source.es_written_target.xml".

(** An aligner that merges sentences: a 2-1 and a 1-2 correspondence. *)
Definition merging_aligner (src tgt src_lang tgt_lang : string)
  : result (list (list Z * list Z)) :=
  Ok [([0%Z; 1%Z], [0%Z]); ([2%Z], [1%Z; 2%Z])].

(** One event in which the first document has no text. *)
Definition silent_event : list Row :=
  [ mkRow "10" "E1" "en" "source" "spoken" "";
    mkRow "11" "E1" "it" "target" "spoken" "Ciao." ].

(** The file of [two_events] after the whole run. *)
Definition second_event_xml : string :=
  xml_declaration +:+ String ET.nl
  ("<linkGrp toDoc='placeholder_toDoc.xml' fromDoc='placeholder_fromDoc.xml'>"
   +:+ String ET.nl
   ("<link type='1-1' xtargets='643:0;800:0' status='auto'/>"
    +:+ String ET.nl "</linkGrp>")).

(** The file of [two_events] after the first event. *)
Definition first_event_xml : string :=
  xml_declaration +:+ String ET.nl
  ("<linkGrp toDoc='placeholder_toDoc.xml' fromDoc='placeholder_fromDoc.xml'>"
   +:+ String ET.nl
   ("<link type='1-1' xtargets='641:0;700:0' status='auto'/>"
    +:+ String ET.nl "</linkGrp>")).

(** A document id with a double quote in it. *)
Definition quoted_id : string := String "a" (String ET.dq "b").

(** ** The document store: [_process_xml_sentences] and [load_data]

    Sentence markup carries text, so its elements have the [text] and [tail]
    fields the serializer's elements do without.  The parser that reads the
    markup is a parameter of the two functions. *)

Inductive TextElement :=
| TElem (tag : string) (attrib : Py.dict) (text : option string)
        (children : list TextElement) (tail : option string).

Definition ttag (e : TextElement) : string := let 'TElem t _ _ _ _ := e in t.
Definition ttext (e : TextElement) : option string :=
  let 'TElem _ _ x _ _ := e in x.
Definition tchildren (e : TextElement) : list TextElement :=
  let 'TElem _ _ _ c _ := e in c.

(** An element and everything below it, in document order. *)
Fixpoint titer (e : TextElement) : list TextElement :=
  let 'TElem _ _ _ cs _ := e in e :: flat_map titer cs.

(** [root.findall('.//' + name)]: the descendants with that tag. *)
Definition tfindall (name : string) (root : TextElement) : list TextElement :=
  List.filter (fun e => String.eqb (ttag e) name) (flat_map titer (tchildren root)).

(** A row of the spreadsheet; [None] is a null cell. *)
Record RawRow := mkRawRow {
  raw_id : string;
  raw_event_id : string;
  raw_lang : string;
  raw_source_target : string;
  raw_spoken_written : string;
  sentence_split_text : option string
}.

Section DocumentStore.

(** [fromstring] on markup with text. *)
Variable fromstring_text : string -> result TextElement.

Definition _process_xml_sentences (xml_str : option string) : result string :=
  match xml_str with
  | None => Ok ""
  | Some xml_str =>
    match fromstring_text xml_str with
    | Ok root =>
      let sentences := omap ttext (tfindall "s" root) in
      Ok (Py.join (String ET.nl "") sentences)
    | Raise ParseError => Ok ""
    | Raise e => Raise e
    end
  end.

(** [Series.apply(f)]. *)
Fixpoint apply_rows (raw : list RawRow) : result (list Row) :=
  match raw with
  | [] => Ok []
  | r :: raw' =>
    let* text := _process_xml_sentences (sentence_split_text r) in
    let* rows := apply_rows raw' in
    Ok (mkRow (raw_id r) (raw_event_id r) (raw_lang r) (raw_source_target r)
          (raw_spoken_written r) text :: rows)
  end.

(** [__init__] followed by [load_data] on the rows read from [texts_path];
    [files] is what the output directory holds already. *)
Definition load_data (xml_output_dir : string) (files : gmap string string)
    (raw : list RawRow) : result Pipeline :=
  let* rows := apply_rows raw in
  Ok (mkPipeline rows xml_output_dir [] [] files).

End DocumentStore.

(** ** Elements below the root of a serializer tree *)

Fixpoint iter (e : ET.Element) : list ET.Element :=
  let 'ET.Elem _ _ cs := e in e :: flat_map iter cs.

(** The elements [root.findall('.//link')] can reach, and those it returns. *)
Definition descendants (root : ET.Element) : list ET.Element :=
  flat_map iter (ET.children root).

Definition findall_link (root : ET.Element) : list ET.Element :=
  List.filter (fun e => String.eqb (ET.tag e) "link") (descendants root).

(** Tag and attributes of an element after the rearranging pass. *)
Definition rearranged_view (e : ET.Element) : string * Py.dict :=
  (ET.tag e,
   if String.eqb (ET.tag e) "link" then reorder_attributes (ET.attrib e)
   else ET.attrib e).

Definition plain_view (e : ET.Element) : string * Py.dict :=
  (ET.tag e, ET.attrib e).

(** ** What a run keeps and what it may raise *)

(** From [s] to [s']: the table and the output directory stay, both record
    lists only get longer at the end, no file disappears. *)
Definition grows (s s' : Pipeline) : Prop :=
  texts_data s' = texts_data s
  /\ xml_output_dir s' = xml_output_dir s
  /\ aligned_texts s `prefix_of` aligned_texts s'
  /\ failed_pairs s `prefix_of` failed_pairs s'
  /\ dom (disk s) ⊆ dom (disk s').

(** Every record of [aligned_texts] has its file. *)
Definition filed (s : Pipeline) : Prop :=
  forall src_id tgt_id pair_name,
    (src_id, tgt_id, pair_name) ∈ aligned_texts s ->
    is_Some (disk s !! output_path_of s pair_name).

(** The state of the loops over the documents of a group pair, entered in
    state [s0]: the records added since carry the pair name, a record of
    success goes with a link in the accumulated list, and the accumulated
    links are built from ids of the table. *)
Definition collected (s0 : Pipeline) (pair_name : string)
    (acc : list Link * Pipeline) : Prop :=
  texts_data acc.2 = texts_data s0
  /\ xml_output_dir acc.2 = xml_output_dir s0
  /\ disk acc.2 = disk s0
  /\ Forall
       (fun l => exists r1 r2 sides,
          r1 ∈ texts_data s0 /\ r2 ∈ texts_data s0
          /\ l = link_of (id r1) (id r2) sides)
       acc.1
  /\ exists new_aligned new_failed,
       aligned_texts acc.2 = aligned_texts s0 ++ new_aligned
       /\ failed_pairs acc.2 = failed_pairs s0 ++ new_failed
       /\ Forall (fun rec => rec.2 = pair_name) new_aligned
       /\ (new_aligned <> [] -> acc.1 <> []).

(** Why [open] refuses the file name [name] with the exception [e]. *)
Definition refused (name : string) (e : exn) : Prop :=
  (e = ValueError /\ Py.contains (String "000" "") name = true)
  \/ (e = OSError
      /\ (Py.contains "/" name = true \/ 255 < String.length name)).

(** The exceptions a run on the table [texts] can end with: [ParseError]
    from the serializer when a document id holds a character XML does not
    admit, the exception of [open] when two documents of one event have keys
    whose pair name makes no file name, or whatever the aligner raised. *)
Definition run_error
    (bertalign : string -> string -> string -> string
                 -> result (list (list Z * list Z)))
    (texts : list Row) (e : exn) : Prop :=
  (e = ParseError /\ exists r, r ∈ texts /\ xml_text (id r) = false)
  \/ (exists r1 r2,
        r1 ∈ texts /\ r2 ∈ texts /\ event_id r1 = event_id r2
        /\ refused (pair_name_of (group_key r1) (group_key r2) +:+ ".xml") e)
  \/ exists a b c d, bertalign a b c d = Raise e.

(** A byte of an ASCII character. *)
Definition low (c : ascii) : bool := (N_of_ascii c <? 128)%N.

(** Both documents of the pair have text. *)
Definition both_have_text (rows : Row * Row) : bool :=
  negb (Py.falsy_str (processed_text rows.1))
  && negb (Py.falsy_str (processed_text rows.2)).

Definition add_failed (recs : list (string * string * string)) (self : Pipeline)
  : Pipeline :=
  mkPipeline (texts_data self) (xml_output_dir self)
    (aligned_texts self) (failed_pairs self ++ recs) (disk self).

(** One event in which a language code holds a slash. *)
Definition slash_event : list Row :=
  [ mkRow "1" "E1" "en/GB" "source" "written" "Hello.";
    mkRow "2" "E1" "es" "target" "written" "Hola." ].

(** A document id that is U+FFFF. *)
Definition nonchar_id : string := String "239" (String "191" (String "191" "")).

(** An aligner that finds no correspondence. *)
Definition silent_aligner (src tgt src_lang tgt_lang : string)
  : result (list (list Z * list Z)) :=
  Ok [].

(** Two events, each with documents of one language and register only. *)
Definition lone_groups : list Row :=
  [ mkRow "1" "E1" "en" "source" "written" "Hello.";
    mkRow "2" "E1" "en" "source" "written" "Again.";
    mkRow "3" "E2" "es" "target" "written" "Hola." ].

(** One event with a document without text before one with text. *)
Definition mixed_event : list Row :=
  [ mkRow "10" "E1" "en" "source" "written" "";
    mkRow "1" "E1" "en" "source" "written" "Hello.";
    mkRow "2" "E1" "es" "target" "written" "Hola." ].

(** The row [load_data] makes of a spreadsheet row and its plain text. *)
Definition loaded_row (r : RawRow) (text : string) : Row :=
  mkRow (raw_id r) (raw_event_id r) (raw_lang r) (raw_source_target r)
    (raw_spoken_written r) text.

(** Markup that yields no text: a null cell, or text the parser rejects. *)
Definition unreadable (fromstring_text : string -> result TextElement)
    (markup : option string) : Prop :=
  match markup with
  | None => True
  | Some s => fromstring_text s = Raise ParseError
  end.

(** A parser for the examples: it knows one document and rejects the rest. *)
Definition toy_parser (s : string) : result TextElement :=
  if String.eqb s "<text><s>Hello.</s><s>World.</s></text>"
  then Ok (TElem "text" [] None
             [TElem "s" [] (Some "Hello.") [] None;
              TElem "s" [] (Some "World.") [] None] None)
  else Raise ParseError.

Definition toy_sheet : list RawRow :=
  [ mkRawRow "1" "E1" "en" "source" "written"
      (Some "<text><s>Hello.</s><s>World.</s></text>");
    mkRawRow "2" "E1" "es" "target" "written" (Some "<text><s>Hola.</text>");
    mkRawRow "3" "E1" "it" "target" "written" None ].
(** ** Ordered pairs drawn from a list of distinct keys *)

Section OrderedPairs.
Context {K : Type} (ltb : K -> K -> bool).
Hypothesis ltb_irrefl : forall a, ltb a a = false.
Hypothesis ltb_connex : forall a b, a <> b -> ltb a b = negb (ltb b a).

Lemma above_length l a :
  length (above ltb l a) = length (filter (fun b => ltb a b = true) l).
Proof.
  induction l as [|b l IH]; [done|].
  unfold above in *. cbn [mbind list_bind]. rewrite length_app, IH.
  destruct (ltb a b) eqn:E.
  - by rewrite filter_cons_True.
  - rewrite filter_cons_False; [done | congruence].
Qed.

Lemma elem_of_above l a p :
  p ∈ above ltb l a <-> p.1 = a /\ p.2 ∈ l /\ ltb a p.2 = true.
Proof.
  unfold above. rewrite list_elem_of_bind. split.
  - intros (b & Hp & Hb). destruct (ltb a b) eqn:E.
    + apply list_elem_of_singleton in Hp. subst p. simpl. auto.
    + by apply elem_of_nil in Hp.
  - intros (<- & Hb & Hlt). exists p.2. split; [|done].
    rewrite Hlt. destruct p; simpl. apply list_elem_of_singleton. done.
Qed.

Lemma elem_of_ordered_pairs l a b :
  (a, b) ∈ ordered_pairs ltb l <-> a ∈ l /\ b ∈ l /\ ltb a b = true.
Proof.
  unfold ordered_pairs. rewrite list_elem_of_bind. split.
  - intros (x & Hp & Hx). apply (elem_of_above l x (a, b)) in Hp.
    simpl in Hp. destruct Hp as (-> & ? & ?). auto.
  - intros (Ha & Hb & Hlt). exists a. split; [|done].
    apply (elem_of_above l a (a, b)). auto.
Qed.

Lemma NoDup_above l a : NoDup l -> NoDup (above ltb l a).
Proof.
  induction 1 as [|b l Hb Hl IH]; [constructor|].
  unfold above in *. cbn [mbind list_bind].
  apply NoDup_app. split; [|split; [|exact IH]].
  - destruct (ltb a b); [apply NoDup_singleton | constructor].
  - intros p Hp Hp'. apply (elem_of_above l a p) in Hp'.
    destruct (ltb a b); [|by apply elem_of_nil in Hp].
    apply list_elem_of_singleton in Hp. subst p. simpl in Hp'. tauto.
Qed.

Lemma NoDup_ordered_pairs l : NoDup l -> NoDup (ordered_pairs ltb l).
Proof.
  intros Hl. unfold ordered_pairs.
  change (NoDup (l ≫= above ltb l)).
  assert (Hgen : forall m, NoDup m -> NoDup (m ≫= above ltb l)).
  { induction 1 as [|a m Ha Hm IH]; [constructor|].
    cbn [mbind list_bind]. apply NoDup_app. split; [|split; [|exact IH]].
    - by apply NoDup_above.
    - intros p Hp Hp'. apply elem_of_above in Hp.
      apply list_elem_of_bind in Hp'. destruct Hp' as (x & Hp' & Hx).
      apply elem_of_above in Hp'. destruct Hp as [Hp _], Hp' as [Hp' _].
      congruence. }
  by apply Hgen.
Qed.

(** Adding a key [x] in front of the inner list adds the pairs [(a, x)]. *)
Lemma bind_above_cons x l m :
  length (m ≫= above ltb (x :: l))
  = length (filter (fun a => ltb a x = true) m) + length (m ≫= above ltb l).
Proof.
  induction m as [|a m IH]; [done|].
  cbn [mbind list_bind]. rewrite !length_app, IH.
  unfold above at 1. cbn [mbind list_bind]. rewrite length_app.
  fold (above ltb l a).
  destruct (ltb a x) eqn:E.
  - rewrite filter_cons_True by done. simpl. lia.
  - rewrite filter_cons_False by congruence. simpl. lia.
Qed.

Lemma split_by_fresh x l :
  x ∉ l ->
  length (filter (fun b => ltb x b = true) l)
  + length (filter (fun a => ltb a x = true) l) = length l.
Proof.
  induction l as [|b l IH]; [done|].
  intros Hx. apply not_elem_of_cons in Hx as [Hne Hx].
  specialize (IH Hx). pose proof (ltb_connex x b Hne) as Hc.
  rewrite !filter_cons.
  destruct (ltb b x) eqn:E; simpl in Hc;
    repeat case_decide; simpl; try congruence; lia.
Qed.

Lemma ordered_pairs_length l :
  NoDup l -> 2 * length (ordered_pairs ltb l) = length l * (length l - 1).
Proof.
  change (ordered_pairs ltb l) with (l ≫= above ltb l).
  induction 1 as [|x l Hx Hl IH]; [done|].
  rewrite bind_cons, length_app, bind_above_cons, above_length.
  rewrite filter_cons_False by (rewrite ltb_irrefl; congruence).
  pose proof (split_by_fresh x l Hx). simpl length.
  destruct (length l) as [|n] eqn:E; simpl in *; lia.
Qed.

End OrderedPairs.

(** ** The order on group keys *)

Lemma str_ltb_irrefl (s : string) : String.ltb s s = false.
Proof.
  unfold String.ltb. assert (String.compare s s = Eq) as ->; [|done].
  induction s as [|c s IH]; simpl; [done|].
  unfold Ascii.compare. by rewrite N.compare_refl.
Qed.

Lemma str_ltb_connex (s t : string) :
  s <> t -> String.ltb s t = negb (String.ltb t s).
Proof.
  intros Hne. unfold String.ltb. rewrite (String.compare_antisym t s).
  destruct (String.compare s t) eqn:E; simpl; try done.
  by apply String.compare_eq_iff in E.
Qed.

Lemma tuple_ltb_irrefl (k : GroupKey) : Py.tuple_ltb k k = false.
Proof. destruct k as [[a b] c]. simpl. by rewrite !String.eqb_refl. Qed.

Lemma tuple_ltb_connex (k1 k2 : GroupKey) :
  k1 <> k2 -> Py.tuple_ltb k1 k2 = negb (Py.tuple_ltb k2 k1).
Proof.
  destruct k1 as [[a1 a2] a3], k2 as [[b1 b2] b3]. intros Hne. simpl.
  rewrite (String.eqb_sym b1 a1), (String.eqb_sym b2 a2), (String.eqb_sym b3 a3).
  destruct (String.eqb_spec a1 b1) as [->|H1]; simpl;
    [|by apply str_ltb_connex].
  destruct (String.eqb_spec a2 b2) as [->|H2]; simpl;
    [|by apply str_ltb_connex].
  destruct (String.eqb_spec a3 b3) as [->|H3]; simpl;
    [done|by apply str_ltb_connex].
Qed.

Lemma group_pairs_keys (combinations : list (GroupKey * list Row)) :
  (fun p => (p.1.1, p.2.1)) <$> group_pairs combinations
  = ordered_pairs Py.tuple_ltb (combinations.*1).
Proof.
  unfold group_pairs, ordered_pairs.
  assert (Hin : forall (c1 : GroupKey * list Row) m,
    (fun p : (GroupKey * list Row) * (GroupKey * list Row) => (p.1.1, p.2.1))
      <$> (m ≫= fun c2 => if Py.tuple_ltb c1.1 c2.1 then [(c1, c2)] else [])
    = above Py.tuple_ltb (m.*1) c1.1).
  { intros c1 m. induction m as [|c2 m IH]; [done|].
    rewrite bind_cons, fmap_app, IH. unfold above.
    rewrite fmap_cons, bind_cons. by destruct (Py.tuple_ltb c1.1 c2.1). }
  assert (Hout : forall outer : list (GroupKey * list Row),
    (fun p : (GroupKey * list Row) * (GroupKey * list Row) => (p.1.1, p.2.1))
      <$> (outer ≫= fun c1 => combinations ≫= fun c2 =>
             if Py.tuple_ltb c1.1 c2.1 then [(c1, c2)] else [])
    = outer.*1 ≫= above Py.tuple_ltb (combinations.*1)).
  { induction outer as [|c1 outer IH]; [done|].
    rewrite bind_cons, fmap_app, IH, Hin. by rewrite fmap_cons, bind_cons. }
  apply Hout.
Qed.

Lemma combinations_keys (group : list Row) :
  (combinations_of group).*1
  = merge_sort key_le (remove_dups (group_key <$> group)).
Proof.
  unfold combinations_of, groupby. rewrite <- list_fmap_compose.
  induction (merge_sort _ _) as [|k l IH]; [done|].
  rewrite fmap_cons. simpl. by f_equal.
Qed.

Lemma NoDup_combinations_keys (group : list Row) :
  NoDup (combinations_of group).*1.
Proof.
  rewrite combinations_keys, merge_sort_Permutation. apply NoDup_remove_dups.
Qed.

Lemma elem_of_combinations_keys (group : list Row) (k : GroupKey) :
  k ∈ (combinations_of group).*1 <-> exists r, r ∈ group /\ group_key r = k.
Proof.
  rewrite combinations_keys, merge_sort_Permutation, elem_of_remove_dups.
  rewrite list_elem_of_fmap. split; intros (r & ? & ?); exists r; auto.
Qed.

Example pair_name_example :
  pair_name_of ("en", "source", "written") ("es", "target", "written")
  = "EPTIC.en_written_source.es_written_target".
Proof. reflexivity. Qed.

(** ** The adapter and the cross product of a group pair *)

Lemma for_each_app {A S} (l1 l2 : list A) (body : A -> S -> result S) (s : S) :
  for_each (l1 ++ l2) body s = bind (for_each l1 body s) (for_each l2 body).
Proof.
  revert s. induction l1 as [|x l1 IH]; intros s; simpl; [done|].
  destruct (body x s); simpl; [apply IH|done].
Qed.

(** Nested loops run their body once per element of the flattened list. *)
Lemma for_each_nested {A B S} (l1 : list A) (l2 : list B)
    (body : A -> B -> S -> result S) (s : S) :
  for_each l1 (fun a => for_each l2 (body a)) s
  = for_each (a ← l1; b ← l2; [(a, b)]) (fun ab => body ab.1 ab.2) s.
Proof.
  revert s. induction l1 as [|a l1 IH]; intros s; [done|].
  rewrite bind_cons, for_each_app. simpl.
  assert (Hin : forall s, for_each l2 (body a) s
                = for_each (l2 ≫= fun b => [(a, b)]) (fun ab => body ab.1 ab.2) s).
  { clear. induction l2 as [|b l2 IH]; intros s; [done|].
    simpl. destruct (body a b s); simpl; [apply IH|done]. }
  rewrite Hin. destruct (for_each _ _ s); simpl; [apply IH|done].
Qed.

Lemma for_each_guard {A S} (g : A -> bool) (f : A -> S -> result S)
    (l : list A) (s : S) :
  for_each l (fun x s => if g x then f x s else Ok s) s
  = for_each (List.filter g l) f s.
Proof.
  revert s. induction l as [|x l IH]; intros s; [done|]. simpl.
  destruct (g x); simpl; [|apply IH].
  destruct (f x s); simpl; [apply IH|done].
Qed.

Lemma group_pairs_filter (combinations : list (GroupKey * list Row)) :
  group_pairs combinations
  = List.filter (fun p => Py.tuple_ltb p.1.1 p.2.1)
      (c1 ← combinations; c2 ← combinations; [(c1, c2)]).
Proof.
  unfold group_pairs.
  assert (Hin : forall (c1 : GroupKey * list Row) m,
    (m ≫= fun c2 => if Py.tuple_ltb c1.1 c2.1 then [(c1, c2)] else [])
    = List.filter
        (fun p : (GroupKey * list Row) * (GroupKey * list Row) =>
           Py.tuple_ltb p.1.1 p.2.1)
        (m ≫= fun c2 => [(c1, c2)])).
  { intros c1 m. induction m as [|c2 m IH]; [done|].
    rewrite !bind_cons, IH. cbn [app List.filter fst snd].
    generalize (List.filter
        (fun p : (GroupKey * list Row) * (GroupKey * list Row) =>
           Py.tuple_ltb p.1.1 p.2.1)
        (m ≫= fun c2 => [(c1, c2)])). intros tl.
    destruct c1 as [k1 g1], c2 as [k2 g2]. cbn [fst snd].
    destruct (Py.tuple_ltb k1 k2); reflexivity. }
  assert (Hout : forall outer : list (GroupKey * list Row),
    (outer ≫= fun c1 => combinations ≫= fun c2 =>
       if Py.tuple_ltb c1.1 c2.1 then [(c1, c2)] else [])
    = List.filter
        (fun p : (GroupKey * list Row) * (GroupKey * list Row) =>
           Py.tuple_ltb p.1.1 p.2.1)
        (outer ≫= fun c1 => combinations ≫= fun c2 => [(c1, c2)])).
  { induction outer as [|c1 outer IH]; [done|].
    by rewrite !bind_cons, List.filter_app, IH, Hin. }
  apply Hout.
Qed.

(** The loops of [align_event] run [align_group_pair] on the pairs of
    [group_pairs], in order. *)
Lemma align_event_group_pairs bertalign (group : list Row) (self : Pipeline) :
  align_event bertalign group self
  = for_each (group_pairs (combinations_of group))
      (fun p => align_group_pair bertalign p.1 p.2) self.
Proof.
  unfold align_event.
  rewrite (for_each_nested _ _
             (fun c1 c2 self =>
                if Py.tuple_ltb c1.1 c2.1 then align_group_pair bertalign c1 c2 self
                else Ok self)).
  rewrite group_pairs_filter.
  apply (for_each_guard (fun p => Py.tuple_ltb p.1.1 p.2.1)
           (fun p => align_group_pair bertalign p.1 p.2)).
Qed.

(** The order of the guard is the lexicographic order of the triples. *)
Lemma tuple_ltb_lexicographic (a1 a2 a3 b1 b2 b3 : string) :
  Py.tuple_ltb (a1, a2, a3) (b1, b2, b3) = true
  <-> String.ltb a1 b1 = true
      \/ (a1 = b1
          /\ (String.ltb a2 b2 = true
              \/ (a2 = b2 /\ String.ltb a3 b3 = true))).
Proof.
  unfold Py.tuple_ltb.
  destruct (String.eqb_spec a1 b1) as [->|H1]; simpl; [|by intuition].
  pose proof (str_ltb_irrefl b1).
  destruct (String.eqb_spec a2 b2) as [->|H2]; simpl; [|by intuition congruence].
  pose proof (str_ltb_irrefl b2).
  destruct (String.eqb_spec a3 b3) as [->|H3]; simpl; [|by intuition congruence].
  pose proof (str_ltb_irrefl b3). intuition congruence.
Qed.

(** C2. Within one event the loops of [align_texts] process the group pairs
    of [group_pairs], which holds the key pair (k1, k2) exactly when
    both keys occur in the event and k1 < k2 in the lexicographic order of the
    tuples; no pair is visited twice, no key is paired with itself, of two
    distinct keys exactly one orientation is visited, N distinct keys give
    N*(N-1)/2 group pairs, and fewer than two keys give none. *)
Theorem C2_pair_enumeration (group : list Row) :
  let keys := (combinations_of group).*1 in
  let visited := visited_keys group in
  (forall k, k ∈ keys <-> exists r, r ∈ group /\ group_key r = k)
  /\ NoDup keys
  /\ (forall k1 k2,
        (k1, k2) ∈ visited <-> k1 ∈ keys /\ k2 ∈ keys /\ Py.tuple_ltb k1 k2 = true)
  /\ NoDup visited
  /\ (forall k, (k, k) ∉ visited)
  /\ (forall k1 k2, k1 ∈ keys -> k2 ∈ keys -> k1 <> k2 ->
        ((k1, k2) ∈ visited /\ (k2, k1) ∉ visited)
        \/ ((k2, k1) ∈ visited /\ (k1, k2) ∉ visited))
  /\ length (group_pairs (combinations_of group))
     = length keys * (length keys - 1) / 2
  /\ (length keys < 2 -> group_pairs (combinations_of group) = [])
  /\ (forall bertalign self,
        align_event bertalign group self
        = for_each (group_pairs (combinations_of group))
            (fun p => align_group_pair bertalign p.1 p.2) self)
  /\ (forall a1 a2 a3 b1 b2 b3 : string,
        Py.tuple_ltb (a1, a2, a3) (b1, b2, b3) = true
        <-> String.ltb a1 b1 = true
            \/ (a1 = b1
                /\ (String.ltb a2 b2 = true
                    \/ (a2 = b2 /\ String.ltb a3 b3 = true)))).
Proof.
  intros keys visited.
  assert (Hv : visited = ordered_pairs Py.tuple_ltb keys)
    by apply group_pairs_keys.
  assert (Hmem : forall k1 k2,
    (k1, k2) ∈ visited <-> k1 ∈ keys /\ k2 ∈ keys /\ Py.tuple_ltb k1 k2 = true).
  { intros. rewrite Hv. apply elem_of_ordered_pairs. }
  assert (Hnd : NoDup keys) by apply NoDup_combinations_keys.
  assert (Hlen : 2 * length (group_pairs (combinations_of group))
                 = length keys * (length keys - 1)).
  { rewrite <- (length_fmap (fun p => (p.1.1, p.2.1))).
    fold (visited_keys group). fold visited. rewrite Hv.
    apply ordered_pairs_length;
      auto using tuple_ltb_irrefl, tuple_ltb_connex. }
  split_and!.
  - apply elem_of_combinations_keys.
  - exact Hnd.
  - exact Hmem.
  - rewrite Hv. apply NoDup_ordered_pairs. exact Hnd.
  - intros k Hk. apply Hmem in Hk as (_ & _ & Hk).
    by rewrite tuple_ltb_irrefl in Hk.
  - intros k1 k2 H1 H2 Hne. pose proof (tuple_ltb_connex k1 k2 Hne) as Hc.
    rewrite !Hmem. destruct (Py.tuple_ltb k2 k1) eqn:E; simpl in Hc.
    + right. split; [done|]. intros (_ & _ & ?). congruence.
    + left. split; [done|]. intros (_ & _ & ?). congruence.
  - rewrite <- Hlen. symmetry. rewrite Nat.mul_comm. apply Nat.div_mul. done.
  - intros Hlt. apply length_zero_iff_nil.
    destruct (length keys) as [|[|n]]; simpl in Hlen; lia.
  - intros bertalign self. apply align_event_group_pairs.
  - apply tuple_ltb_lexicographic.
Qed.


Lemma loc_processed_text_unique (self : Pipeline) (r : Row) :
  NoDup (id <$> texts_data self) ->
  r ∈ texts_data self ->
  loc_processed_text self (id r) = Ok (processed_text r).
Proof.
  unfold loc_processed_text. induction (texts_data self) as [|r' l IH]; intros Hnd Hin.
  - by apply elem_of_nil in Hin.
  - rewrite fmap_cons in Hnd. apply NoDup_cons in Hnd as [Hr' Hnd].
    rewrite filter_cons. apply elem_of_cons in Hin as [->|Hin].
    + by rewrite decide_True.
    + rewrite decide_False; [by apply IH|].
      intros Heq. apply Hr'. rewrite Heq. by apply list_elem_of_fmap_2.
Qed.

Lemma loc_processed_text_known (self : Pipeline) (doc_id : string) :
  doc_id ∈ id <$> texts_data self ->
  exists text, loc_processed_text self doc_id = Ok text.
Proof.
  unfold loc_processed_text. intros Hin.
  apply list_elem_of_fmap in Hin as (r & -> & Hr).
  assert (Hf : r ∈ filter (fun r' => id r' = id r) (texts_data self))
    by (by apply list_elem_of_filter).
  destruct (filter _ _) as [|r' l]; [by apply elem_of_nil in Hf|eauto].
Qed.

Lemma elem_of_attempts (group1 group2 : list Row) (rows : Row * Row) :
  rows ∈ attempts group1 group2 <-> rows.1 ∈ group1 /\ rows.2 ∈ group2.
Proof.
  unfold attempts. rewrite list_elem_of_bind. split.
  - intros (r1 & Hin & H1). apply list_elem_of_bind in Hin as (r2 & Hin & H2).
    apply list_elem_of_singleton in Hin. by subst rows.
  - intros [H1 H2]. exists rows.1. split; [|done].
    apply list_elem_of_bind. exists rows.2. split; [|done].
    destruct rows. by apply list_elem_of_singleton.
Qed.

Section AlignerFacts.

Variable bertalign :
  string -> string -> string -> string -> result (list (list Z * list Z)).

Lemma align_cross_product_attempts pair_name lang1 lang2 group1 group2 acc :
  align_cross_product bertalign pair_name lang1 lang2 group1 group2 acc
  = for_each (attempts group1 group2)
      (fun rows => align_rows bertalign pair_name lang1 lang2 rows.1 rows.2) acc.
Proof. unfold align_cross_product, attempts. apply for_each_nested. Qed.




(** C4. If one of the two documents has an empty plain text, [_align_sents]
    returns [None] whatever the aligner would do, nothing is raised, the
    pair goes to [failed_pairs], and the accumulated links, [aligned_texts]
    and the files stay as they were. *)
Theorem C4_empty_text_skip pair_name lang1 lang2 row1 row2 results self :
  NoDup (id <$> texts_data self) ->
  row1 ∈ texts_data self ->
  row2 ∈ texts_data self ->
  processed_text row1 = "" \/ processed_text row2 = "" ->
  _align_sents bertalign self (id row1) (id row2) lang1 lang2 = Ok None
  /\ align_rows bertalign pair_name lang1 lang2 row1 row2 (results, self)
     = Ok (results,
           mkPipeline (texts_data self) (xml_output_dir self)
             (aligned_texts self)
             (failed_pairs self ++ [(id row1, id row2, pair_name)])
             (disk self)).
Proof.
  intros Hnd H1 H2 Hempty.
  assert (Hsents :
    _align_sents bertalign self (id row1) (id row2) lang1 lang2 = Ok None).
  { unfold _align_sents.
    rewrite (loc_processed_text_unique self row1 Hnd H1).
    rewrite (loc_processed_text_unique self row2 Hnd H2). simpl.
    destruct Hempty as [-> | ->]; simpl; [done|].
    by rewrite orb_true_r. }
  split; [exact Hsents|].
  unfold align_rows. by rewrite Hsents.
Qed.

(** C5. A result of [_align_sents] that is not [None] has one link for each
    pair of index groups the aligner returned, in the aligner's order; the
    link's type is the two group sizes joined by "-", its xtargets the
    "id:idx" entries of the source side joined by spaces, ";", and those of
    the target side. *)
Theorem C5_link_format self src_id tgt_id src_lang tgt_lang links :
  _align_sents bertalign self src_id tgt_id src_lang tgt_lang = Ok (Some links) ->
  exists src_text tgt_text alignments,
    loc_processed_text self src_id = Ok src_text
    /\ loc_processed_text self tgt_id = Ok tgt_text
    /\ bertalign src_text tgt_text src_lang tgt_lang = Ok alignments
    /\ length links = length alignments
    /\ forall i left_side right_side,
         alignments !! i = Some (left_side, right_side) ->
         exists link,
           links !! i = Some link
           /\ type link
              = Py.str_of_int (Z.of_nat (length left_side)) +:+ "-"
                +:+ Py.str_of_int (Z.of_nat (length right_side))
           /\ xtargets link
              = Py.join " " (map (fun idx => src_id +:+ ":" +:+ Py.str_of_int idx)
                               left_side)
                +:+ ";"
                +:+ Py.join " " (map (fun idx => tgt_id +:+ ":" +:+ Py.str_of_int idx)
                                   right_side)
           /\ status link = "auto".
Proof.
  unfold _align_sents. intros H.
  destruct (loc_processed_text self src_id) as [src_text|]; [|done].
  destruct (loc_processed_text self tgt_id) as [tgt_text|]; [|done].
  simpl in H.
  destruct (Py.falsy_str src_text || Py.falsy_str tgt_text); [done|].
  destruct (bertalign src_text tgt_text src_lang tgt_lang) as [alignments|] eqn:E;
    [|done].
  simpl in H. injection H as <-.
  exists src_text, tgt_text, alignments. split_and!; try done.
  - by rewrite length_map.
  - intros i left_side right_side Hi.
    exists (link_of src_id tgt_id (left_side, right_side)).
    split; [|done].
    change (map (link_of src_id tgt_id) alignments)
      with (link_of src_id tgt_id <$> alignments).
    by rewrite list_lookup_fmap, Hi.
Qed.

End AlignerFacts.

(** ** Strings *)

Lemma str_app_cons (c : ascii) (s t : string) : String c s +:+ t = String c (s +:+ t).
Proof. reflexivity. Qed.

Lemma str_app_nil_l (t : string) : "" +:+ t = t.
Proof. reflexivity. Qed.

Lemma str_app_nil_r (s : string) : s +:+ "" = s.
Proof. induction s as [|c s IH]; [done|]. by rewrite str_app_cons, IH. Qed.

Lemma str_app_assoc (s t u : string) : (s +:+ t) +:+ u = s +:+ (t +:+ u).
Proof. induction s as [|c s IH]; [done|]. by rewrite !str_app_cons, IH. Qed.

Lemma prefix_app (a b : string) : String.prefix a (a +:+ b) = true.
Proof.
  induction a as [|c a IH]; [by destruct b|].
  rewrite str_app_cons. simpl. by destruct (ascii_dec c c).
Qed.

Lemma prefix_inv (a s : string) :
  String.prefix a s = true -> exists b, s = a +:+ b.
Proof.
  revert s. induction a as [|c a IH]; intros s H; [by exists s|].
  destruct s as [|d s]; [done|]. simpl in H.
  destruct (ascii_dec c d) as [->|]; [|done].
  destruct (IH s H) as [b ->]. by exists b.
Qed.

(** [sub in s] holds exactly when [s] splits around a copy of [sub]. *)
Lemma contains_spec (sub s : string) :
  Py.contains sub s = true <-> exists pre post, s = pre +:+ sub +:+ post.
Proof.
  split.
  - induction s as [|c s IH]; cbn [Py.contains]; intros H.
    + apply orb_true_iff in H as [H|H]; [|done].
      apply prefix_inv in H as [b ->]. by exists "", b.
    + apply orb_true_iff in H as [H|H].
      * apply prefix_inv in H as [b ->]. by exists "", b.
      * destruct (IH H) as (pre & post & ->). by exists (String c pre), post.
  - intros (pre & post & ->). induction pre as [|c pre IH].
    + rewrite str_app_nil_l.
      destruct (sub +:+ post) as [|c s] eqn:E; cbn [Py.contains];
        rewrite <- E, prefix_app; done.
    + rewrite str_app_cons. cbn [Py.contains]. by rewrite IH, orb_true_r.
Qed.

Lemma contains_app_l (sub a b : string) :
  Py.contains sub a = true -> Py.contains sub (a +:+ b) = true.
Proof.
  rewrite !contains_spec. intros (pre & post & ->).
  exists pre, (post +:+ b). by rewrite !str_app_assoc.
Qed.

Lemma contains_app_r (sub a b : string) :
  Py.contains sub b = true -> Py.contains sub (a +:+ b) = true.
Proof.
  rewrite !contains_spec. intros (pre & post & ->).
  exists (a +:+ pre), post. by rewrite !str_app_assoc.
Qed.

Lemma contains_join (sub sep : string) (parts : list string) (part : string) :
  part ∈ parts ->
  Py.contains sub part = true ->
  Py.contains sub (Py.join sep parts) = true.
Proof.
  intros Hin Hsub. unfold Py.join.
  induction parts as [|p parts IH]; [by apply elem_of_nil in Hin|].
  apply elem_of_cons in Hin as [<-|Hin].
  - destruct parts; simpl; [done|]. by apply contains_app_l.
  - specialize (IH Hin). destruct parts as [|p' parts];
      [by apply elem_of_nil in Hin|].
    change (String.concat sep (p :: p' :: parts))
      with (p +:+ sep +:+ String.concat sep (p' :: parts)).
    by do 2 apply contains_app_r.
Qed.

(** ** The retention filter *)

Lemma build_root_children (links : list Link) :
  build_root links
  = ET.Elem "linkGrp"
      [("toDoc", "placeholder_toDoc.xml"); ("fromDoc", "placeholder_fromDoc.xml")]
      (map link_element links).
Proof.
  unfold build_root.
  assert (Hgen : forall t a cs,
    fold_left (fun root result => ET.SubElement root "link" (link_attrib result))
      links (ET.Elem t a cs)
    = ET.Elem t a (cs ++ map link_element links)).
  { induction links as [|l links IH]; intros t a cs; simpl.
    - by rewrite app_nil_r.
    - rewrite IH, <- app_assoc. done. }
  apply Hgen.
Qed.

Lemma filter_retain_idemp (links : list Link) :
  List.filter retain (List.filter retain links) = List.filter retain links.
Proof.
  induction links as [|l links IH]; [done|]. simpl.
  destruct (retain l) eqn:E; simpl; [rewrite E|]; by rewrite ?IH.
Qed.

Lemma link_element_inj (l1 l2 : Link) : link_element l1 = link_element l2 -> l1 = l2.
Proof. destruct l1, l2. unfold link_element, link_attrib. simpl. congruence. Qed.

Lemma retain_entry (sub src_id tgt_id : string) (sides : list Z * list Z)
    (doc : string) (idx : Z) :
  references doc idx src_id tgt_id sides ->
  Py.contains sub (doc +:+ ":" +:+ Py.str_of_int idx) = true ->
  Py.contains sub (xtargets (link_of src_id tgt_id sides)) = true.
Proof.
  destruct sides as [left_side right_side]. unfold references. simpl.
  intros [[-> Hin] | [-> Hin]] Hsub.
  - apply contains_app_l.
    apply (contains_join _ _ _ (doc +:+ ":" +:+ Py.str_of_int idx)); [|done].
    apply list_elem_of_In.
    apply (in_map (fun i => doc +:+ ":" +:+ Py.str_of_int i)).
    by apply list_elem_of_In.
  - do 2 apply contains_app_r.
    apply (contains_join _ _ _ (doc +:+ ":" +:+ Py.str_of_int idx)); [|done].
    apply list_elem_of_In.
    apply (in_map (fun i => doc +:+ ":" +:+ Py.str_of_int i)).
    by apply list_elem_of_In.
Qed.

(** Retention is wider than the two sentinel ids: the link of document 1643
    at sentence 0 is retained although it references neither document 643
    nor document 641. *)
Lemma C1_counterexample :
  retain (link_of "1643" "7" ([0%Z], [0%Z])) = true
  /\ ~ references_sentinel "1643" "7" ([0%Z], [0%Z]).
Proof.
  split; [reflexivity|].
  intros [[[H _] | [H _]] | [idx [[H _] | [H _]]]]; discriminate H.
Qed.

(** ** Replacing a single character *)

Lemma replace1_cons (c d : ascii) (new s : string) :
  Py.replace (String c "") new (String d s)
  = (if Ascii.eqb d c then new else String d "")
    +:+ Py.replace (String c "") new s.
Proof.
  unfold Py.replace. cbn [Py.replace_from String.prefix String.length Nat.sub].
  destruct (Ascii.eqb_spec d c) as [->|Hne].
  - destruct (ascii_dec c c); [|done]. by destruct s.
  - destruct (ascii_dec c d); [by subst|done].
Qed.

Lemma replace1_app (c : ascii) (new a b : string) :
  Py.replace (String c "") new (a +:+ b)
  = Py.replace (String c "") new a +:+ Py.replace (String c "") new b.
Proof.
  induction a as [|d a IH]; [done|].
  by rewrite str_app_cons, !replace1_cons, IH, str_app_assoc.
Qed.

Lemma escape_char_steps (d : ascii) :
  Py.replace (String "009" "") "&#09;"
    (Py.replace (String "010" "") "&#10;"
       (Py.replace (String "013" "") "&#13;"
          (Py.replace (String ET.dq "") "&quot;"
             (Py.replace ">" "&gt;"
                (Py.replace "<" "&lt;"
                   (if Ascii.eqb d "&" then "&amp;" else String d ""))))))
  = escape_char d.
Proof. destruct d as [[] [] [] [] [] [] [] []]; reflexivity. Qed.

Lemma escape_attrib_cons (d : ascii) (s : string) :
  ET.escape_attrib (String d s) = escape_char d +:+ ET.escape_attrib s.
Proof.
  unfold ET.escape_attrib. rewrite replace1_cons, !replace1_app.
  by rewrite escape_char_steps.
Qed.

Lemma chars_all_app (P : ascii -> bool) (a b : string) :
  chars_all P (a +:+ b) = chars_all P a && chars_all P b.
Proof.
  induction a as [|c a IH]; [done|].
  rewrite str_app_cons. simpl. by rewrite IH, andb_assoc.
Qed.

Lemma escape_char_plain (d : ascii) : chars_all plain (escape_char d) = true.
Proof. destruct d as [[] [] [] [] [] [] [] []]; reflexivity. Qed.

Lemma escape_attrib_plain (s : string) :
  chars_all plain (ET.escape_attrib s) = true.
Proof.
  induction s as [|d s IH]; [done|].
  by rewrite escape_attrib_cons, chars_all_app, escape_char_plain, IH.
Qed.

(** ** Parsing what [tostring] wrote *)

Lemma feed_app (p : ET.Parser) (a b : string) :
  ET.feed p (a +:+ b) = feed_opt (ET.feed p a) b.
Proof.
  revert p. induction a as [|c a IH]; intros p; [done|].
  rewrite str_app_cons. simpl. destruct (ET.step p c); [apply IH|done].
Qed.

Lemma has_nonchar_cons (a : ascii) (s : string) :
  ET.has_nonchar (String a s)
  = match s with
    | String b (String c _) => ET.nonchar_bytes a b c
    | _ => false
    end || ET.has_nonchar s.
Proof. reflexivity. Qed.

(** A text that holds neither character has no prefix that holds one. *)
Lemma has_nonchar_prefix (a b : string) :
  ET.has_nonchar (a +:+ b) = false -> ET.has_nonchar a = false.
Proof.
  induction a as [|x a IH]; [done|].
  rewrite str_app_cons, !has_nonchar_cons. intros H.
  apply orb_false_iff in H as [Hx H]. rewrite (IH H), orb_false_r.
  destruct a as [|y [|z a]]; [done|done|exact Hx].
Qed.

(** The byte that completes U+FFFE or U+FFFF is 190 or 191. *)
Lemma has_nonchar_snoc (v : string) (d : ascii) :
  ET.has_nonchar v = false ->
  ET.has_nonchar (ET.snoc v d) = true ->
  Ascii.eqb d "190" || Ascii.eqb d "191" = true.
Proof.
  unfold ET.snoc. induction v as [|x v IH]; [done|].
  rewrite str_app_cons, !has_nonchar_cons. intros Hv H.
  apply orb_false_iff in Hv as [Hx Hv]. apply orb_true_iff in H as [H|H];
    [|by apply IH].
  destruct v as [|y [|z v]]; [done| |];
    rewrite ?str_app_cons, ?str_app_nil_l in H; cbv iota in H; [|congruence].
  unfold ET.nonchar_bytes in H.
  by apply andb_true_iff in H as [H _]; apply andb_true_iff in H as [H _].
Qed.

Lemma feed_escape_char n attrs k v stack (d : ascii) :
  xml_char d = true ->
  ET.has_nonchar (ET.snoc v d) = false ->
  ET.feed (ET.AttValue n attrs k ET.dq v, stack) (escape_char d)
  = Ok (ET.AttValue n attrs k ET.dq (ET.snoc v d), stack).
Proof.
  destruct d as [[] [] [] [] [] [] [] []]; intros H Hn;
    try discriminate H;
    cbn [escape_char Ascii.eqb Bool.eqb ET.feed ET.step ET.dq N_of_ascii
         N_of_digits N.leb N.compare Pos.compare Pos.compare_cont N.add N.mul
         Pos.add Pos.mul Pos.succ orb andb bind];
    rewrite ?Hn; reflexivity.
Qed.

Lemma feed_escape_attrib n attrs k stack (text v : string) :
  chars_all xml_char text = true ->
  ET.has_nonchar (v +:+ text) = false ->
  ET.feed (ET.AttValue n attrs k ET.dq v, stack) (ET.escape_attrib text)
  = Ok (ET.AttValue n attrs k ET.dq (v +:+ text), stack).
Proof.
  revert v. induction text as [|d text IH]; intros v Hok Hn.
  - by rewrite str_app_nil_r.
  - simpl in Hok. apply andb_true_iff in Hok as [Hd Hok].
    assert (Heq : v +:+ String d text = ET.snoc v d +:+ text)
      by (unfold ET.snoc; by rewrite str_app_assoc).
    rewrite Heq in Hn |- *.
    rewrite escape_attrib_cons, feed_app, feed_escape_char;
      [|done|by apply (has_nonchar_prefix _ text)].
    simpl. by rewrite IH.
Qed.

Lemma xml_text_cases (text : string) :
  xml_text text = true ->
  chars_all xml_char text = true /\ ET.has_nonchar ("" +:+ text) = false.
Proof.
  unfold xml_text. rewrite andb_true_iff, negb_true_iff. by rewrite str_app_nil_l.
Qed.

Lemma tostring_link (l : Link) :
  ET.tostring (link_element l) = "<link" +:+ link_attrs_text ET.dq l " />".
Proof.
  unfold link_element, link_attrib, link_attrs_text. destruct l as [x t s].
  cbn [ET.tostring ET.concat_map fold_right xtargets type status].
  unfold ET.attr_to_string. cbn [fst snd].
  repeat (rewrite ?str_app_assoc, ?str_app_cons, ?str_app_nil_l). reflexivity.
Qed.

Lemma feed_link (l : Link) (t : string) (a : Py.dict) (cs : list ET.Element)
    (stack : list ET.Frame) :
  xml_link l = true ->
  ET.feed (ET.Content, (t, a, cs) :: stack) (ET.tostring (link_element l))
  = Ok (ET.Content, (t, a, link_element l :: cs) :: stack).
Proof.
  unfold xml_link. intros H.
  apply andb_true_iff in H as [H Hs]. apply andb_true_iff in H as [Ht Hx].
  apply xml_text_cases in Hs as [Hs Hs'], Ht as [Ht Ht'], Hx as [Hx Hx'].
  rewrite tostring_link. unfold link_attrs_text.
  set (stk := (t, a, cs) :: stack).
  change (ET.feed (ET.Content, stk)
            ("<link" +:+ " type=" +:+ String ET.dq ?X))
    with (ET.feed (ET.AttValue "link" [] "type" ET.dq "", stk) X).
  rewrite feed_app, feed_escape_attrib by done.
  change (feed_opt (Ok (ET.AttValue "link" [] "type" ET.dq ("" +:+ type l), stk))
            (String ET.dq (" xtargets=" +:+ String ET.dq ?X)))
    with (ET.feed (ET.AttValue "link" [("type", type l)] "xtargets" ET.dq "", stk) X).
  rewrite feed_app, feed_escape_attrib by done.
  change (feed_opt (Ok (ET.AttValue "link" [("type", type l)] "xtargets" ET.dq
                     ("" +:+ xtargets l), stk))
            (String ET.dq (" status=" +:+ String ET.dq ?X)))
    with (ET.feed (ET.AttValue "link" [("type", type l); ("xtargets", xtargets l)]
                     "status" ET.dq "", stk) X).
  rewrite feed_app, feed_escape_attrib by done.
  reflexivity.
Qed.

Lemma tostring_children (links : list Link) :
  fold_right (fun c acc => ET.tostring c +:+ acc) "" (map link_element links)
  = ET.concat_map (fun l => ET.tostring (link_element l)) links.
Proof. induction links as [|l links IH]; [done|]. simpl. by rewrite IH. Qed.

Lemma tostring_root (links : list Link) :
  ET.tostring (build_root links)
  = "<linkGrp" +:+ root_attrs_text ET.dq
      match links with
      | [] => " />"
      | _ => ">" +:+ ET.concat_map (fun l => ET.tostring (link_element l)) links
             +:+ "</linkGrp>"
      end.
Proof.
  rewrite build_root_children. destruct links as [|l links]; [reflexivity|].
  rewrite <- tostring_children. reflexivity.
Qed.

Lemma feed_links (links : list Link) (t : string) (a : Py.dict)
    (cs : list ET.Element) (rest : string) :
  forallb xml_link links = true ->
  ET.feed (ET.Content, [(t, a, cs)])
    (ET.concat_map (fun l => ET.tostring (link_element l)) links +:+ rest)
  = ET.feed (ET.Content, [(t, a, rev (map link_element links) ++ cs)]) rest.
Proof.
  revert cs. induction links as [|l links IH]; intros cs Hok; [done|].
  simpl in Hok. apply andb_true_iff in Hok as [Hl Hok].
  cbn [ET.concat_map fold_right]. fold (ET.concat_map (fun l => ET.tostring (link_element l)) links).
  rewrite str_app_assoc, feed_app, feed_link by done.
  cbn [feed_opt bind]. rewrite IH by done. simpl. by rewrite <- app_assoc.
Qed.

(** The parser reads back the tree that was written. *)
Lemma fromstring_tostring_root (links : list Link) :
  forallb xml_link links = true ->
  ET.fromstring (ET.tostring (build_root links)) = Ok (build_root links).
Proof.
  intros Hok. rewrite tostring_root, build_root_children. unfold ET.fromstring.
  destruct links as [|l links]; [reflexivity|].
  change (ET.feed (ET.Content, [])
            ("<linkGrp" +:+ root_attrs_text ET.dq (">" +:+ ?X)))
    with (ET.feed (ET.Content, [("linkGrp", root_attrib, [])]) X).
  rewrite feed_links by done. rewrite app_nil_r.
  change (ET.feed (ET.Content, [("linkGrp", root_attrib, ?cs)]) "</linkGrp>")
    with (Ok (ET.Epilog (ET.Elem "linkGrp" root_attrib (rev cs)), @nil ET.Frame)).
  by rewrite rev_involutive.
Qed.

(** ** The string passes of [_rearrange_link_attributes] and [refine] *)

Lemma reorder_link_attrib (l : Link) :
  reorder_attributes (link_attrib l) = link_attrib l.
Proof. reflexivity. Qed.

Lemma rearrange_build_root (links : list Link) :
  rearrange_root (build_root links) = build_root links.
Proof.
  rewrite build_root_children. simpl. f_equal.
  induction links as [|l links IH]; [done|]. simpl. by rewrite IH.
Qed.

Lemma chars_all_impl (P Q : ascii -> bool) (s : string) :
  (forall c, P c = true -> Q c = true) ->
  chars_all P s = true -> chars_all Q s = true.
Proof.
  intros HPQ. induction s as [|c s IH]; [done|]. simpl.
  rewrite !andb_true_iff. intros [Hc Hs]. auto.
Qed.

Lemma plain_not_gt (c : ascii) : plain c = true -> not_gt c = true.
Proof. unfold plain, not_gt. rewrite !andb_true_iff. tauto. Qed.

Lemma link_attrs_text_tail (q : ascii) (l : Link) (tail : string) :
  link_attrs_text q l tail = link_attrs_text q l "" +:+ tail.
Proof.
  unfold link_attrs_text.
  repeat (rewrite ?str_app_assoc, ?str_app_cons, ?str_app_nil_l). reflexivity.
Qed.

Lemma root_attrs_text_tail (q : ascii) (tail : string) :
  root_attrs_text q tail = root_attrs_text q "" +:+ tail.
Proof. reflexivity. Qed.

Lemma link_attrs_not_gt (l : Link) :
  chars_all not_gt ("<link" +:+ link_attrs_text ET.dq l "") = true.
Proof.
  pose proof (fun s => chars_all_impl plain not_gt _ plain_not_gt
                         (escape_attrib_plain s)) as Hesc.
  unfold link_attrs_text.
  repeat (rewrite ?chars_all_app || (cbn [chars_all]) || rewrite ?Hesc
          || rewrite ?str_app_cons || rewrite ?str_app_nil_l).
  reflexivity.
Qed.

Lemma prefix_gap_false (c : ascii) (s rest : string) :
  chars_all not_gt (String c s) = true ->
  String.prefix " />" (String c s +:+ " />" +:+ rest) = false.
Proof.
  intros H. rewrite str_app_cons. cbn [String.prefix].
  destruct (ascii_dec " " c) as [<-|]; [|done].
  destruct s as [|c2 s]; [reflexivity|].
  rewrite str_app_cons. cbn [String.prefix].
  destruct (ascii_dec "/" c2) as [<-|]; [|done].
  destruct s as [|c3 s]; [reflexivity|].
  rewrite str_app_cons. cbn [String.prefix].
  destruct (ascii_dec ">" c3) as [<-|]; [|done].
  discriminate H.
Qed.

(** Text without [>] is copied up to the first [' />']. *)
Lemma replace_gap (s rest : string) :
  chars_all not_gt s = true ->
  Py.replace " />" "/>" (s +:+ " />" +:+ rest)
  = s +:+ "/>" +:+ Py.replace " />" "/>" rest.
Proof.
  unfold Py.replace. induction s as [|c s IH]; intros H.
  { rewrite !str_app_nil_l. pose proof (prefix_app " />" rest) as Hp.
    rewrite !str_app_cons in *. cbn [Py.replace_from]. by rewrite Hp. }
  pose proof (prefix_gap_false c s rest H) as Hp.
  change (String c s +:+ " />" +:+ rest)
    with (String c (s +:+ " />" +:+ rest)) in *.
  cbn [Py.replace_from]. rewrite Hp.
  simpl in H. apply andb_true_iff in H as [_ H]. by rewrite IH.
Qed.

Lemma replace_links (links : list Link) (rest : string) :
  Py.replace " />" "/>"
    (ET.concat_map (fun l => ET.tostring (link_element l)) links +:+ rest)
  = ET.concat_map short_link links +:+ Py.replace " />" "/>" rest.
Proof.
  induction links as [|l links IH]; [done|].
  cbn [ET.concat_map fold_right].
  fold (ET.concat_map (fun l => ET.tostring (link_element l)) links).
  fold (ET.concat_map short_link links).
  assert (Heq :
    (ET.tostring (link_element l)
     +:+ ET.concat_map (fun l => ET.tostring (link_element l)) links) +:+ rest
    = ("<link" +:+ link_attrs_text ET.dq l "") +:+ " />"
      +:+ (ET.concat_map (fun l => ET.tostring (link_element l)) links +:+ rest)).
  { rewrite tostring_link, link_attrs_text_tail. by rewrite !str_app_assoc. }
  rewrite Heq, replace_gap by apply link_attrs_not_gt.
  rewrite IH. unfold short_link. rewrite (link_attrs_text_tail _ _ "/>").
  by rewrite !str_app_assoc.
Qed.

Lemma rearrange_closed_form (links : list Link) :
  forallb xml_link links = true ->
  _rearrange_link_attributes (ET.tostring (build_root links))
  = Ok (rearranged_xml links).
Proof.
  intros Hok. unfold _rearrange_link_attributes, rearranged_xml.
  rewrite fromstring_tostring_root by done. cbn [bind].
  rewrite rearrange_build_root, tostring_root. f_equal.
  destruct links as [|l links]; [reflexivity|].
  set (body := ET.concat_map (fun l => ET.tostring (link_element l)) (l :: links)).
  change (Py.replace " />" "/>"
            ("<linkGrp" +:+ root_attrs_text ET.dq (">" +:+ body +:+ "</linkGrp>")))
    with ("<linkGrp" +:+ root_attrs_text ET.dq
            (">" +:+ Py.replace " />" "/>" (body +:+ "</linkGrp>"))).
  unfold body. by rewrite replace_links.
Qed.

(** *** [re.sub] on a document whose tags touch *)

Lemma link_body_not_gt (l : Link) :
  chars_all not_gt ("link" +:+ link_attrs_text ET.dq l "/") = true.
Proof.
  pose proof (fun s => chars_all_impl plain not_gt _ plain_not_gt
                         (escape_attrib_plain s)) as Hesc.
  unfold link_attrs_text.
  repeat (rewrite ?chars_all_app || (cbn [chars_all]) || rewrite ?Hesc
          || rewrite ?str_app_cons || rewrite ?str_app_nil_l).
  reflexivity.
Qed.

Lemma re_sub_copy (s rest : string) :
  chars_all not_gt s = true ->
  Py.re_sub_from None (s +:+ String ">" rest)
  = s +:+ Py.re_sub_from (Some "") rest.
Proof.
  induction s as [|c s IH]; intros H; [reflexivity|].
  simpl in H. apply andb_true_iff in H as [Hc H].
  rewrite !str_app_cons. cbn [Py.re_sub_from].
  unfold not_gt in Hc. apply negb_true_iff in Hc. rewrite Hc. by rewrite IH.
Qed.

Lemma re_sub_links (links : list Link) :
  Py.re_sub_from (Some "") (ET.concat_map short_link links +:+ "</linkGrp>")
  = ">" +:+ String ET.nl
      (ET.concat_map (fun l => short_link l +:+ String ET.nl "") links
       +:+ "</linkGrp>").
Proof.
  induction links as [|l links IH]; [reflexivity|].
  cbn [ET.concat_map fold_right].
  fold (ET.concat_map short_link links).
  fold (ET.concat_map (fun l => short_link l +:+ String ET.nl "") links).
  assert (Heq :
    (short_link l +:+ ET.concat_map short_link links) +:+ "</linkGrp>"
    = String "<" (("link" +:+ link_attrs_text ET.dq l "/")
        +:+ String ">" (ET.concat_map short_link links +:+ "</linkGrp>"))).
  { unfold short_link.
    rewrite (link_attrs_text_tail _ _ "/>"), (link_attrs_text_tail _ _ "/").
    rewrite !str_app_assoc. reflexivity. }
  rewrite Heq. cbn [Py.re_sub_from]. change (Ascii.eqb "<" "<") with true.
  cbn iota. rewrite re_sub_copy, IH.
  - unfold short_link.
    rewrite (link_attrs_text_tail _ _ "/>"), (link_attrs_text_tail _ _ "/").
    rewrite !str_app_assoc. reflexivity.
  - apply link_body_not_gt.
Qed.

Lemma re_sub_rearranged (links : list Link) :
  Py.re_sub_tag_gap (rearranged_xml links)
  = "<linkGrp" +:+ root_attrs_text ET.dq
      match links with
      | [] => "/>"
      | _ =>
        ">" +:+ String ET.nl
          (ET.concat_map (fun l => short_link l +:+ String ET.nl "") links
           +:+ "</linkGrp>")
      end.
Proof.
  unfold Py.re_sub_tag_gap, rearranged_xml.
  destruct links as [|l links]; [reflexivity|].
  rewrite <- re_sub_links. reflexivity.
Qed.

(** *** [strip] *)

Lemma rstrip_keep (a b : string) :
  b <> "" -> Py.rstrip b = b -> Py.rstrip (a +:+ b) = a +:+ b.
Proof.
  intros Hne Hb. induction a as [|c a IH]; [done|].
  rewrite str_app_cons. cbn [Py.rstrip]. rewrite IH.
  destruct (a +:+ b) eqn:E; [|done].
  destruct a; [|done]. by rewrite str_app_nil_l in E.
Qed.

(** *** Quotes *)

Lemma replace1_plain (new s : string) :
  chars_all plain s = true -> Py.replace (String ET.dq "") new s = s.
Proof.
  induction s as [|c s IH]; intros H; [done|].
  simpl in H. apply andb_true_iff in H as [Hc H].
  rewrite replace1_cons, IH by done.
  unfold plain in Hc. rewrite !andb_true_iff, !negb_true_iff in Hc.
  destruct Hc as [_ ->]. done.
Qed.

Lemma render_link_attrs (l : Link) :
  render_link l = "<link" +:+ link_attrs_text ET.sq l "/>".
Proof.
  unfold render_link, link_attrs_text.
  repeat (rewrite ?str_app_assoc, ?str_app_cons, ?str_app_nil_l). reflexivity.
Qed.

Lemma swap_link_attrs (l : Link) (tail : string) :
  Py.replace (String ET.dq "") "'" (link_attrs_text ET.dq l tail)
  = link_attrs_text ET.sq l (Py.replace (String ET.dq "") "'" tail).
Proof.
  pose proof (fun s => replace1_plain "'" _ (escape_attrib_plain s)) as Hesc.
  unfold link_attrs_text.
  repeat (rewrite ?replace1_app, ?replace1_cons, ?Hesc, ?str_app_cons,
            ?str_app_nil_l, ?str_app_assoc; cbn [Ascii.eqb Bool.eqb]; cbv iota).
  reflexivity.
Qed.

Lemma swap_links (links : list Link) (rest : string) :
  Py.replace (String ET.dq "") "'"
    (ET.concat_map (fun l => short_link l +:+ String ET.nl "") links +:+ rest)
  = ET.concat_map (fun l => render_link l +:+ String ET.nl "") links
    +:+ Py.replace (String ET.dq "") "'" rest.
Proof.
  induction links as [|l links IH]; [done|].
  cbn [ET.concat_map fold_right].
  fold (ET.concat_map (fun l => short_link l +:+ String ET.nl "") links).
  fold (ET.concat_map (fun l => render_link l +:+ String ET.nl "") links).
  rewrite !str_app_assoc, (replace1_app _ _ (short_link l)), replace1_app, IH.
  unfold short_link. rewrite replace1_app, swap_link_attrs, render_link_attrs.
  reflexivity.
Qed.

Lemma refine_rearranged (links : list Link) :
  refine (rearranged_xml links) = canonical_xml links.
Proof.
  unfold refine. rewrite re_sub_rearranged. unfold canonical_xml.
  destruct links as [|l links]; [reflexivity|].
  set (body := ET.concat_map (fun l => short_link l +:+ String ET.nl "") (l :: links)).
  assert (Hstrip :
    Py.strip ("<linkGrp" +:+ root_attrs_text ET.dq
                (">" +:+ String ET.nl (body +:+ "</linkGrp>")))
    = "<linkGrp" +:+ root_attrs_text ET.dq
        (">" +:+ String ET.nl (body +:+ "</linkGrp>"))).
  { unfold Py.strip.
    change (Py.lstrip ("<linkGrp" +:+ ?X)) with ("<linkGrp" +:+ X).
    change ("<linkGrp" +:+ root_attrs_text ET.dq
              (">" +:+ String ET.nl (body +:+ "</linkGrp>")))
      with (("<linkGrp" +:+ root_attrs_text ET.dq (">" +:+ String ET.nl ""))
            +:+ (body +:+ "</linkGrp>")).
    rewrite <- str_app_assoc. by apply rstrip_keep. }
  rewrite Hstrip.
  change (Py.replace (String ET.dq "") "'"
            ("<linkGrp" +:+ root_attrs_text ET.dq
               (">" +:+ String ET.nl (body +:+ "</linkGrp>"))))
    with ("<linkGrp" +:+ root_attrs_text ET.sq
            (">" +:+ String ET.nl
               (Py.replace (String ET.dq "") "'" (body +:+ "</linkGrp>")))).
  unfold body. rewrite swap_links. reflexivity.
Qed.

(** The file content [_generate_xml] computes for well-formed links. *)
Lemma serialize_closed_form (links : list Link) :
  forallb xml_link links = true ->
  _prettify_and_refine_xml (ET.tostring (build_root links))
  = Ok (canonical_xml links).
Proof.
  intros Hok. unfold _prettify_and_refine_xml.
  rewrite rearrange_closed_form by done. cbn [bind].
  by rewrite refine_rearranged.
Qed.

(** *** Text the parser rejects *)

Lemma feed_reject_char n attrs k v stack (d : ascii) (rest : string) :
  xml_char d = false ->
  ET.feed (ET.AttValue n attrs k ET.dq v, stack) (escape_char d +:+ rest) = Raise ParseError.
Proof.
  destruct d as [[] [] [] [] [] [] [] []]; intros H;
    try discriminate H; reflexivity.
Qed.

Lemma feed_reject_nonchar n attrs k v stack (d : ascii) (rest : string) :
  Ascii.eqb d "190" || Ascii.eqb d "191" = true ->
  ET.has_nonchar (ET.snoc v d) = true ->
  ET.feed (ET.AttValue n attrs k ET.dq v, stack) (escape_char d +:+ rest) = Raise ParseError.
Proof.
  intros Hd Hn. apply orb_true_iff in Hd as [Hd|Hd];
    apply Ascii.eqb_eq in Hd; subst d;
    unfold escape_char; cbn [Ascii.eqb Bool.eqb ET.dq andb];
    rewrite str_app_cons, str_app_nil_l; cbn [ET.feed ET.step];
    cbn [Ascii.eqb Bool.eqb ET.dq andb orb N_of_ascii N_of_digits N.leb
         N.compare Pos.compare Pos.compare_cont N.add N.mul Pos.add Pos.mul
         Pos.succ];
    by rewrite Hn.
Qed.

Lemma feed_reject_attrib n attrs k stack (text v rest : string) :
  ET.has_nonchar v = false ->
  chars_all xml_char text && negb (ET.has_nonchar (v +:+ text)) = false ->
  ET.feed (ET.AttValue n attrs k ET.dq v, stack) (ET.escape_attrib text +:+ rest)
  = Raise ParseError.
Proof.
  revert v. induction text as [|d text IH]; intros v Hv Hbad.
  { rewrite str_app_nil_r, Hv in Hbad. discriminate Hbad. }
  rewrite escape_attrib_cons, str_app_assoc.
  assert (Heq : v +:+ String d text = ET.snoc v d +:+ text)
    by (unfold ET.snoc; by rewrite str_app_assoc).
  rewrite Heq in Hbad. change (chars_all xml_char (String d text))
    with (xml_char d && chars_all xml_char text) in Hbad.
  destruct (xml_char d) eqn:Hd; [|by apply feed_reject_char].
  destruct (ET.has_nonchar (ET.snoc v d)) eqn:Hn.
  - apply feed_reject_nonchar; [|done]. by apply (has_nonchar_snoc v).
  - rewrite feed_app, feed_escape_char by done. cbn [feed_opt bind].
    by apply IH.
Qed.

Lemma xml_text_reject (text : string) :
  xml_text text = false ->
  chars_all xml_char text && negb (ET.has_nonchar ("" +:+ text)) = false.
Proof. by rewrite str_app_nil_l. Qed.

Lemma feed_link_reject (l : Link) (t : string) (a : Py.dict)
    (cs : list ET.Element) (stack : list ET.Frame) (rest : string) :
  xml_link l = false ->
  ET.feed (ET.Content, (t, a, cs) :: stack)
    (ET.tostring (link_element l) +:+ rest) = Raise ParseError.
Proof.
  unfold xml_link. intros H.
  rewrite tostring_link, str_app_assoc, link_attrs_text_tail, str_app_assoc.
  rewrite <- link_attrs_text_tail. unfold link_attrs_text.
  set (stk := (t, a, cs) :: stack).
  change (ET.feed (ET.Content, stk)
            ("<link" +:+ " type=" +:+ String ET.dq ?X))
    with (ET.feed (ET.AttValue "link" [] "type" ET.dq "", stk) X).
  destruct (xml_text (type l)) eqn:Ht;
    [|by apply (feed_reject_attrib _ _ _ _ _ ""); [|apply xml_text_reject]].
  apply xml_text_cases in Ht as [Ht Ht'].
  rewrite feed_app, feed_escape_attrib by done.
  change (feed_opt (Ok (ET.AttValue "link" [] "type" ET.dq ("" +:+ type l), stk))
            (String ET.dq (" xtargets=" +:+ String ET.dq ?X)))
    with (ET.feed (ET.AttValue "link" [("type", type l)] "xtargets" ET.dq "", stk) X).
  destruct (xml_text (xtargets l)) eqn:Hx;
    [|by apply (feed_reject_attrib _ _ _ _ _ ""); [|apply xml_text_reject]].
  apply xml_text_cases in Hx as [Hx Hx'].
  rewrite feed_app, feed_escape_attrib by done.
  change (feed_opt (Ok (ET.AttValue "link" [("type", type l)] "xtargets" ET.dq
                     ("" +:+ xtargets l), stk))
            (String ET.dq (" status=" +:+ String ET.dq ?X)))
    with (ET.feed (ET.AttValue "link" [("type", type l); ("xtargets", xtargets l)]
                     "status" ET.dq "", stk) X).
  destruct (xml_text (status l)) eqn:Hs;
    [done|by apply (feed_reject_attrib _ _ _ _ _ ""); [|apply xml_text_reject]].
Qed.

Lemma feed_links_reject (links : list Link) (t : string) (a : Py.dict)
    (cs : list ET.Element) (rest : string) :
  forallb xml_link links = false ->
  ET.feed (ET.Content, [(t, a, cs)])
    (ET.concat_map (fun l => ET.tostring (link_element l)) links +:+ rest)
  = Raise ParseError.
Proof.
  revert cs. induction links as [|l links IH]; intros cs Hbad;
    [discriminate Hbad|].
  cbn [ET.concat_map fold_right].
  fold (ET.concat_map (fun l => ET.tostring (link_element l)) links).
  rewrite str_app_assoc. simpl in Hbad. destruct (xml_link l) eqn:Hl.
  - rewrite feed_app, feed_link by done. cbn [feed_opt bind]. by apply IH.
  - by apply feed_link_reject.
Qed.

Lemma fromstring_reject (links : list Link) :
  forallb xml_link links = false ->
  ET.fromstring (ET.tostring (build_root links)) = Raise ParseError.
Proof.
  intros Hbad. rewrite tostring_root. unfold ET.fromstring.
  destruct links as [|l links]; [discriminate Hbad|].
  change (ET.feed (ET.Content, [])
            ("<linkGrp" +:+ root_attrs_text ET.dq (">" +:+ ?X)))
    with (ET.feed (ET.Content, [("linkGrp", root_attrib, [])]) X).
  by rewrite feed_links_reject.
Qed.

(** [_generate_xml] writes the canonical document of the retained links
    where [open] lets it, and raises [ParseError] before that when one of
    them holds a character XML does not admit. *)
Lemma generate_xml_cases (pair_name : string) (links : list Link)
    (self : Pipeline) :
  _generate_xml pair_name links self
  = if forallb xml_link (List.filter retain links)
    then open_write (xml_output_dir self) (pair_name +:+ ".xml")
           (canonical_xml (List.filter retain links)) self
    else Raise ParseError.
Proof.
  unfold _generate_xml. destruct (forallb _ _) eqn:Hok.
  - by rewrite serialize_closed_form.
  - unfold _prettify_and_refine_xml, _rearrange_link_attributes.
    by rewrite fromstring_reject.
Qed.

Lemma open_write_ok (pair_name content : string) (self self1 : Pipeline) :
  open_write (xml_output_dir self) (pair_name +:+ ".xml") content self = Ok self1 ->
  open_fault (pair_name +:+ ".xml") = None
  /\ self1 = write_file (output_path_of self pair_name) content self.
Proof.
  unfold open_write. destruct (open_fault _); [done|].
  intros H. by injection H as <-.
Qed.

(** When it returns, [_generate_xml] has written the canonical document of
    the retained links. *)
Lemma generate_xml_ok (pair_name : string) (links : list Link)
    (self self1 : Pipeline) :
  _generate_xml pair_name links self = Ok self1 ->
  forallb xml_link (List.filter retain links) = true
  /\ open_fault (pair_name +:+ ".xml") = None
  /\ self1 = write_file (output_path_of self pair_name)
               (canonical_xml (List.filter retain links)) self.
Proof.
  rewrite generate_xml_cases. destruct (forallb _ _); [|done].
  intros H. by apply open_write_ok in H as [??].
Qed.

(** ** Quotes in the refined document *)

Lemma replace_quotes (s : string) :
  Py.replace (String ET.dq "") "'" s = map_chars swap_quote s.
Proof.
  induction s as [|c s IH]; [done|].
  rewrite replace1_cons, IH. cbn [map_chars]. unfold swap_quote at 2.
  destruct (Ascii.eqb c ET.dq); reflexivity.
Qed.

Lemma map_swap_not_dq (s : string) :
  chars_all not_dq (map_chars swap_quote s) = true.
Proof.
  induction s as [|c s IH]; [done|]. simpl. rewrite IH, andb_true_r.
  unfold swap_quote, not_dq. by destruct (Ascii.eqb c ET.dq) eqn:E; [|rewrite E].
Qed.

Lemma refine_no_double_quote (s : string) : chars_all not_dq (refine s) = true.
Proof.
  unfold refine. rewrite replace_quotes.
  change (xml_declaration +:+ String ET.nl ?X)
    with ((xml_declaration +:+ String ET.nl "") +:+ X).
  by rewrite chars_all_app, map_swap_not_dq.
Qed.

(** C10. Whatever string [_prettify_and_refine_xml] returns holds no
    double quote: it is the declaration followed by the stripped,
    re-spaced document in which every double quote, wherever it stood, has
    become a single quote. *)
Theorem C10_no_double_quote (xml_string out : string) :
  _prettify_and_refine_xml xml_string = Ok out ->
  chars_all not_dq out = true
  /\ Py.contains (String ET.dq "") out = false
  /\ exists rearranged,
       _rearrange_link_attributes xml_string = Ok rearranged
       /\ out = xml_declaration +:+ String ET.nl
                  (map_chars swap_quote (Py.strip (Py.re_sub_tag_gap rearranged))).
Proof.
  unfold _prettify_and_refine_xml. intros H.
  destruct (_rearrange_link_attributes xml_string) as [rearranged|]; [|done].
  simpl in H. injection H as <-.
  pose proof (refine_no_double_quote rearranged) as Hnd.
  split_and!; [done| |].
  - destruct (Py.contains _ _) eqn:E; [|done].
    apply contains_spec in E as (pre & post & E). rewrite E in Hnd.
    rewrite !chars_all_app in Hnd. simpl in Hnd.
    by rewrite andb_false_r in Hnd.
  - exists rearranged. split; [done|]. unfold refine. by rewrite replace_quotes.
Qed.

(** ** The order of the attributes of a link *)

Lemma dict_get_remove_ne (k k' : string) (d : Py.dict) :
  k <> k' -> Py.dict_get k (Py.dict_remove k' d) = Py.dict_get k d.
Proof.
  intros Hne. induction d as [|[k0 v0] d IH]; [done|].
  unfold Py.dict_remove in *. cbn [List.filter Py.dict_get fst].
  destruct (String.eqb_spec k0 k') as [->|Hk0]; cbn [negb].
  - rewrite IH. destruct (String.eqb_spec k' k) as [->|]; [done|done].
  - cbn [Py.dict_get]. by rewrite IH.
Qed.

Lemma reorder_attributes_view (attributes : Py.dict) :
  reorder_attributes attributes = ordered_view attributes.
Proof.
  unfold reorder_attributes, ordered_view. cbn [fold_left omap list_omap].
  destruct (Py.dict_get "type" attributes) as [t|] eqn:Et;
    rewrite ?dict_get_remove_ne by done;
    destruct (Py.dict_get "xtargets" attributes) as [x|] eqn:Ex;
    rewrite ?dict_get_remove_ne by done;
    destruct (Py.dict_get "status" attributes) as [s|] eqn:Es;
    reflexivity.
Qed.


(** ** Whitespace between tags *)




(** ** State preserved by the loops *)

Lemma for_each_invariant {A S} (P : S -> Prop) (l : list A)
    (body : A -> S -> result S) :
  (forall x s s', body x s = Ok s' -> P s -> P s') ->
  forall s s', for_each l body s = Ok s' -> P s -> P s'.
Proof.
  intros Hbody. induction l as [|x l IH]; intros s s' Hrun Hs.
  - simpl in Hrun. by injection Hrun as <-.
  - simpl in Hrun. destruct (body x s) as [s1|] eqn:E; [|done].
    simpl in Hrun. eapply IH; [done|]. by eapply Hbody.
Qed.

Lemma save_alignment_file_omap (self : Pipeline) :
  save_alignment_file self = omap (report_row self) (aligned_texts self).
Proof.
  unfold save_alignment_file.
  assert (Hgen : forall l rows,
    fold_left
      (fun rows rec =>
         let '(src_id, tgt_id, pair_name) := rec in
         match disk self !! output_path_of self pair_name with
         | Some content => rows ++ [(src_id, tgt_id, content)]
         | None => rows
         end) l rows
    = rows ++ omap (report_row self) l).
  { induction l as [|[[src tgt] pn] l IH]; intros rows; simpl.
    - by rewrite app_nil_r.
    - rewrite IH.
      destruct (disk self !! output_path_of self pn); [|done].
      by rewrite <- app_assoc. }
  apply Hgen.
Qed.

Section PipelineFacts.

Variable bertalign :
  string -> string -> string -> string -> result (list (list Z * list Z)).

Lemma align_rows_kept pair_name lang1 lang2 row1 row2 acc0 acc acc' :
  align_rows bertalign pair_name lang1 lang2 row1 row2 acc = Ok acc' ->
  preserved acc0 acc -> preserved acc0 acc'.
Proof.
  destruct acc as [results self]. unfold align_rows, _align_sents.
  intros H (Ht & Hd & Hk & Hs).
  destruct (loc_processed_text self (id row1)) as [src_text|]; [|done].
  destruct (loc_processed_text self (id row2)) as [tgt_text|]; [|done].
  simpl in H.
  destruct (Py.falsy_str src_text || Py.falsy_str tgt_text).
  { simpl in H. injection H as <-. by split_and!. }
  destruct (bertalign src_text tgt_text lang1 lang2) as [alignments|]; [|done].
  simpl in H. destruct (map _ alignments) as [|l ls] eqn:E.
  { simpl in H. injection H as <-. by split_and!. }
  simpl in H. injection H as <-. split_and!; try done.
  simpl. intros H0. apply Forall_app. split; [auto|].
  rewrite <- E. apply Forall_forall. intros l' Hl'.
  apply list_elem_of_In, in_map_iff in Hl' as ([ls1 ls2] & <- & _). done.
Qed.

Lemma align_cross_product_kept pair_name lang1 lang2 group1 group2 acc acc' :
  align_cross_product bertalign pair_name lang1 lang2 group1 group2 acc = Ok acc' ->
  preserved acc acc'.
Proof.
  rewrite align_cross_product_attempts. intros H.
  eapply (for_each_invariant (preserved acc)); [|exact H|by split_and!].
  intros rows s s' Hbody Hk. simpl in Hbody. by eapply align_rows_kept.
Qed.

End PipelineFacts.

(** ** The serializer *)


Lemma write_file_twice (path content : string) (self : Pipeline) :
  write_file path content (write_file path content self)
  = write_file path content self.
Proof. unfold write_file. simpl. by rewrite insert_insert_eq. Qed.

(** ** The lines of the written file *)

Lemma split_line (a b : string) :
  chars_all not_nl a = true ->
  Py.split ET.nl (a +:+ String ET.nl b) = a :: Py.split ET.nl b.
Proof.
  induction a as [|c a IH]; intros H.
  - rewrite str_app_nil_l. reflexivity.
  - simpl in H. apply andb_true_iff in H as [Hc H].
    rewrite str_app_cons. cbn [Py.split]. rewrite (IH H).
    unfold not_nl in Hc. by destruct (Ascii.eqb c ET.nl).
Qed.

Lemma split_last (a : string) :
  chars_all not_nl a = true -> Py.split ET.nl a = [a].
Proof.
  induction a as [|c a IH]; intros H; [done|].
  simpl in H. apply andb_true_iff in H as [Hc H].
  cbn [Py.split]. rewrite (IH H).
  unfold not_nl in Hc. by destruct (Ascii.eqb c ET.nl).
Qed.

Lemma escape_char_not_nl (d : ascii) : chars_all not_nl (escape_char d) = true.
Proof. destruct d as [[] [] [] [] [] [] [] []]; reflexivity. Qed.

Lemma escape_attrib_not_nl (s : string) :
  chars_all not_nl (ET.escape_attrib s) = true.
Proof.
  induction s as [|d s IH]; [done|].
  by rewrite escape_attrib_cons, chars_all_app, escape_char_not_nl, IH.
Qed.

Lemma render_link_not_nl (l : Link) : chars_all not_nl (render_link l) = true.
Proof.
  unfold render_link.
  repeat (rewrite ?chars_all_app || (cbn [chars_all]) || rewrite ?escape_attrib_not_nl
          || rewrite ?str_app_cons || rewrite ?str_app_nil_l).
  reflexivity.
Qed.

Lemma split_links (links : list Link) (last : string) :
  chars_all not_nl last = true ->
  Py.split ET.nl
    (ET.concat_map (fun l => render_link l +:+ String ET.nl "") links +:+ last)
  = map render_link links ++ [last].
Proof.
  intros Hlast. induction links as [|l links IH].
  - rewrite str_app_nil_l. by apply split_last.
  - cbn [ET.concat_map fold_right map].
    fold (ET.concat_map (fun l => render_link l +:+ String ET.nl "") links).
    rewrite !str_app_assoc, str_app_cons, str_app_nil_l.
    rewrite split_line by apply render_link_not_nl. by rewrite IH.
Qed.

(** The canonical document line by line: the declaration, the root tag, one
    line for each link, the end tag. *)
Lemma split_canonical_xml (links : list Link) :
  Py.split ET.nl (canonical_xml links)
  = xml_declaration ::
    match links with
    | [] =>
      ["<linkGrp toDoc='placeholder_toDoc.xml' fromDoc='placeholder_fromDoc.xml'/>"]
    | _ =>
      "<linkGrp toDoc='placeholder_toDoc.xml' fromDoc='placeholder_fromDoc.xml'>"
      :: map render_link links ++ ["</linkGrp>"]
    end.
Proof.
  unfold canonical_xml. rewrite split_line by reflexivity. f_equal.
  destruct links as [|l links]; [reflexivity|].
  rewrite split_line by reflexivity. f_equal. by apply split_links.
Qed.

(** C1. A link is retained exactly when its xtargets string
    contains the text "643:0" or the text "641:"; every link that references
    document 643 at sentence 0 or a sentence of document 641 is retained; the
    link elements of the generated tree are those of the retained links, in
    order, and the outcome of [_generate_xml] depends on the retained links
    only.  The file [_generate_xml] writes has, between the root tag and the
    end tag, one line for each retained link, in list order, and no other
    line: a link the filter drops leaves nothing in the file. *)
Theorem C1_retention_filter :
  (forall link,
     retain link = true
     <-> exists pre post,
           xtargets link = pre +:+ "643:0" +:+ post
           \/ xtargets link = pre +:+ "641:" +:+ post)
  /\ (forall src_id tgt_id sides,
        references_sentinel src_id tgt_id sides ->
        retain (link_of src_id tgt_id sides) = true)
  /\ (forall links,
        ET.children (build_root (List.filter retain links))
        = map link_element (List.filter retain links))
  /\ (forall links link,
        link_element link ∈ ET.children (build_root (List.filter retain links))
        <-> link ∈ links /\ retain link = true)
  /\ (forall pair_name links self,
        _generate_xml pair_name links self
        = _generate_xml pair_name (List.filter retain links) self)
  /\ (forall pair_name links self self1,
        _generate_xml pair_name links self = Ok self1 ->
        exists content,
          disk self1 !! output_path_of self pair_name = Some content
          /\ Py.split ET.nl content
             = xml_declaration ::
               match List.filter retain links with
               | [] =>
                 ["<linkGrp toDoc='placeholder_toDoc.xml' fromDoc='placeholder_fromDoc.xml'/>"]
               | retained =>
                 "<linkGrp toDoc='placeholder_toDoc.xml' fromDoc='placeholder_fromDoc.xml'>"
                 :: map render_link retained ++ ["</linkGrp>"]
               end
          /\ forall link,
               render_link link ∈ Py.split ET.nl content
               <-> exists link', link' ∈ links /\ retain link' = true
                                /\ render_link link' = render_link link).
Proof.
  split_and!.
  - intros link. unfold retain. rewrite orb_true_iff, !contains_spec. split.
    + intros [(pre & post & H) | (pre & post & H)]; exists pre, post; auto.
    + intros (pre & post & [H | H]); [left | right]; eauto.
  - intros src_id tgt_id sides [H | [idx H]]; unfold retain; apply orb_true_iff.
    + left. by apply (retain_entry _ _ _ _ "643" 0%Z).
    + right. apply (retain_entry _ _ _ _ "641" idx); [done|].
      apply contains_spec. by exists "", (Py.str_of_int idx).
  - intros links. by rewrite build_root_children.
  - intros links link. rewrite build_root_children. simpl.
    rewrite list_elem_of_In, in_map_iff. split.
    + intros (l & Heq & Hin). apply link_element_inj in Heq as ->.
      apply filter_In in Hin as [Hin Hr]. by rewrite list_elem_of_In.
    + intros [Hin Hr]. exists link. split; [done|].
      apply filter_In. by rewrite <- list_elem_of_In.
  - intros pair_name links self. unfold _generate_xml.
    by rewrite filter_retain_idemp.
  - intros pair_name links self self1 H.
    apply generate_xml_ok in H as (_ & _ & ->).
    exists (canonical_xml (List.filter retain links)).
    rewrite split_canonical_xml. split_and!.
    + simpl. apply lookup_insert_eq.
    + by destruct (List.filter retain links).
    + intros link.
      assert (Hlines : forall first last : string,
        render_link link <> first -> render_link link <> last ->
        forall retained : list Link,
          render_link link ∈ first :: map render_link retained ++ [last]
          <-> exists link', In link' retained
                            /\ render_link link' = render_link link).
      { intros first last Hf Hl retained.
        rewrite elem_of_cons, elem_of_app, list_elem_of_In, in_map_iff.
        rewrite list_elem_of_singleton. split.
        - intros [?|[(x & ? & ?)|?]]; [congruence|by exists x|congruence].
        - intros (x & ? & ?). right; left. by exists x. }
      assert (Hnot : forall s : string,
        String.prefix "<link " s = false -> render_link link <> s).
      { intros s Hs <-. by vm_compute in Hs. }
      transitivity (exists link', In link' (List.filter retain links)
                                  /\ render_link link' = render_link link).
      * destruct (List.filter retain links) as [|l retained] eqn:E.
        -- split; [|by intros (? & [] & _)].
           intros Hin. apply elem_of_cons in Hin as [Hin|Hin].
           ++ by apply (Hnot xml_declaration) in Hin.
           ++ apply list_elem_of_singleton in Hin.
              by apply (Hnot "<linkGrp toDoc='placeholder_toDoc.xml' fromDoc='placeholder_fromDoc.xml'/>") in Hin.
        -- rewrite elem_of_cons. rewrite Hlines; [|by apply Hnot..].
           split; [|by right].
           intros [Hin|?]; [|done]. by apply (Hnot xml_declaration) in Hin.
      * split.
        -- intros (l & Hin & Heq). apply filter_In in Hin as [Hin Hr].
           exists l. by rewrite list_elem_of_In.
        -- intros (l & Hin & Hr & Heq). exists l. split; [|done].
           apply filter_In. by rewrite <- list_elem_of_In.
Qed.

(** C6. Serializing the same pair name and links again, in the state the
    first serialization left, changes nothing; from any state with the same
    output directory the file gets the same content, the canonical
    document of the retained links, whose link elements stand in list
    order. *)
Theorem C6_idempotent_serialization pair_name links self self1 :
  _generate_xml pair_name links self = Ok self1 ->
  _generate_xml pair_name links self1 = Ok self1
  /\ disk self1 !! output_path_of self pair_name
     = Some (canonical_xml (List.filter retain links))
  /\ (forall other other1,
        _generate_xml pair_name links other = Ok other1 ->
        disk other1 !! output_path_of other pair_name
        = disk self1 !! output_path_of self pair_name)
  /\ ET.children (build_root (List.filter retain links))
     = map link_element (List.filter retain links)
  /\ forall l1 l2 : list Link,
       ET.concat_map (fun l => render_link l +:+ String ET.nl "") (l1 ++ l2)
       = ET.concat_map (fun l => render_link l +:+ String ET.nl "") l1
         +:+ ET.concat_map (fun l => render_link l +:+ String ET.nl "") l2.
Proof.
  intros H. apply generate_xml_ok in H as (Hok & Hopen & ->). split_and!.
  - rewrite generate_xml_cases, Hok. unfold open_write. rewrite Hopen.
    change (Py.path_join (xml_output_dir (write_file _ _ self)) _)
      with (output_path_of self pair_name).
    by rewrite write_file_twice.
  - simpl. apply lookup_insert_eq.
  - intros other other1 H. apply generate_xml_ok in H as (_ & _ & ->).
    simpl. by rewrite !lookup_insert_eq.
  - by rewrite build_root_children.
  - intros l1 l2. induction l1 as [|l l1 IH]; [done|].
    simpl. by rewrite IH, !str_app_assoc.
Qed.




(** ** Files of a group pair *)

Lemma elem_of_save_alignment_file (st : Pipeline) (row : string * string * string) :
  row ∈ save_alignment_file st
  <-> exists src_id tgt_id pair_name content,
        row = (src_id, tgt_id, content)
        /\ (src_id, tgt_id, pair_name) ∈ aligned_texts st
        /\ disk st !! output_path_of st pair_name = Some content.
Proof.
  rewrite save_alignment_file_omap, list_elem_of_omap. split.
  - intros ([[src tgt] pn] & Hin & Hrow). unfold report_row in Hrow.
    destruct (disk st !! output_path_of st pn) as [content|] eqn:E; [|done].
    injection Hrow as <-. by exists src, tgt, pn, content.
  - intros (src & tgt & pn & content & -> & Hin & Hfile).
    exists (src, tgt, pn). split; [done|]. unfold report_row. by rewrite Hfile.
Qed.

Section GroupPairFacts.

Variable bertalign :
  string -> string -> string -> string -> result (list (list Z * list Z)).

(** C8. A group pair gets a file exactly when its accumulated
    link list, before the filter, is not empty; the file then holds the
    canonical document of the retained links, and when the filter retains
    none it still exists, with a [linkGrp] element without children.
    [save_alignment_file] emits a row for the records whose file exists and
    passes over the others. *)
Theorem C8_file_written_iff_results c1 c2 self self1 :
  align_group_pair bertalign c1 c2 self = Ok self1 ->
  let pair_name := pair_name_of c1.1 c2.1 in
  exists results self0,
    align_cross_product bertalign pair_name c1.1.1.1 c2.1.1.1 c1.2 c2.2 ([], self)
      = Ok (results, self0)
    /\ (results = [] -> disk self1 = disk self)
    /\ (results <> [] ->
        disk self1
        = <[output_path_of self pair_name :=
              canonical_xml (List.filter retain results)]> (disk self))
    /\ (results <> [] -> List.filter retain results = [] ->
        disk self1 !! output_path_of self pair_name
        = Some (xml_declaration +:+ String ET.nl
            "<linkGrp toDoc='placeholder_toDoc.xml' fromDoc='placeholder_fromDoc.xml'/>"))
    /\ (forall st row,
          row ∈ save_alignment_file st
          <-> exists src_id tgt_id pn content,
                row = (src_id, tgt_id, content)
                /\ (src_id, tgt_id, pn) ∈ aligned_texts st
                /\ disk st !! output_path_of st pn = Some content).
Proof.
  destruct c1 as [[[lang1 src_target1] spoken_written1] group1].
  destruct c2 as [[[lang2 src_target2] spoken_written2] group2].
  intros H. cbn [fst snd]. unfold align_group_pair in H.
  set (pair_name := pair_name_of (lang1, src_target1, spoken_written1)
                      (lang2, src_target2, spoken_written2)) in *.
  cbv zeta.
  destruct (align_cross_product bertalign pair_name lang1 lang2 group1 group2
              ([], self)) as [[results self0]|] eqn:E; [|done].
  pose proof (align_cross_product_kept _ _ _ _ _ _ _ _ E) as (_ & Hdir & Hdisk & _).
  simpl in Hdir, Hdisk. cbn [bind] in H.
  exists results, self0. split; [done|].
  assert (Hwritten : results <> [] ->
    disk self1
    = <[output_path_of self pair_name :=
          canonical_xml (List.filter retain results)]> (disk self)).
  { intros Hne. destruct results as [|l results]; [done|].
    apply generate_xml_ok in H as (_ & _ & ->).
    unfold output_path_of. simpl. by rewrite Hdir, Hdisk. }
  split_and!.
  - intros ->. injection H as <-. done.
  - exact Hwritten.
  - intros Hne Hnone. rewrite (Hwritten Hne), Hnone. apply lookup_insert_eq.
  - apply elem_of_save_alignment_file.
Qed.

End GroupPairFacts.

(** A file without links: the only link of the pair (documents 1 and 2) is
    dropped by the filter, and the file of the pair exists all the same; the
    report has a row for it. *)
Lemma C8_counterexample :
  align_cross_product first_sentences en_es "en" "es"
    [mkRow "1" "E1" "en" "source" "written" "Hello."]
    [mkRow "2" "E1" "es" "target" "written" "Hola."]
    ([], fresh plain_event)
  = Ok ([link_of "1" "2" ([0%Z], [0%Z])],
        mkPipeline plain_event "out" [("1", "2", en_es)] [] ∅)
  /\ List.filter retain [link_of "1" "2" ([0%Z], [0%Z])] = []
  /\ match run first_sentences (fresh plain_event) with
     | Ok (self, rows) => (disk self !! en_es_path, rows)
     | Raise _ => (None, [])
     end
     = (Some (xml_declaration +:+ String ET.nl
          "<linkGrp toDoc='placeholder_toDoc.xml' fromDoc='placeholder_fromDoc.xml'/>"),
        [("1", "2",
          xml_declaration +:+ String ET.nl
          "<linkGrp toDoc='placeholder_toDoc.xml' fromDoc='placeholder_fromDoc.xml'/>")]).
Proof. split_and!; vm_compute; reflexivity. Qed.

(** The run of the pair of [plain_event]. *)
Lemma C8_witness :
  disk (mkPipeline plain_event "out" [("1", "2", en_es)] []
          (<[en_es_path := canonical_xml []]> ∅)) !! en_es_path
  = Some (xml_declaration +:+ String ET.nl
      "<linkGrp toDoc='placeholder_toDoc.xml' fromDoc='placeholder_fromDoc.xml'/>").
Proof.
  destruct (C8_file_written_iff_results first_sentences
              ("en", "source", "written",
               [mkRow "1" "E1" "en" "source" "written" "Hello."])
              ("es", "target", "written",
               [mkRow "2" "E1" "es" "target" "written" "Hola."])
              (fresh plain_event)
              (mkPipeline plain_event "out" [("1", "2", en_es)] []
                 (<[en_es_path := canonical_xml []]> ∅)))
    as (results & self0 & Hrun & _ & _ & Hfile & _).
  - vm_compute. reflexivity.
  - apply Hfile.
    + intros ->. vm_compute in Hrun. discriminate Hrun.
    + vm_compute in Hrun. injection Hrun as <- _. reflexivity.
Defined.

(** ** The file of a pair name across events *)

(** A later call for the same pair name replaces the file. *)
Lemma generate_xml_overwrites pair_name links1 links2 self self1 self2 :
  _generate_xml pair_name links1 self = Ok self1 ->
  _generate_xml pair_name links2 self1 = Ok self2 ->
  disk self2 !! output_path_of self pair_name
  = Some (canonical_xml (List.filter retain links2)).
Proof.
  intros H1 H2. apply generate_xml_ok in H1 as (_ & _ & ->).
  apply generate_xml_ok in H2 as (_ & _ & ->). simpl. apply lookup_insert_eq.
Qed.

(** C9 at the failing input: two events with the same two groups.  After
    the first event the file of the pair name holds the link of documents
    641 and 700; after the run it holds the link of 643 and 800 only, though
    the first is retained by the filter and both document pairs are recorded
    as aligned; the report pairs 641 and 700 with the later content. *)
Theorem C9_later_write_discards_earlier :
  match align_event first_sentences
          [ mkRow "641" "E1" "en" "source" "written" "Hello.";
            mkRow "700" "E1" "es" "target" "written" "Hola." ]
          (fresh two_events) with
  | Ok self => disk self !! en_es_path
  | Raise _ => None
  end = Some first_event_xml
  /\ match run first_sentences (fresh two_events) with
     | Ok (self, rows) => (aligned_texts self, disk self !! en_es_path, rows)
     | Raise _ => ([], None, [])
     end
     = ([("641", "700", en_es); ("643", "800", en_es)],
        Some second_event_xml,
        [("641", "700", second_event_xml); ("643", "800", second_event_xml)])
  /\ retain (link_of "641" "700" ([0%Z], [0%Z])) = true
  /\ Py.contains "641:0" second_event_xml = false.
Proof. split_and!; vm_compute; reflexivity. Qed.

(** ** The theorems on concrete runs *)


Lemma C4_witness :
  align_rows broken_aligner "EPTIC.en_spoken_source.it_spoken_target" "en" "it"
    (mkRow "10" "E1" "en" "source" "spoken" "")
    (mkRow "11" "E1" "it" "target" "spoken" "Ciao.")
    ([], fresh silent_event)
  = Ok ([],
        mkPipeline silent_event "out" []
          [("10", "11", "EPTIC.en_spoken_source.it_spoken_target")] ∅).
Proof.
  refine (proj2 (C4_empty_text_skip broken_aligner
    "EPTIC.en_spoken_source.it_spoken_target" "en" "it"
    (mkRow "10" "E1" "en" "source" "spoken" "")
    (mkRow "11" "E1" "it" "target" "spoken" "Ciao.")
    [] (fresh silent_event) _ _ _ _)).
  - simpl. repeat constructor; intros H; apply list_elem_of_In in H; simpl in H;
      intuition discriminate.
  - simpl. by left.
  - simpl. by right; left.
  - left. reflexivity.
Defined.

Lemma C5_witness :
  exists src_text tgt_text alignments,
    loc_processed_text (fresh two_events) "641" = Ok src_text
    /\ loc_processed_text (fresh two_events) "700" = Ok tgt_text
    /\ merging_aligner src_text tgt_text "en" "es" = Ok alignments
    /\ length [ mkLink "641:0 641:1;700:0" "2-1" "auto";
                mkLink "641:2;700:1 700:2" "1-2" "auto" ]
       = length alignments
    /\ forall i left_side right_side,
         alignments !! i = Some (left_side, right_side) ->
         exists link,
           [ mkLink "641:0 641:1;700:0" "2-1" "auto";
             mkLink "641:2;700:1 700:2" "1-2" "auto" ] !! i = Some link
           /\ type link
              = Py.str_of_int (Z.of_nat (length left_side)) +:+ "-"
                +:+ Py.str_of_int (Z.of_nat (length right_side))
           /\ xtargets link
              = Py.join " " (map (fun idx => "641" +:+ ":" +:+ Py.str_of_int idx)
                               left_side)
                +:+ ";"
                +:+ Py.join " " (map (fun idx => "700" +:+ ":" +:+ Py.str_of_int idx)
                                   right_side)
           /\ status link = "auto".
Proof.
  apply (C5_link_format merging_aligner (fresh two_events) "641" "700" "en" "es").
  vm_compute. reflexivity.
Defined.

Lemma C6_witness :
  _generate_xml en_es
    [link_of "641" "700" ([0%Z], [0%Z]); link_of "1" "2" ([0%Z], [0%Z])]
    (write_file en_es_path first_event_xml (fresh two_events))
  = Ok (write_file en_es_path first_event_xml (fresh two_events)).
Proof.
  refine (proj1 (C6_idempotent_serialization en_es
    [link_of "641" "700" ([0%Z], [0%Z]); link_of "1" "2" ([0%Z], [0%Z])]
    (fresh two_events)
    (write_file en_es_path first_event_xml (fresh two_events)) _)).
  vm_compute. reflexivity.
Defined.


Lemma C10_witness :
  chars_all not_dq
    (xml_declaration +:+ String ET.nl
       ("<linkGrp toDoc='placeholder_toDoc.xml' fromDoc='placeholder_fromDoc.xml'>"
        +:+ String ET.nl
        ("<link type='1-1' xtargets='a&quot;b:0;641:0' status='auto'/>"
         +:+ String ET.nl "</linkGrp>")))
  = true.
Proof.
  refine (proj1 (C10_no_double_quote
    (ET.tostring (build_root [link_of quoted_id "641" ([0%Z], [0%Z])])) _ _)).
  vm_compute. reflexivity.
Defined.

(** Three links for one pair, the second dropped by the filter: the file
    has a line for the first and the third, and none for the second. *)
Lemma C1_witness :
  exists content,
    disk (mkPipeline plain_event "out" [] []
            (<[en_es_path :=
                 canonical_xml [link_of "1643" "7" ([0%Z], [0%Z]);
                                link_of "641" "9" ([0%Z; 1%Z], [2%Z])]]> ∅))
      !! en_es_path = Some content
    /\ Py.split ET.nl content
       = [ xml_declaration;
           "<linkGrp toDoc='placeholder_toDoc.xml' fromDoc='placeholder_fromDoc.xml'>";
           "<link type='1-1' xtargets='1643:0;7:0' status='auto'/>";
           "<link type='2-1' xtargets='641:0 641:1;9:2' status='auto'/>";
           "</linkGrp>" ].
Proof.
  destruct C1_retention_filter as (_ & _ & _ & _ & _ & Hfile).
  destruct (Hfile en_es
              [link_of "1643" "7" ([0%Z], [0%Z]);
               link_of "1" "2" ([0%Z], [0%Z]);
               link_of "641" "9" ([0%Z; 1%Z], [2%Z])]
              (fresh plain_event)
              (mkPipeline plain_event "out" [] []
                 (<[en_es_path :=
                      canonical_xml [link_of "1643" "7" ([0%Z], [0%Z]);
                                     link_of "641" "9" ([0%Z; 1%Z], [2%Z])]]> ∅)))
    as (content & Hdisk & Hlines & _).
  - vm_compute. reflexivity.
  - exists content. split; [exact Hdisk|exact Hlines].
Defined.

(** * Further properties of the pipeline *)

(** ** [groupby] splits the table *)

Lemma concat_groups_cons {K} `{EqDecision K} (by_ : Row -> K) (r : Row)
    (rows : list Row) (ks : list K) :
  NoDup ks ->
  by_ r ∈ ks ->
  concat ((fun k => filter (fun r' => by_ r' = k) (r :: rows)) <$> ks)
  ≡ₚ r :: concat ((fun k => filter (fun r' => by_ r' = k) rows) <$> ks).
Proof.
  induction 1 as [|k ks Hk Hnd IH]; intros Hin; [by apply elem_of_nil in Hin|].
  rewrite !fmap_cons. cbn [concat]. rewrite filter_cons.
  destruct (decide (by_ r = k)) as [Heq|Hne].
  - cbn [app]. constructor. apply Permutation_app_head.
    assert (Hout : forall l : list K, by_ r ∉ l ->
      (fun k => filter (fun r' => by_ r' = k) (r :: rows)) <$> l
      = (fun k => filter (fun r' => by_ r' = k) rows) <$> l).
    { induction l as [|k' l IHl]; intros Hl; [done|].
      apply not_elem_of_cons in Hl as [Hne Hl].
      rewrite !fmap_cons, IHl by done. by rewrite filter_cons_False. }
    rewrite Hout; [done|]. by rewrite Heq.
  - apply elem_of_cons in Hin as [Hin|Hin]; [done|].
    rewrite IH by done. by rewrite Permutation_middle.
Qed.

Lemma concat_groups {K} `{EqDecision K} (by_ : Row -> K) (rows : list Row)
    (ks : list K) :
  NoDup ks ->
  (forall r, r ∈ rows -> by_ r ∈ ks) ->
  concat ((fun k => filter (fun r' => by_ r' = k) rows) <$> ks) ≡ₚ rows.
Proof.
  intros Hnd. induction rows as [|r rows IH]; intros Hall.
  - clear. induction ks as [|k ks IH]; [done|]. by rewrite fmap_cons.
  - rewrite concat_groups_cons; [|done|apply Hall; by left].
    constructor. apply IH. intros r' Hr'. apply Hall. by right.
Qed.

Lemma key_le_total : Total key_le.
Proof.
  intros a b. unfold key_le. destruct (decide (a = b)) as [->|Hne].
  - left. apply tuple_ltb_irrefl.
  - rewrite (tuple_ltb_connex a b Hne).
    destruct (Py.tuple_ltb b a); [by right|by left].
Qed.

(** [groupby] loses no row and repeats none: the groups, put together, are
    the table up to order; no group is empty, the rows of a group are those
    with the key of the group, in table order, and no key comes twice.  The
    groups of events and of group keys come in ascending order of their
    keys.  (Key cells are strings here; a row with a null key cell, which
    pandas leaves out of every group, is outside the table type.) *)
Theorem groupby_partition {K} `{EqDecision K} (le : relation K)
    `{RelDecision K K le} (by_ : Row -> K) (rows : list Row) :
  concat (groupby le by_ rows).*2 ≡ₚ rows
  /\ NoDup (groupby le by_ rows).*1
  /\ (forall k g, (k, g) ∈ groupby le by_ rows ->
        g <> [] /\ g = filter (fun r => by_ r = k) rows
        /\ g `sublist_of` rows)
  /\ (forall r, r ∈ rows ->
        exists g, (by_ r, g) ∈ groupby le by_ rows /\ r ∈ g)
  /\ Sorted String.le (groupby String.le event_id rows).*1
  /\ Sorted key_le (combinations_of rows).*1.
Proof.
  assert (Hkeys : (groupby le by_ rows).*1
                  = merge_sort le (remove_dups (by_ <$> rows))).
  { unfold groupby. rewrite <- list_fmap_compose.
    induction (merge_sort _ _) as [|k l IH]; [done|].
    rewrite fmap_cons. simpl. by f_equal. }
  assert (Hgroups : (groupby le by_ rows).*2
    = (fun k => filter (fun r => by_ r = k) rows)
        <$> merge_sort le (remove_dups (by_ <$> rows))).
  { unfold groupby. rewrite <- list_fmap_compose. done. }
  assert (Hnd : NoDup (merge_sort le (remove_dups (by_ <$> rows)))).
  { rewrite merge_sort_Permutation. apply NoDup_remove_dups. }
  assert (Hin : forall k, k ∈ merge_sort le (remove_dups (by_ <$> rows))
                          <-> exists r, r ∈ rows /\ by_ r = k).
  { intros k. rewrite merge_sort_Permutation, elem_of_remove_dups.
    rewrite list_elem_of_fmap. split; intros (r & ? & ?); exists r; auto. }
  split_and!.
  - rewrite Hgroups. apply concat_groups; [done|].
    intros r Hr. apply Hin. eauto.
  - by rewrite Hkeys.
  - intros k g Hkg. unfold groupby in Hkg.
    apply list_elem_of_fmap in Hkg as (k' & Heq & Hk'). injection Heq as -> ->.
    apply Hin in Hk' as (r & Hr & Hk). split_and!; [|done|apply sublist_filter].
    intros Hnil. assert (Hrg : r ∈ filter (fun r0 => by_ r0 = k') rows)
      by (by apply list_elem_of_filter).
    rewrite Hnil in Hrg. by apply elem_of_nil in Hrg.
  - intros r Hr. exists (filter (fun r' => by_ r' = by_ r) rows). split.
    + unfold groupby. apply list_elem_of_fmap. exists (by_ r). split; [done|].
      apply Hin. eauto.
    + by apply list_elem_of_filter.
  - unfold groupby. rewrite <- list_fmap_compose.
    assert (Hid : forall l : list string,
      (fst ∘ (fun k => (k, filter (fun r => event_id r = k) rows))) <$> l = l).
    { induction l as [|k l IH]; [done|]. rewrite fmap_cons. simpl. by f_equal. }
    rewrite Hid. apply Sorted_merge_sort. apply _.
  - rewrite combinations_keys. apply Sorted_merge_sort. apply key_le_total.
Qed.

(** ** Loops: what holds after, and what was raised *)

Lemma for_each_outcome {A S} (P : S -> Prop) (Q : exn -> Prop) (l : list A)
    (body : A -> S -> result S) :
  (forall x s, x ∈ l -> P s ->
     match body x s with Ok s' => P s' | Raise e => Q e end) ->
  forall s, P s ->
    match for_each l body s with Ok s' => P s' | Raise e => Q e end.
Proof.
  induction l as [|x l IH]; intros Hbody s Hs; [done|].
  simpl. pose proof (Hbody x s ltac:(by left) Hs) as Hx.
  destruct (body x s) as [s1|e]; simpl; [|done].
  apply IH; [|done]. intros y s2 Hy. apply Hbody. by right.
Qed.

Lemma grows_refl (s : Pipeline) : grows s s.
Proof. by split_and!. Qed.

Lemma grows_trans (s1 s2 s3 : Pipeline) : grows s1 s2 -> grows s2 s3 -> grows s1 s3.
Proof.
  intros (Ht & Hd & Ha & Hf & Hk) (Ht' & Hd' & Ha' & Hf' & Hk').
  split_and!; try congruence; by etrans.
Qed.

(** ** Links built from admissible ids are admissible *)

Lemma chars_uint (P : ascii -> bool) (d : Decimal.uint) :
  (forall c, ET.in_range 48 57 c = true -> P c = true) ->
  chars_all P (NilEmpty.string_of_uint d) = true.
Proof.
  intros HP. induction d; simpl; try done;
    rewrite IHd, andb_true_r; by apply HP.
Qed.

Lemma chars_str_of_int (P : ascii -> bool) (n : Z) :
  (forall c, ET.in_range 48 57 c = true -> P c = true) ->
  P "-"%char = true ->
  chars_all P (Py.str_of_int n) = true.
Proof.
  intros HP Hminus.
  unfold Py.str_of_int, NilZero.string_of_int, NilZero.string_of_uint.
  destruct (Z.to_int n) as [d|d].
  - destruct d; try (by simpl; rewrite ?andb_true_r; apply HP);
      apply (chars_uint P (_ d) HP).
  - change (chars_all P (String "-" ?s)) with (P "-"%char && chars_all P s).
    rewrite Hminus.
    destruct d; try (by simpl; rewrite ?andb_true_r; apply HP);
      apply (chars_uint P (_ d) HP).
Qed.

Lemma digit_xml_char (c : ascii) : ET.in_range 48 57 c = true -> xml_char c = true.
Proof. destruct c as [[] [] [] [] [] [] [] []]; intros H; try discriminate H; reflexivity. Qed.

Lemma digit_low (c : ascii) : ET.in_range 48 57 c = true -> low c = true.
Proof. destruct c as [[] [] [] [] [] [] [] []]; intros H; try discriminate H; reflexivity. Qed.

Lemma low_xml_bytes (c : ascii) :
  low c = true ->
  Ascii.eqb c "239" = false /\ Ascii.eqb c "191" = false
  /\ Ascii.eqb c "190" = false.
Proof. destruct c as [[] [] [] [] [] [] [] []]; intros H; try discriminate H; done. Qed.

(** An ASCII character is no part of U+FFFE or U+FFFF. *)
Lemma has_nonchar_low (c : ascii) (s : string) :
  low c = true -> ET.has_nonchar (String c s) = ET.has_nonchar s.
Proof.
  intros Hc. apply low_xml_bytes in Hc as (Hc & _). rewrite has_nonchar_cons.
  destruct s as [|b [|d s]]; try done.
  unfold ET.nonchar_bytes. by rewrite Hc, andb_false_r.
Qed.

Lemma has_nonchar_app_low (a b : string) (c : ascii) :
  low c = true ->
  ET.has_nonchar (a +:+ String c b) = ET.has_nonchar a || ET.has_nonchar b.
Proof.
  intros Hc. pose proof (low_xml_bytes c Hc) as (_ & H191 & H190).
  induction a as [|x a IH].
  - rewrite str_app_nil_l. by apply has_nonchar_low.
  - rewrite str_app_cons, !has_nonchar_cons, IH, orb_assoc. f_equal.
    destruct a as [|y [|z a]]; rewrite ?str_app_cons, ?str_app_nil_l; cbv iota.
    + destruct b; [done|]. unfold ET.nonchar_bytes.
      by rewrite H191, andb_false_r.
    + unfold ET.nonchar_bytes. by rewrite H190, H191.
    + done.
Qed.

Lemma has_nonchar_all_low (s : string) :
  chars_all low s = true -> ET.has_nonchar s = false.
Proof.
  induction s as [|c s IH]; [done|]. simpl chars_all.
  intros H. apply andb_true_iff in H as [Hc Hs].
  by rewrite has_nonchar_low, IH.
Qed.

Lemma xml_text_low (s : string) :
  chars_all xml_char s = true -> chars_all low s = true -> xml_text s = true.
Proof. intros H1 H2. unfold xml_text. by rewrite H1, has_nonchar_all_low. Qed.

(** Admissible text, an ASCII character, admissible text. *)
Lemma xml_text_app_low (a b : string) (c : ascii) :
  low c = true ->
  xml_text (a +:+ String c b) = xml_text a && (xml_char c && xml_text b).
Proof.
  intros Hc. unfold xml_text.
  rewrite chars_all_app, has_nonchar_app_low by done. cbn [chars_all].
  destruct (chars_all xml_char a), (xml_char c), (chars_all xml_char b),
    (ET.has_nonchar a), (ET.has_nonchar b); reflexivity.
Qed.

Lemma xml_text_str_of_int (n : Z) : xml_text (Py.str_of_int n) = true.
Proof.
  apply xml_text_low; apply chars_str_of_int;
    auto using digit_xml_char, digit_low.
Qed.

Lemma xml_text_join_space (parts : list string) :
  Forall (fun p => xml_text p = true) parts ->
  xml_text (Py.join " " parts) = true.
Proof.
  unfold Py.join. induction 1 as [|p parts Hp Hparts IH]; [done|].
  destruct parts as [|p' parts]; [done|].
  change (String.concat " " (p :: p' :: parts))
    with (p +:+ String " " (String.concat " " (p' :: parts))).
  by rewrite xml_text_app_low, Hp, IH.
Qed.

Lemma xml_link_link_of (src_id tgt_id : string) (sides : list Z * list Z) :
  xml_text src_id = true -> xml_text tgt_id = true ->
  xml_link (link_of src_id tgt_id sides) = true.
Proof.
  intros Hs Ht. destruct sides as [left_side right_side].
  assert (Hside : forall doc l, xml_text doc = true ->
    xml_text (Py.join " " (map (fun idx => doc +:+ ":" +:+ Py.str_of_int idx) l))
    = true).
  { intros doc l Hdoc. apply xml_text_join_space.
    apply Forall_forall. intros p Hp.
    apply list_elem_of_In, in_map_iff in Hp as (idx & <- & _).
    change (doc +:+ ":" +:+ Py.str_of_int idx)
      with (doc +:+ String ":" (Py.str_of_int idx)).
    by rewrite xml_text_app_low, Hdoc, xml_text_str_of_int. }
  unfold xml_link, link_of. cbn [type xtargets status].
  unfold Py.str_of_len.
  change (?a +:+ ";" +:+ ?b) with (a +:+ String ";" b).
  change (?a +:+ "-" +:+ ?b) with (a +:+ String "-" b).
  by rewrite !xml_text_app_low, !xml_text_str_of_int, !Hside.
Qed.

Lemma open_fault_refused (name : string) (e : exn) :
  open_fault name = Some e -> refused name e.
Proof.
  unfold open_fault, refused.
  destruct (Py.contains (String "000" "") name) eqn:E0.
  { intros H. injection H as <-. by left. }
  destruct (Py.contains "/" name) eqn:E1.
  { intros H. injection H as <-. right. split; [done|by left]. }
  destruct (255 <? String.length name) eqn:E2; [|done].
  intros H. injection H as <-. right. split; [done|right].
  by apply Nat.ltb_lt.
Qed.

Lemma groupby_key_row {K} `{EqDecision K} (le : relation K)
    `{RelDecision K K le} (by_ : Row -> K) (rows : list Row) k g :
  (k, g) ∈ groupby le by_ rows ->
  (exists r, r ∈ g /\ by_ r = k) /\ forall r, r ∈ g -> by_ r = k.
Proof.
  unfold groupby. intros Hkg.
  apply list_elem_of_fmap in Hkg as (k' & Heq & Hk). injection Heq as -> ->.
  split.
  - rewrite merge_sort_Permutation, elem_of_remove_dups in Hk.
    apply list_elem_of_fmap in Hk as (r & -> & Hr).
    exists r. split; [|done]. by apply list_elem_of_filter.
  - intros r Hr. by apply list_elem_of_filter in Hr as [? _].
Qed.

Section RunFacts.

Variable bertalign :
  string -> string -> string -> string -> result (list (list Z * list Z)).

Lemma align_rows_collected s0 pair_name lang1 lang2 row1 row2 acc :
  row1 ∈ texts_data s0 ->
  row2 ∈ texts_data s0 ->
  collected s0 pair_name acc ->
  match align_rows bertalign pair_name lang1 lang2 row1 row2 acc with
  | Ok acc' => collected s0 pair_name acc'
  | Raise e => exists a b c d, bertalign a b c d = Raise e
  end.
Proof.
  destruct acc as [results self].
  intros H1 H2 (Ht & Hd & Hk & Hres & na & nf & Ha & Hf & Hpn & Hne).
  simpl in *. unfold align_rows, _align_sents.
  assert (Hi1 : id row1 ∈ id <$> texts_data self)
    by (rewrite Ht; by apply list_elem_of_fmap_2).
  assert (Hi2 : id row2 ∈ id <$> texts_data self)
    by (rewrite Ht; by apply list_elem_of_fmap_2).
  destruct (loc_processed_text_known self _ Hi1) as [src_text ->].
  destruct (loc_processed_text_known self _ Hi2) as [tgt_text ->]. simpl.
  destruct (Py.falsy_str src_text || Py.falsy_str tgt_text); simpl.
  { split_and!; try done. exists na, (nf ++ [(id row1, id row2, pair_name)]).
    simpl. split_and!; try done. by rewrite Hf, <- app_assoc. }
  destruct (bertalign src_text tgt_text lang1 lang2) as [alignments|e] eqn:E;
    simpl; [|eauto 6].
  destruct (map _ alignments) as [|l ls] eqn:Emap; simpl.
  { split_and!; try done. exists na, (nf ++ [(id row1, id row2, pair_name)]).
    simpl. split_and!; try done. by rewrite Hf, <- app_assoc. }
  split_and!; try done.
  - apply Forall_app. split; [done|]. rewrite <- Emap.
    apply Forall_forall. intros l' Hl'.
    apply list_elem_of_In, in_map_iff in Hl' as (sides & <- & _).
    by exists row1, row2, sides.
  - exists (na ++ [(id row1, id row2, pair_name)]), nf.
    simpl. split_and!; try done.
    + by rewrite Ha, <- app_assoc.
    + apply Forall_app. split; [done|]. by repeat constructor.
    + intros _ Hnil. by apply app_eq_nil in Hnil as [_ ?].
Qed.

Lemma align_cross_product_collected s0 pair_name lang1 lang2 group1 group2 :
  (forall r, r ∈ group1 ++ group2 -> r ∈ texts_data s0) ->
  match align_cross_product bertalign pair_name lang1 lang2 group1 group2
          ([], s0) with
  | Ok acc => collected s0 pair_name acc
  | Raise e => exists a b c d, bertalign a b c d = Raise e
  end.
Proof.
  intros Hin. rewrite align_cross_product_attempts.
  apply (for_each_outcome (collected s0 pair_name)).
  - intros rows acc Hrows Hacc. apply elem_of_attempts in Hrows as [H1 H2].
    apply align_rows_collected; [| |done]; apply Hin, elem_of_app; auto.
  - split_and!; try done. exists [], []. simpl. by rewrite !app_nil_r.
Qed.

Lemma collected_links_admissible s0 pair_name acc :
  collected s0 pair_name acc ->
  forallb (fun r => xml_text (id r)) (texts_data s0) = true ->
  forallb xml_link (List.filter retain acc.1) = true.
Proof.
  intros (_ & _ & _ & Hres & _) Hids. rewrite forallb_forall in Hids.
  apply forallb_forall. intros l Hl. apply filter_In in Hl as [Hl _].
  rewrite Forall_forall in Hres. apply list_elem_of_In, Hres in Hl.
  destruct Hl as (r1 & r2 & sides & Hr1 & Hr2 & ->).
  apply xml_link_link_of; apply Hids; by apply list_elem_of_In.
Qed.

Lemma inadmissible_id (texts : list Row) :
  forallb (fun r => xml_text (id r)) texts = false ->
  exists r, r ∈ texts /\ xml_text (id r) = false.
Proof.
  induction texts as [|r texts IH]; [done|]. simpl.
  destruct (xml_text (id r)) eqn:E; simpl.
  - intros H. destruct (IH H) as (r' & ? & ?). exists r'. split; [by right|done].
  - intros _. exists r. split; [by left|done].
Qed.

Lemma align_group_pair_outcome c1 c2 s :
  (forall r, r ∈ c1.2 ++ c2.2 -> r ∈ texts_data s) ->
  (exists r1 r2, r1 ∈ c1.2 /\ r2 ∈ c2.2 /\ event_id r1 = event_id r2
                 /\ group_key r1 = c1.1 /\ group_key r2 = c2.1) ->
  match align_group_pair bertalign c1 c2 s with
  | Ok s' => grows s s' /\ (filed s -> filed s')
  | Raise e => run_error bertalign (texts_data s) e
  end.
Proof.
  destruct c1 as [[[lang1 src_target1] spoken_written1] group1].
  destruct c2 as [[[lang2 src_target2] spoken_written2] group2].
  cbn [fst snd]. intros Hin Hkeys. unfold align_group_pair.
  set (pair_name := pair_name_of (lang1, src_target1, spoken_written1)
                      (lang2, src_target2, spoken_written2)).
  pose proof (align_cross_product_collected s pair_name lang1 lang2
                group1 group2 Hin) as Hloop.
  destruct (align_cross_product _ _ _ _ _ _ _) as [[results s0]|e];
    [|by right; right].
  pose proof (collected_links_admissible _ _ _ Hloop) as Hadm.
  destruct Hloop as (Ht & Hd & Hk & _ & na & nf & Ha & Hf & Hpn & Hne).
  simpl in Ht, Hd, Hk, Ha, Hf, Hne, Hadm. cbn [bind].
  assert (Hgrow : grows s s0).
  { split_and!; try done; [by exists na|by exists nf|by rewrite Hk]. }
  destruct results as [|l results].
  - split; [done|]. intros Hfiled src tgt pn Hrec.
    destruct na as [|rec na]; [|by destruct Hne].
    rewrite app_nil_r in Ha. unfold output_path_of. rewrite Hd, Hk.
    apply (Hfiled src tgt). by rewrite <- Ha.
  - rewrite generate_xml_cases.
    destruct (forallb xml_link _) eqn:Hok.
    2:{ left. split; [done|]. apply inadmissible_id.
        destruct (forallb (fun r => xml_text (id r)) (texts_data s)); [|done].
        by specialize (Hadm eq_refl). }
    unfold open_write.
    destruct (open_fault (pair_name +:+ ".xml")) as [e|] eqn:Hfault.
    { right; left. destruct Hkeys as (r1 & r2 & H1 & H2 & Hev & Hk1 & Hk2).
      exists r1, r2. rewrite Hk1, Hk2.
      split_and!; [apply Hin, elem_of_app; by left
                  |apply Hin, elem_of_app; by right|done|].
      by apply open_fault_refused. }
    split.
    + eapply grows_trans; [exact Hgrow|].
      split_and!; try done. simpl. set_solver.
    + intros Hfiled src tgt pn Hrec. simpl in Hrec. rewrite Ha in Hrec.
      unfold output_path_of. simpl. rewrite Hd, Hk.
      apply elem_of_app in Hrec as [Hold|Hnew].
      * destruct (decide (Py.path_join (xml_output_dir s) (pair_name +:+ ".xml")
                          = Py.path_join (xml_output_dir s) (pn +:+ ".xml")))
          as [->|Hne'].
        -- rewrite lookup_insert_eq. eauto.
        -- rewrite lookup_insert_ne by done. by apply (Hfiled src tgt).
      * rewrite Forall_forall in Hpn. apply Hpn in Hnew. simpl in Hnew.
        subst pn. rewrite lookup_insert_eq. eauto.
Qed.

Lemma groupby_rows {K} `{EqDecision K} (le : relation K)
    `{RelDecision K K le} (by_ : Row -> K) (rows : list Row) k g r :
  (k, g) ∈ groupby le by_ rows -> r ∈ g -> r ∈ rows.
Proof.
  unfold groupby. intros Hkg Hr.
  apply list_elem_of_fmap in Hkg as (k' & Heq & _). injection Heq as -> ->.
  by apply list_elem_of_filter in Hr as [_ ?].
Qed.

Lemma align_event_outcome (group : list Row) (s : Pipeline) :
  (forall r, r ∈ group -> r ∈ texts_data s) ->
  (forall r r', r ∈ group -> r' ∈ group -> event_id r = event_id r') ->
  match align_event bertalign group s with
  | Ok s' => grows s s' /\ (filed s -> filed s')
  | Raise e => run_error bertalign (texts_data s) e
  end.
Proof.
  intros Hin Hev. unfold align_event.
  set (P := fun s' => grows s s' /\ (filed s -> filed s')).
  assert (Hgroup : forall c r, c ∈ combinations_of group -> r ∈ c.2 ->
                               r ∈ group).
  { intros [k g] r Hc Hr. by eapply groupby_rows. }
  assert (Hrows : forall c r, c ∈ combinations_of group -> r ∈ c.2 ->
                              r ∈ texts_data s).
  { intros c r Hc Hr. apply Hin. by eapply Hgroup. }
  assert (Hkey : forall c, c ∈ combinations_of group ->
                           exists r, r ∈ c.2 /\ group_key r = c.1).
  { intros [k g] Hc. by apply groupby_key_row in Hc as [? _]. }
  apply (for_each_outcome P (run_error bertalign (texts_data s)));
    [|split; [apply grows_refl|done]].
  intros c1 s1 Hc1 Hs1.
  apply (for_each_outcome P (run_error bertalign (texts_data s))); [|done].
  intros c2 s2 Hc2 [Hg2 Hf2]. destruct (Py.tuple_ltb c1.1 c2.1); [|by split].
  pose proof (align_group_pair_outcome c1 c2 s2) as Hpair.
  assert (Hsub : forall r, r ∈ c1.2 ++ c2.2 -> r ∈ texts_data s2).
  { intros r Hr. destruct Hg2 as (-> & _).
    apply elem_of_app in Hr as [Hr|Hr]; eauto. }
  assert (Hkeys : exists r1 r2, r1 ∈ c1.2 /\ r2 ∈ c2.2
                    /\ event_id r1 = event_id r2
                    /\ group_key r1 = c1.1 /\ group_key r2 = c2.1).
  { destruct (Hkey c1 Hc1) as (r1 & Hr1 & Hk1).
    destruct (Hkey c2 Hc2) as (r2 & Hr2 & Hk2).
    exists r1, r2. split_and!; try done.
    apply Hev; [by apply (Hgroup c1)|by apply (Hgroup c2)]. }
  specialize (Hpair Hsub Hkeys).
  destruct (align_group_pair bertalign c1 c2 s2) as [s3|e].
  - destruct Hpair as [Hg3 Hf3]. split; [by eapply grows_trans|auto].
  - destruct Hg2 as (Ht2 & _). by rewrite <- Ht2.
Qed.

(** What [align_texts] leaves, and what it may raise. *)
Lemma align_texts_outcome (s : Pipeline) :
  match align_texts bertalign s with
  | Ok s' => grows s s' /\ (filed s -> filed s')
  | Raise e => run_error bertalign (texts_data s) e
  end.
Proof.
  unfold align_texts.
  set (P := fun s' => grows s s' /\ (filed s -> filed s')).
  apply (for_each_outcome P (run_error bertalign (texts_data s)));
    [|split; [apply grows_refl|done]].
  intros [ev group] s1 Hg [Hg1 Hf1]. cbn [snd].
  pose proof (align_event_outcome group s1) as Hev.
  assert (Hsub : forall r, r ∈ group -> r ∈ texts_data s1).
  { intros r Hr. destruct Hg1 as (-> & _). by eapply groupby_rows. }
  assert (Hsame : forall r r', r ∈ group -> r' ∈ group ->
                               event_id r = event_id r').
  { intros r r' Hr Hr'. apply groupby_key_row in Hg as [_ Hg].
    by rewrite (Hg r), (Hg r'). }
  specialize (Hev Hsub Hsame).
  destruct (align_event bertalign group s1) as [s2|e].
  - destruct Hev as [Hg2 Hf2]. split; [by eapply grows_trans|auto].
  - destruct Hg1 as (Ht1 & _). by rewrite <- Ht1.
Qed.

End RunFacts.

(** ** The run as a whole *)

(** Once the data is loaded, and up to the rows of the report, a run ends
    normally or with one of three kinds of exception: the [ParseError] of
    the serializer, and then some document id of the table holds a character
    XML does not admit; the exception of [open], and then two documents of
    one event have keys whose pair name, with its extension, holds a null
    character ([ValueError]) or a slash or more than 255 bytes ([OSError]);
    or an exception the aligner raised on some call.  The lookups of
    [_align_sents] never raise: the ids they look up are ids of the table.
    (The ids are strings: a table with a blank id cell is outside the table
    type.) *)
Theorem run_raises_only bertalign (self : Pipeline) (e : exn) :
  run bertalign self = Raise e ->
  (e = ParseError
   /\ exists r, r ∈ texts_data self /\ xml_text (id r) = false)
  \/ (exists r1 r2 name,
        r1 ∈ texts_data self /\ r2 ∈ texts_data self
        /\ event_id r1 = event_id r2
        /\ name = pair_name_of (group_key r1) (group_key r2) +:+ ".xml"
        /\ ((e = ValueError /\ Py.contains (String "000" "") name = true)
            \/ (e = OSError
                /\ (Py.contains "/" name = true
                    \/ 255 < String.length name))))
  \/ exists a b c d, bertalign a b c d = Raise e.
Proof.
  unfold run. intros H. pose proof (align_texts_outcome bertalign self) as Hout.
  destruct (align_texts bertalign self) as [s'|e']; [done|].
  simpl in H. injection H as ->.
  destruct Hout as [Hparse|[(r1 & r2 & H1 & H2 & Hev & Href)|Haligner]].
  - by left.
  - right; left. by exists r1, r2, (pair_name_of (group_key r1) (group_key r2) +:+ ".xml").
  - by right; right.
Qed.

Lemma run_raises_only_witness :
  (OSError = ParseError
   /\ exists r, r ∈ texts_data (fresh slash_event) /\ xml_text (id r) = false)
  \/ (exists r1 r2 name,
        r1 ∈ texts_data (fresh slash_event) /\ r2 ∈ texts_data (fresh slash_event)
        /\ event_id r1 = event_id r2
        /\ name = pair_name_of (group_key r1) (group_key r2) +:+ ".xml"
        /\ ((OSError = ValueError /\ Py.contains (String "000" "") name = true)
            \/ (OSError = OSError
                /\ (Py.contains "/" name = true
                    \/ 255 < String.length name))))
  \/ exists a b c d, first_sentences a b c d = Raise OSError.
Proof.
  apply (run_raises_only first_sentences (fresh slash_event) OSError).
  vm_compute. reflexivity.
Defined.

(** [align_texts] keeps the table and the output directory, only appends to
    [aligned_texts] and [failed_pairs], and removes no file. *)
Theorem align_texts_grows bertalign (self self' : Pipeline) :
  align_texts bertalign self = Ok self' ->
  texts_data self' = texts_data self
  /\ xml_output_dir self' = xml_output_dir self
  /\ aligned_texts self `prefix_of` aligned_texts self'
  /\ failed_pairs self `prefix_of` failed_pairs self'
  /\ dom (disk self) ⊆ dom (disk self').
Proof.
  intros H. pose proof (align_texts_outcome bertalign self) as Hout.
  rewrite H in Hout. apply Hout.
Qed.

Lemma align_texts_grows_witness :
  aligned_texts (fresh plain_event)
  `prefix_of` aligned_texts
    (mkPipeline plain_event "out" [("1", "2", en_es)] []
       (<[en_es_path := canonical_xml []]> ∅)).
Proof.
  refine (proj1 (proj2 (proj2 (align_texts_grows first_sentences
    (fresh plain_event)
    (mkPipeline plain_event "out" [("1", "2", en_es)] []
       (<[en_es_path := canonical_xml []]> ∅)) _)))).
  vm_compute. reflexivity.
Defined.

Lemma report_rows_filed (s : Pipeline) (recs : list (string * string * string)) :
  (forall src_id tgt_id pair_name,
     (src_id, tgt_id, pair_name) ∈ recs ->
     is_Some (disk s !! output_path_of s pair_name)) ->
  Forall2
    (fun rec row =>
       row.1 = rec.1
       /\ disk s !! output_path_of s rec.2 = Some row.2)
    recs (omap (report_row s) recs).
Proof.
  induction recs as [|[[src tgt] pn] recs IH]; intros Hfiled; [constructor|].
  cbn [omap list_omap]. unfold report_row at 1.
  destruct (Hfiled src tgt pn ltac:(by left)) as [content Hc]. rewrite Hc.
  constructor; [done|]. apply IH. intros src' tgt' pn' Hin.
  apply (Hfiled src' tgt'). by right.
Qed.

(** When the records present at the start have their files (none are
    present after [load_data]), the report of a run that ends normally has
    one row for each record of [aligned_texts], in order, with the ids of
    the record and the content of its pair's file: the test for a missing
    file in [save_alignment_file] never skips a record. *)
Theorem run_reports_every_aligned_pair bertalign (self self' : Pipeline)
    (rows : list (string * string * string)) :
  run bertalign self = Ok (self', rows) ->
  filed self ->
  length rows = length (aligned_texts self')
  /\ Forall2
       (fun rec row =>
          row.1 = rec.1
          /\ disk self' !! output_path_of self' rec.2 = Some row.2)
       (aligned_texts self') rows.
Proof.
  unfold run. intros H Hfiled.
  pose proof (align_texts_outcome bertalign self) as Hout.
  destruct (align_texts bertalign self) as [s'|e']; [|done].
  simpl in H. injection H as <- <-. destruct Hout as [_ Hf].
  specialize (Hf Hfiled). rewrite save_alignment_file_omap.
  pose proof (report_rows_filed s' (aligned_texts s') Hf) as H2.
  split; [|done]. symmetry. by eapply Forall2_length.
Qed.

Lemma run_reports_every_aligned_pair_witness :
  length [("641", "700", second_event_xml); ("643", "800", second_event_xml)]
  = length [("641", "700", en_es); ("643", "800", en_es)].
Proof.
  refine (proj1 (run_reports_every_aligned_pair first_sentences
    (fresh two_events)
    (mkPipeline two_events "out"
       [("641", "700", en_es); ("643", "800", en_es)] []
       (<[en_es_path := second_event_xml]> ∅))
    [("641", "700", second_event_xml); ("643", "800", second_event_xml)] _ _)).
  - vm_compute. reflexivity.
  - intros src tgt pn Hin. by apply elem_of_nil in Hin.
Defined.

(** ** The serializer: what it raises and what it touches *)





(** The parser returns the tree [_generate_xml] serialized exactly when
    every link holds only characters XML admits, and raises [ParseError]
    otherwise; the rearranging pass changes nothing in that tree, so that
    [_rearrange_link_attributes], where it returns, has only turned [" />"]
    into ["/>"]. *)
Theorem rearrange_keeps_generated (links : list Link) :
  ET.fromstring (ET.tostring (build_root links))
  = (if forallb xml_link links then Ok (build_root links)
     else Raise ParseError)
  /\ rearrange_root (build_root links) = build_root links
  /\ _rearrange_link_attributes (ET.tostring (build_root links))
     = (if forallb xml_link links
        then Ok (Py.replace " />" "/>" (ET.tostring (build_root links)))
        else Raise ParseError).
Proof.
  destruct (forallb xml_link links) eqn:Hok; split_and!.
  - by apply fromstring_tostring_root.
  - apply rearrange_build_root.
  - unfold _rearrange_link_attributes.
    rewrite fromstring_tostring_root by done. cbn [bind].
    by rewrite rearrange_build_root.
  - by apply fromstring_reject.
  - apply rearrange_build_root.
  - unfold _rearrange_link_attributes. by rewrite fromstring_reject.
Qed.

(** Ids with a quote, an angle bracket and an ampersand come back as they
    were; an id that is U+FFFF is refused. *)
Lemma rearrange_keeps_generated_witness :
  ET.fromstring
    (ET.tostring
       (build_root [link_of quoted_id "641" ([0%Z; 1%Z], [2%Z]);
                    link_of "a<b" "c&d" ([], [0%Z])]))
  = Ok (build_root [link_of quoted_id "641" ([0%Z; 1%Z], [2%Z]);
                    link_of "a<b" "c&d" ([], [0%Z])])
  /\ ET.fromstring
       (ET.tostring (build_root [link_of nonchar_id "641" ([0%Z], [0%Z])]))
     = Raise ParseError.
Proof.
  split.
  - exact (proj1 (rearrange_keeps_generated
      [link_of quoted_id "641" ([0%Z; 1%Z], [2%Z]);
       link_of "a<b" "c&d" ([], [0%Z])])).
  - exact (proj1 (rearrange_keeps_generated
      [link_of nonchar_id "641" ([0%Z], [0%Z])])).
Defined.

(** ** The rearranging pass on any tree *)

Lemma reorder_get (a : Py.dict) (k : string) :
  Py.dict_get k (reorder_attributes a)
  = if bool_decide (k ∈ ["type"; "xtargets"; "status"])
    then Py.dict_get k a else None.
Proof.
  rewrite reorder_attributes_view. unfold ordered_view.
  cbn [omap list_omap].
  destruct (decide (k = "type")) as [->|H1];
    [|destruct (decide (k = "xtargets")) as [->|H2];
      [|destruct (decide (k = "status")) as [->|H3]]].
  - rewrite bool_decide_eq_true_2 by (by left).
    destruct (Py.dict_get "type" a); destruct (Py.dict_get "xtargets" a);
      destruct (Py.dict_get "status" a); reflexivity.
  - rewrite bool_decide_eq_true_2 by (by right; left).
    destruct (Py.dict_get "type" a); destruct (Py.dict_get "xtargets" a);
      destruct (Py.dict_get "status" a); reflexivity.
  - rewrite bool_decide_eq_true_2 by (by right; right; left).
    destruct (Py.dict_get "type" a); destruct (Py.dict_get "xtargets" a);
      destruct (Py.dict_get "status" a); reflexivity.
  - rewrite bool_decide_eq_false_2
      by (intros Hk; repeat (apply elem_of_cons in Hk as [?|Hk]; [done|]);
          by apply elem_of_nil in Hk).
    assert (E1 : String.eqb "type" k = false) by (by apply String.eqb_neq).
    assert (E2 : String.eqb "xtargets" k = false) by (by apply String.eqb_neq).
    assert (E3 : String.eqb "status" k = false) by (by apply String.eqb_neq).
    destruct (Py.dict_get "type" a); destruct (Py.dict_get "xtargets" a);
      destruct (Py.dict_get "status" a);
      cbn [fmap option_fmap option_map Py.dict_get];
      rewrite ?E1, ?E2, ?E3; reflexivity.
Qed.

Lemma reorder_keys (a : Py.dict) :
  (reorder_attributes a).*1 `sublist_of` ["type"; "xtargets"; "status"].
Proof.
  rewrite reorder_attributes_view. unfold ordered_view. cbn [omap list_omap].
  destruct (Py.dict_get "type" a);
    destruct (Py.dict_get "xtargets" a);
    destruct (Py.dict_get "status" a);
    cbn [fmap option_fmap option_map list_fmap fst];
    repeat (first [apply sublist_nil_l | apply sublist_skip; [] | apply sublist_cons]);
    repeat constructor.
Qed.

Lemma reorder_idemp (a : Py.dict) :
  reorder_attributes (reorder_attributes a) = reorder_attributes a.
Proof.
  rewrite (reorder_attributes_view (reorder_attributes a)).
  rewrite (reorder_attributes_view a) at 2.
  unfold ordered_view. cbn [omap list_omap]. rewrite !reorder_get.
  rewrite (bool_decide_eq_true_2 ("type" ∈ _)) by (by left).
  rewrite (bool_decide_eq_true_2 ("xtargets" ∈ _)) by (by right; left).
  by rewrite (bool_decide_eq_true_2 ("status" ∈ _)) by (by right; right; left).
Qed.

(** The dict a link is left with answers for 'type', 'xtargets' and
    'status' as the dict it had, and for no other key: every other
    attribute is dropped.  Its keys come in the fixed order, and a second
    pass changes nothing. *)
Theorem reorder_attributes_lookup (attributes : Py.dict) :
  (forall k,
     Py.dict_get k (reorder_attributes attributes)
     = if bool_decide (k ∈ ["type"; "xtargets"; "status"])
       then Py.dict_get k attributes else None)
  /\ (reorder_attributes attributes).*1 `sublist_of` ["type"; "xtargets"; "status"]
  /\ reorder_attributes (reorder_attributes attributes)
     = reorder_attributes attributes.
Proof.
  split_and!; [apply reorder_get|apply reorder_keys|apply reorder_idemp].
Qed.

Lemma Element_children_ind (P : ET.Element -> Prop) :
  (forall t a cs, Forall P cs -> P (ET.Elem t a cs)) ->
  forall e, P e.
Proof.
  intros Hstep. fix IH 1. intros [t a cs]. apply Hstep.
  induction cs as [|c cs IHcs]; constructor; [apply IH|exact IHcs].
Qed.

Lemma plain_view_rearranged (e : ET.Element) :
  plain_view (rearrange_descendant e) = rearranged_view e.
Proof. by destruct e. Qed.

Lemma iter_rearrange_descendant (e : ET.Element) :
  plain_view <$> iter (rearrange_descendant e) = rearranged_view <$> iter e.
Proof.
  induction e as [t a cs IH] using Element_children_ind.
  cbn [rearrange_descendant iter]. rewrite !fmap_cons. f_equal.
  induction IH as [|c cs Hc _ IHcs]; [done|].
  cbn [map flat_map]. rewrite !fmap_app, Hc. by f_equal.
Qed.

Lemma rearrange_descendant_idemp (e : ET.Element) :
  rearrange_descendant (rearrange_descendant e) = rearrange_descendant e.
Proof.
  induction e as [t a cs IH] using Element_children_ind.
  cbn [rearrange_descendant]. f_equal.
  - destruct (String.eqb t "link"); [|done]. apply reorder_idemp.
  - induction IH as [|c cs Hc _ IHcs]; [done|]. simpl. by rewrite Hc, IHcs.
Qed.

(** The rearranging pass keeps the shape of the tree and every tag; below
    the root, the elements tagged 'link', at any depth, get their
    attributes reordered and the others keep theirs; the root keeps its
    attributes even when it is a 'link'.  A second pass changes nothing. *)
Theorem rearrange_root_view (root : ET.Element) :
  plain_view <$> descendants (rearrange_root root)
  = rearranged_view <$> descendants root
  /\ plain_view (rearrange_root root) = plain_view root
  /\ length (ET.children (rearrange_root root)) = length (ET.children root)
  /\ Forall
       (fun e => (ET.attrib e).*1 `sublist_of` ["type"; "xtargets"; "status"])
       (findall_link (rearrange_root root))
  /\ rearrange_root (rearrange_root root) = rearrange_root root.
Proof.
  destruct root as [t a cs].
  assert (Hdesc : plain_view <$> descendants (rearrange_root (ET.Elem t a cs))
                  = rearranged_view <$> descendants (ET.Elem t a cs)).
  { unfold descendants. cbn [rearrange_root ET.children].
    induction cs as [|c cs IH]; [done|].
    cbn [map flat_map]. rewrite !fmap_app, iter_rearrange_descendant.
    by f_equal. }
  split_and!.
  - exact Hdesc.
  - done.
  - cbn [rearrange_root ET.children]. by rewrite length_map.
  - unfold findall_link. apply Forall_forall. intros e He.
    apply list_elem_of_In, filter_In in He as [He Htag].
    apply list_elem_of_In in He.
    assert (Hv : plain_view e ∈ plain_view <$> descendants (rearrange_root (ET.Elem t a cs)))
      by (by apply list_elem_of_fmap_2).
    rewrite Hdesc in Hv. apply list_elem_of_fmap in Hv as (e0 & Heq & _).
    unfold plain_view, rearranged_view in Heq. injection Heq as Ht Ha.
    rewrite Ha, <- Ht, Htag. apply reorder_keys.
  - cbn [rearrange_root]. f_equal.
    induction cs as [|c cs IH]; [done|].
    simpl. rewrite rearrange_descendant_idemp. f_equal. apply IH.
    unfold descendants in *. cbn [rearrange_root ET.children] in *.
    cbn [map flat_map] in Hdesc. rewrite !fmap_app in Hdesc.
    rewrite iter_rearrange_descendant in Hdesc.
    by apply app_inv_head in Hdesc.
Qed.

(** ** The adapter: lookups, empty results, faults *)

(** The text of a document is the text of the first row with its id, and
    looking up an id the table does not have raises [IndexError]: so does
    [_align_sents] when either id is missing, before any call of the
    aligner. *)
Theorem align_sents_lookup bertalign (self : Pipeline) :
  (forall doc_id,
     doc_id ∉ id <$> texts_data self ->
     loc_processed_text self doc_id = Raise IndexError)
  /\ (forall before r after,
        texts_data self = before ++ r :: after ->
        id r ∉ id <$> before ->
        loc_processed_text self (id r) = Ok (processed_text r))
  /\ (forall src_id tgt_id src_lang tgt_lang,
        src_id ∉ id <$> texts_data self \/ tgt_id ∉ id <$> texts_data self ->
        _align_sents bertalign self src_id tgt_id src_lang tgt_lang
        = Raise IndexError).
Proof.
  assert (Hmiss : forall doc_id, doc_id ∉ id <$> texts_data self ->
                    loc_processed_text self doc_id = Raise IndexError).
  { intros doc_id Hno. unfold loc_processed_text.
    destruct (filter _ _) as [|r l] eqn:E; [done|]. exfalso. apply Hno.
    assert (Hr : r ∈ filter (fun r' => id r' = doc_id) (texts_data self))
      by (rewrite E; by left).
    apply list_elem_of_filter in Hr as [<- Hr]. by apply list_elem_of_fmap_2. }
  split_and!; [exact Hmiss| |].
  - intros before r after Heq Hfirst. unfold loc_processed_text. rewrite Heq.
    rewrite filter_app, filter_cons_True by done.
    assert (Hnone : filter (fun r' => id r' = id r) before = []).
    { clear Heq. induction before as [|r' before IH]; [done|].
      rewrite fmap_cons in Hfirst. apply not_elem_of_cons in Hfirst as [Hne Hfirst].
      rewrite filter_cons_False by congruence. by apply IH. }
    by rewrite Hnone.
  - intros src_id tgt_id src_lang tgt_lang Hno. unfold _align_sents.
    destruct (decide (src_id ∈ id <$> texts_data self)) as [Hsrc|Hsrc].
    + destruct Hno as [Hno|Hno]; [done|].
      destruct (loc_processed_text_known self _ Hsrc) as [text ->].
      simpl. by rewrite (Hmiss tgt_id Hno).
    + by rewrite (Hmiss src_id Hsrc).
Qed.

(** When both documents have text and the aligner returns no
    correspondence, [_align_sents] returns an empty list, not [None], and the
    pair is recorded in [failed_pairs] all the same. *)
Theorem empty_alignment_is_failure bertalign pair_name lang1 lang2 row1 row2
    results self :
  NoDup (id <$> texts_data self) ->
  row1 ∈ texts_data self ->
  row2 ∈ texts_data self ->
  processed_text row1 <> "" ->
  processed_text row2 <> "" ->
  bertalign (processed_text row1) (processed_text row2) lang1 lang2 = Ok [] ->
  _align_sents bertalign self (id row1) (id row2) lang1 lang2 = Ok (Some [])
  /\ align_rows bertalign pair_name lang1 lang2 row1 row2 (results, self)
     = Ok (results, add_failed [(id row1, id row2, pair_name)] self).
Proof.
  intros Hnd H1 H2 Ht1 Ht2 Hempty.
  assert (Hsents :
    _align_sents bertalign self (id row1) (id row2) lang1 lang2 = Ok (Some [])).
  { unfold _align_sents.
    rewrite (loc_processed_text_unique self row1 Hnd H1).
    rewrite (loc_processed_text_unique self row2 Hnd H2). simpl.
    destruct (processed_text row1); [done|].
    destruct (processed_text row2); [done|]. simpl. by rewrite Hempty. }
  split; [done|]. unfold align_rows. by rewrite Hsents.
Qed.

Lemma empty_alignment_is_failure_witness :
  align_rows silent_aligner en_es "en" "es"
    (mkRow "1" "E1" "en" "source" "written" "Hello.")
    (mkRow "2" "E1" "es" "target" "written" "Hola.")
    ([], fresh plain_event)
  = Ok ([], add_failed [("1", "2", en_es)] (fresh plain_event)).
Proof.
  refine (proj2 (empty_alignment_is_failure silent_aligner en_es "en" "es"
    (mkRow "1" "E1" "en" "source" "written" "Hello.")
    (mkRow "2" "E1" "es" "target" "written" "Hola.")
    [] (fresh plain_event) _ _ _ _ _ _)).
  - simpl. repeat constructor; intros H; apply list_elem_of_In in H; simpl in H;
      intuition discriminate.
  - simpl. by left.
  - simpl. by right; left.
  - discriminate.
  - discriminate.
  - reflexivity.
Defined.

Lemma add_failed_app recs1 recs2 self :
  add_failed recs2 (add_failed recs1 self) = add_failed (recs1 ++ recs2) self.
Proof. unfold add_failed. simpl. by rewrite <- app_assoc. Qed.

(** With an aligner that raises on every call, the loops over a group pair
    record as failed the document pairs they reach, and raise the aligner's
    exception at the first pair in which both documents have text: nothing
    catches it.  They end normally only when no such pair exists. *)
Theorem aligner_fault_aborts bertalign (e : exn) pair_name lang1 lang2
    group1 group2 results self :
  (forall a b c d, bertalign a b c d = Raise e) ->
  NoDup (id <$> texts_data self) ->
  (forall r, r ∈ group1 ++ group2 -> r ∈ texts_data self) ->
  align_cross_product bertalign pair_name lang1 lang2 group1 group2 (results, self)
  = if existsb both_have_text (attempts group1 group2) then Raise e
    else Ok (results,
             add_failed (record_of pair_name <$> attempts group1 group2) self).
Proof.
  intros Hraise Hnd Hin. rewrite align_cross_product_attempts.
  assert (Hrows : forall rows, rows ∈ attempts group1 group2 ->
                    rows.1 ∈ texts_data self /\ rows.2 ∈ texts_data self).
  { intros rows Hr. apply elem_of_attempts in Hr as [H1 H2].
    split; apply Hin, elem_of_app; auto. }
  assert (Hstart : self = add_failed [] self).
  { destruct self. unfold add_failed. simpl. by rewrite app_nil_r. }
  rewrite Hstart at 1.
  change (record_of pair_name <$> attempts group1 group2)
    with ([] ++ (record_of pair_name <$> attempts group1 group2)).
  generalize (@nil (string * string * string)) as done_.
  induction (attempts group1 group2) as [|[row1 row2] l IH]; intros done_.
  - simpl. by rewrite app_nil_r.
  - destruct (Hrows (row1, row2) ltac:(by left)) as [H1 H2]. simpl in H1, H2.
    cbn [for_each existsb fst snd]. unfold align_rows at 1, _align_sents.
    rewrite (loc_processed_text_unique (add_failed done_ self) row1 Hnd H1).
    rewrite (loc_processed_text_unique (add_failed done_ self) row2 Hnd H2).
    cbn [bind]. unfold both_have_text at 1. cbn [fst snd].
    destruct (Py.falsy_str (processed_text row1));
      cbn [negb andb orb bind Py.truthy].
    + change (append_failed ?r (add_failed done_ self))
        with (add_failed [r] (add_failed done_ self)).
      rewrite add_failed_app, IH.
      * rewrite fmap_cons. by rewrite <- app_assoc.
      * intros rows Hr. apply Hrows. by right.
    + destruct (Py.falsy_str (processed_text row2));
        cbn [negb andb orb bind Py.truthy].
      * change (append_failed ?r (add_failed done_ self))
          with (add_failed [r] (add_failed done_ self)).
        rewrite add_failed_app, IH.
        -- rewrite fmap_cons. by rewrite <- app_assoc.
        -- intros rows Hr. apply Hrows. by right.
      * by rewrite Hraise.
Qed.

Lemma aligner_fault_aborts_witness :
  align_cross_product broken_aligner en_es "en" "es"
    [ mkRow "10" "E1" "en" "source" "written" "";
      mkRow "1" "E1" "en" "source" "written" "Hello." ]
    [ mkRow "2" "E1" "es" "target" "written" "Hola." ]
    ([], fresh mixed_event)
  = Raise AlignerError.
Proof.
  refine (aligner_fault_aborts broken_aligner AlignerError en_es "en" "es"
    [ mkRow "10" "E1" "en" "source" "written" "";
      mkRow "1" "E1" "en" "source" "written" "Hello." ]
    [ mkRow "2" "E1" "es" "target" "written" "Hola." ]
    [] (fresh mixed_event) _ _ _).
  - reflexivity.
  - simpl. repeat constructor; intros H; apply list_elem_of_In in H; simpl in H;
      intuition discriminate.
  - intros r Hr. apply list_elem_of_In in Hr. apply list_elem_of_In.
    simpl in *. tauto.
Defined.

(** ** Events without a second group *)

Lemma for_each_unchanged {A S} (l : list A) (body : A -> S -> result S) (s : S) :
  (forall x, x ∈ l -> body x s = Ok s) -> for_each l body s = Ok s.
Proof.
  induction l as [|x l IH]; intros H; [done|].
  simpl. rewrite (H x) by (by left). simpl. apply IH.
  intros y Hy. apply H. by right.
Qed.

Lemma single_key_no_pairs (group : list Row) :
  (forall r1 r2, r1 ∈ group -> r2 ∈ group -> group_key r1 = group_key r2) ->
  group_pairs (combinations_of group) = [].
Proof.
  intros Hsame.
  assert (Hgen : forall ks : list GroupKey,
    NoDup ks -> (forall k1 k2, k1 ∈ ks -> k2 ∈ ks -> k1 = k2) ->
    ordered_pairs Py.tuple_ltb ks = []).
  { intros [|k1 [|k2 ks]] Hnd Heq; [done| |].
    - unfold ordered_pairs. simpl. by rewrite tuple_ltb_irrefl.
    - exfalso. apply NoDup_cons in Hnd as [Hk1 _]. apply Hk1.
      rewrite (Heq k1 k2); [by left|by left|by right; left]. }
  apply (fmap_nil_inv (fun p => (p.1.1, p.2.1))).
  rewrite group_pairs_keys. apply Hgen; [apply NoDup_combinations_keys|].
  intros k1 k2 H1 H2.
  apply elem_of_combinations_keys in H1 as (r1 & ? & <-).
  apply elem_of_combinations_keys in H2 as (r2 & ? & <-). auto.
Qed.

(** When the documents of every event share one language, side and
    register (an empty table among them) there is no group pair:
    [align_texts] calls no aligner, writes no file and records nothing. *)
Theorem align_texts_single_groups bertalign (self : Pipeline) :
  (forall r1 r2, r1 ∈ texts_data self -> r2 ∈ texts_data self ->
     event_id r1 = event_id r2 -> group_key r1 = group_key r2) ->
  align_texts bertalign self = Ok self.
Proof.
  intros Hsame. unfold align_texts. apply for_each_unchanged.
  intros [ev group] Hg. cbn [snd].
  rewrite align_event_group_pairs, single_key_no_pairs; [done|].
  intros r1 r2 H1 H2. unfold groupby in Hg.
  apply list_elem_of_fmap in Hg as (ev' & Heq & _). injection Heq as -> ->.
  apply list_elem_of_filter in H1 as [He1 H1].
  apply list_elem_of_filter in H2 as [He2 H2].
  apply Hsame; [done|done|congruence].
Qed.

Lemma align_texts_single_groups_witness :
  align_texts broken_aligner (fresh lone_groups) = Ok (fresh lone_groups).
Proof.
  apply (align_texts_single_groups broken_aligner (fresh lone_groups)).
  intros r1 r2 H1 H2. apply list_elem_of_In in H1, H2. simpl in H1, H2.
  destruct H1 as [<-|[<-|[<-|[]]]], H2 as [<-|[<-|[<-|[]]]];
    simpl; intros; done.
Defined.

(** ** The document store *)

Lemma process_unreadable (fromstring_text : string -> result TextElement)
    (markup : option string) :
  unreadable fromstring_text markup ->
  _process_xml_sentences fromstring_text markup = Ok "".
Proof.
  destruct markup as [s|]; intros H; [|done]. simpl in H.
  unfold _process_xml_sentences. by rewrite H.
Qed.

(** [_process_xml_sentences] never raises [ParseError]: a null cell and
    markup the parser rejects give the empty text, and an exception of
    another kind is the parser's own.  Text is taken from the elements
    tagged 's' below the root only: a root without such descendants, even a
    root that is itself an 's' with text, gives the empty text. *)
Theorem process_xml_sentences_edges
    (fromstring_text : string -> result TextElement) :
  (forall markup,
     match _process_xml_sentences fromstring_text markup with
     | Ok _ => True
     | Raise e =>
       e <> ParseError
       /\ exists s, markup = Some s /\ fromstring_text s = Raise e
     end)
  /\ (forall markup,
        unreadable fromstring_text markup ->
        _process_xml_sentences fromstring_text markup = Ok "")
  /\ (forall s root,
        fromstring_text s = Ok root ->
        Forall (fun e => ttag e <> "s" \/ ttext e = None)
          (flat_map titer (tchildren root)) ->
        _process_xml_sentences fromstring_text (Some s) = Ok "")
  /\ (forall s t a text tail,
        fromstring_text s = Ok (TElem t a text [] tail) ->
        _process_xml_sentences fromstring_text (Some s) = Ok "").
Proof.
  assert (Hnone : forall s root,
    fromstring_text s = Ok root ->
    Forall (fun e => ttag e <> "s" \/ ttext e = None)
      (flat_map titer (tchildren root)) ->
    _process_xml_sentences fromstring_text (Some s) = Ok "").
  { intros s root Hroot Hall. unfold _process_xml_sentences, tfindall.
    rewrite Hroot. do 2 f_equal.
    induction Hall as [|e l He _ IH]; [done|]. simpl.
    destruct (String.eqb_spec (ttag e) "s") as [Htag|Htag]; [|exact IH].
    destruct He as [He|He]; [done|]. simpl. by rewrite He. }
  split_and!.
  - intros [s|]; [|done]. unfold _process_xml_sentences.
    destruct (fromstring_text s) as [root|e] eqn:E; [done|].
    destruct e; try done; (split; [done|by exists s]).
  - apply process_unreadable.
  - exact Hnone.
  - intros s t a text tail Hroot. apply (Hnone s _ Hroot). constructor.
Qed.

Lemma apply_rows_spec (fromstring_text : string -> result TextElement)
    (raw : list RawRow) (rows : list Row) :
  apply_rows fromstring_text raw = Ok rows ->
  Forall2
    (fun r row =>
       exists text,
         _process_xml_sentences fromstring_text (sentence_split_text r) = Ok text
         /\ row = loaded_row r text)
    raw rows.
Proof.
  revert rows. induction raw as [|r raw IH]; intros rows H.
  - simpl in H. injection H as <-. constructor.
  - simpl in H.
    destruct (_process_xml_sentences _ _) as [text|] eqn:Et; [|done].
    simpl in H. destruct (apply_rows _ raw) as [rows'|]; [|done].
    simpl in H. injection H as <-. constructor; [by exists text|by apply IH].
Qed.

Lemma load_data_rows (fromstring_text : string -> result TextElement)
    (dir : string) (files : gmap string string) (raw : list RawRow)
    (self : Pipeline) :
  load_data fromstring_text dir files raw = Ok self ->
  apply_rows fromstring_text raw = Ok (texts_data self)
  /\ self = mkPipeline (texts_data self) dir [] [] files.
Proof.
  unfold load_data. intros H.
  destruct (apply_rows fromstring_text raw) as [rows|] eqn:E; [|done].
  simpl in H. by injection H as <-.
Qed.

Lemma loaded_ids (fromstring_text : string -> result TextElement)
    (raw : list RawRow) (rows : list Row) :
  apply_rows fromstring_text raw = Ok rows -> id <$> rows = raw_id <$> raw.
Proof.
  intros H. apply apply_rows_spec in H.
  induction H as [|r row raw rows (text & _ & ->) _ IH]; [done|].
  rewrite !fmap_cons. by f_equal.
Qed.

(** [load_data] keeps every row of the spreadsheet, in order, with its id,
    event, language, side and register; the text of each row is what
    [_process_xml_sentences] makes of its markup; the record lists start
    empty and the files already in the output directory are untouched. *)
Theorem load_data_keeps_rows (fromstring_text : string -> result TextElement)
    (dir : string) (files : gmap string string) (raw : list RawRow)
    (self : Pipeline) :
  load_data fromstring_text dir files raw = Ok self ->
  Forall2
    (fun r row =>
       exists text,
         _process_xml_sentences fromstring_text (sentence_split_text r) = Ok text
         /\ row = loaded_row r text)
    raw (texts_data self)
  /\ id <$> texts_data self = raw_id <$> raw
  /\ event_id <$> texts_data self = raw_event_id <$> raw
  /\ group_key <$> texts_data self
     = (fun r => (raw_lang r, raw_source_target r, raw_spoken_written r)) <$> raw
  /\ aligned_texts self = []
  /\ failed_pairs self = []
  /\ xml_output_dir self = dir
  /\ disk self = files.
Proof.
  unfold load_data. intros H.
  destruct (apply_rows fromstring_text raw) as [rows|] eqn:E; [|done].
  simpl in H. injection H as <-. simpl.
  pose proof (apply_rows_spec _ _ _ E) as Hrows.
  clear E. split_and!; try done;
    (induction Hrows as [|r row raw rows (text & _ & ->) _ IH]; [done|];
     rewrite !fmap_cons; by f_equal).
Qed.

Lemma load_data_keeps_rows_witness :
  id <$> [ mkRow "1" "E1" "en" "source" "written"
             (String.append "Hello." (String ET.nl "World."));
           mkRow "2" "E1" "es" "target" "written" "";
           mkRow "3" "E1" "it" "target" "written" "" ]
  = raw_id <$> toy_sheet.
Proof.
  refine (proj1 (proj2 (load_data_keeps_rows toy_parser "out" ∅ toy_sheet
    (fresh [ mkRow "1" "E1" "en" "source" "written"
               (String.append "Hello." (String ET.nl "World."));
             mkRow "2" "E1" "es" "target" "written" "";
             mkRow "3" "E1" "it" "target" "written" "" ]) _))).
  vm_compute. reflexivity.
Defined.

(** A document whose markup is null or rejected by the parser is loaded
    with empty text, and with unique ids every pair it takes part in, on
    either side and whatever the aligner, ends in [failed_pairs]. *)
Theorem unreadable_document_fails_every_pair
    (fromstring_text : string -> result TextElement) bertalign
    (dir : string) (files : gmap string string) (raw : list RawRow)
    (self : Pipeline) (r : RawRow) :
  load_data fromstring_text dir files raw = Ok self ->
  NoDup (raw_id <$> raw) ->
  r ∈ raw ->
  unreadable fromstring_text (sentence_split_text r) ->
  loaded_row r "" ∈ texts_data self
  /\ forall other pair_name lang1 lang2 results,
       other ∈ texts_data self ->
       align_rows bertalign pair_name lang1 lang2 (loaded_row r "") other
         (results, self)
       = Ok (results, add_failed [(raw_id r, id other, pair_name)] self)
       /\ align_rows bertalign pair_name lang1 lang2 other (loaded_row r "")
            (results, self)
          = Ok (results, add_failed [(id other, raw_id r, pair_name)] self).
Proof.
  intros Hload Hnd Hr Hbad.
  destruct (load_data_rows _ _ _ _ _ Hload) as [Happly _]. clear Hload.
  pose proof (loaded_ids _ _ _ Happly) as Hids.
  pose proof (apply_rows_spec _ _ _ Happly) as Hrows. clear Happly.
  assert (Hrow : loaded_row r "" ∈ texts_data self).
  { clear Hids Hnd. induction Hrows as [|r' row raw rows (text & Ht & ->) _ IH];
      [by apply elem_of_nil in Hr|].
    apply elem_of_cons in Hr as [<-|Hr]; [|right; by apply IH].
    rewrite (process_unreadable _ _ Hbad) in Ht. injection Ht as <-. by left. }
  split; [done|]. intros other pair_name lang1 lang2 results Hother.
  rewrite <- Hids in Hnd. unfold align_rows, _align_sents.
  rewrite (loc_processed_text_unique self _ Hnd Hrow).
  rewrite (loc_processed_text_unique self _ Hnd Hother). simpl.
  by rewrite orb_true_r.
Qed.

Lemma unreadable_document_fails_every_pair_witness :
  loaded_row (mkRawRow "2" "E1" "es" "target" "written"
                (Some "<text><s>Hola.</text>")) ""
  ∈ [ mkRow "1" "E1" "en" "source" "written"
        (String.append "Hello." (String ET.nl "World."));
      mkRow "2" "E1" "es" "target" "written" "";
      mkRow "3" "E1" "it" "target" "written" "" ].
Proof.
  refine (proj1 (unreadable_document_fails_every_pair toy_parser broken_aligner
    "out" ∅ toy_sheet
    (fresh [ mkRow "1" "E1" "en" "source" "written"
               (String.append "Hello." (String ET.nl "World."));
             mkRow "2" "E1" "es" "target" "written" "";
             mkRow "3" "E1" "it" "target" "written" "" ])
    (mkRawRow "2" "E1" "es" "target" "written" (Some "<text><s>Hola.</text>"))
    _ _ _ _)).
  - vm_compute. reflexivity.
  - simpl. repeat constructor; intros H; apply list_elem_of_In in H; simpl in H;
      intuition discriminate.
  - by right; left.
  - reflexivity.
Defined.

(** ** The refined document has no blank ends *)

Lemma lstrip_head (s : string) :
  Py.lstrip s = ""
  \/ exists c r, Py.lstrip s = String c r /\ Py.isspace c = false.
Proof.
  induction s as [|c s IH]; [by left|]. simpl.
  destruct (Py.isspace c) eqn:E; [exact IH|]. right. by exists c, s.
Qed.

Lemma rstrip_idemp (s : string) : Py.rstrip (Py.rstrip s) = Py.rstrip s.
Proof.
  induction s as [|c s IH]; [done|]. cbn [Py.rstrip].
  destruct (Py.rstrip s) as [|c' r] eqn:E.
  - destruct (Py.isspace c) eqn:Ec; [done|]. cbn [Py.rstrip]. by rewrite Ec.
  - cbn [Py.rstrip] in *. by rewrite IH.
Qed.

Lemma lstrip_strip (s : string) : Py.lstrip (Py.strip s) = Py.strip s.
Proof.
  unfold Py.strip. destruct (lstrip_head s) as [->|(c & r & -> & Hc)]; [done|].
  cbn [Py.rstrip]. destruct (Py.rstrip r); rewrite ?Hc; cbn [Py.lstrip];
    by rewrite Hc.
Qed.

Lemma strip_idemp (s : string) : Py.strip (Py.strip s) = Py.strip s.
Proof.
  unfold Py.strip at 1. rewrite lstrip_strip. unfold Py.strip.
  apply rstrip_idemp.
Qed.

Lemma isspace_swap_quote (c : ascii) :
  Py.isspace (swap_quote c) = Py.isspace c.
Proof.
  unfold swap_quote. destruct (Ascii.eqb_spec c ET.dq) as [->|]; reflexivity.
Qed.

Lemma lstrip_map_swap (s : string) :
  Py.lstrip (map_chars swap_quote s) = map_chars swap_quote (Py.lstrip s).
Proof.
  induction s as [|c s IH]; [done|]. simpl. rewrite isspace_swap_quote.
  by destruct (Py.isspace c).
Qed.

Lemma rstrip_map_swap (s : string) :
  Py.rstrip (map_chars swap_quote s) = map_chars swap_quote (Py.rstrip s).
Proof.
  induction s as [|c s IH]; [done|]. cbn [map_chars Py.rstrip]. rewrite IH.
  destruct (Py.rstrip s); cbn [map_chars]; [|done].
  rewrite isspace_swap_quote. by destruct (Py.isspace c).
Qed.

(** Whatever document it is given, [refine] returns the declaration, one
    line break, and a body that neither begins nor ends with whitespace: the
    file has no blank line after the declaration and no line break at its
    end.  Whitespace is that of the ASCII range. *)
Theorem refine_body_stripped (xml_string : string) :
  exists body,
    refine xml_string = xml_declaration +:+ String ET.nl body
    /\ Py.strip body = body
    /\ Py.lstrip body = body
    /\ Py.rstrip body = body.
Proof.
  exists (map_chars swap_quote (Py.strip (Py.re_sub_tag_gap xml_string))).
  set (t := Py.re_sub_tag_gap xml_string).
  assert (Hs : Py.strip (map_chars swap_quote (Py.strip t))
               = map_chars swap_quote (Py.strip t)).
  { unfold Py.strip at 1. rewrite lstrip_map_swap, rstrip_map_swap.
    fold (Py.strip (Py.strip t)). by rewrite strip_idemp. }
  assert (Hr : Py.rstrip (map_chars swap_quote (Py.strip t))
               = map_chars swap_quote (Py.strip t)).
  { rewrite rstrip_map_swap. unfold Py.strip. by rewrite rstrip_idemp. }
  split_and!.
  - unfold refine. by rewrite replace_quotes.
  - exact Hs.
  - by rewrite lstrip_map_swap, lstrip_strip.
  - exact Hr.
Qed.
